(** * fwts: probe execution, dashboard state and inline cleanup

    A shallow embedding of [src/fwts/hooks.py] and of the state-carrying
    parts of [src/fwts/tui.py], together with the properties of the
    dashboard specification that can be settled on them.

    Conventions of the embedding.
    - Python [int] is [Z]; [str] is [string] (a sequence of bytes: the
      case mapping, the white-space class and the slices are the ASCII
      ones, which are Python's on text that passes [PyStr.is_ascii]);
      [None]-able values are [option]; a [dict] that is only looked up by
      key is a [gmap], a [dict] whose iteration order matters is an
      association list in insertion order; a [set] is a [gset].
    - A Python function that may raise returns a [result]; a method that
      also mutates [self.state] becomes a state-passing function, so that
      the writes made before a raise stay visible.
    - External collaborators (sub-processes, the file system, the
      keyboard, the review and ticket services, the cleanup operation) are
      fields of an environment record or of an explicit world value. *)

From Stdlib Require Import ZArith List String Ascii Bool Lia Permutation.
From stdpp Require Import base decidable option list gmap strings sorting pretty.

Open Scope string_scope.
Open Scope Z_scope.

(** ** Exceptions and results *)

(** The exception classes the modelled code distinguishes.  [str(e)] is
    the carried message. *)
Inductive exn : Type :=
| IndexError (msg : string)
| TimeoutError (msg : string)
| Exception (msg : string).

Definition exn_str (e : exn) : string :=
  match e with
  | IndexError m | TimeoutError m | Exception m => m
  end.

Inductive result (A : Type) : Type :=
| Ok (a : A)
| Raise (e : exn).
Arguments Ok {A} a.
Arguments Raise {A} e.

Definition is_ok {A} (r : result A) : bool :=
  match r with Ok _ => true | Raise _ => false end.

(** ** Python string operations *)

Module PyStr.

Definition is_upper (c : ascii) : bool :=
  let n := nat_of_ascii c in (65 <=? n)%nat && (n <=? 90)%nat.

Definition lower_char (c : ascii) : ascii :=
  if is_upper c then ascii_of_nat (nat_of_ascii c + 32) else c.

(** [s.lower()] on ASCII text: the letters [A] to [Z] are mapped, every
    other byte is kept.  Python also maps letters above 127; statements
    that depend on the case of such letters assume [is_ascii]. *)
Fixpoint lower (s : string) : string :=
  match s with
  | EmptyString => EmptyString
  | String c r => String (lower_char c) (lower r)
  end.

(** The characters [str.isspace] accepts below 128. *)
Definition is_space (c : ascii) : bool :=
  let n := nat_of_ascii c in
  ((9 <=? n)%nat && (n <=? 13)%nat) || ((28 <=? n)%nat && (n <=? 32)%nat).

Fixpoint lstrip (s : string) : string :=
  match s with
  | EmptyString => EmptyString
  | String c r => if is_space c then lstrip r else s
  end.

(** [rstrip] keeps a character when it is not a space or when something
    survives to its right. *)
Fixpoint rstrip (s : string) : string :=
  match s with
  | EmptyString => EmptyString
  | String c r =>
      match rstrip r with
      | EmptyString => if is_space c then EmptyString else String c EmptyString
      | r' => String c r'
      end
  end.

(** [s.strip()] on ASCII text: the white space of [is_space] is
    removed at both ends; Python also removes white space above 127. *)
Definition strip (s : string) : string := rstrip (lstrip s).

(** [s.startswith(p)] *)
Definition startswith (p s : string) : bool := String.prefix p s.

(** [needle in hay] *)
Fixpoint contains (needle hay : string) : bool :=
  String.prefix needle hay ||
  match hay with
  | EmptyString => false
  | String _ r => contains needle r
  end.

(** [s[:n]] for [n >= 0], counted in bytes: the slice of Python on
    ASCII text (on other text Python counts characters), and the count of
    [os.read]. *)
Fixpoint take (n : nat) (s : string) : string :=
  match n, s with
  | O, _ => EmptyString
  | _, EmptyString => EmptyString
  | S k, String c r => String c (take k r)
  end.

(** [s[n:]] for [n >= 0] *)
Fixpoint drop (n : nat) (s : string) : string :=
  match n, s with
  | O, _ => s
  | _, EmptyString => EmptyString
  | S k, String _ r => drop k r
  end.

(** [c in s] for a character *)
Fixpoint has_char (c : ascii) (s : string) : bool :=
  match s with
  | EmptyString => false
  | String d r => Ascii.eqb c d || has_char c r
  end.

(** [bool(s)]: a string is truthy when it is not empty. *)
Definition truthy (s : string) : bool :=
  match s with EmptyString => false | _ => true end.

(** [s.split()]: the maximal runs of non-space characters.  [cur] is the
    run read so far. *)
Fixpoint split_ws_aux (cur : string) (s : string) : list string :=
  match s with
  | EmptyString =>
      match cur with EmptyString => [] | _ => [cur] end
  | String c r =>
      if is_space c
      then match cur with
           | EmptyString => split_ws_aux EmptyString r
           | _ => cur :: split_ws_aux EmptyString r
           end
      else split_ws_aux (cur ++ String c EmptyString) r
  end.

Definition split_ws (s : string) : list string := split_ws_aux EmptyString s.

(** [s.split(sep)] for a one-character separator: empty fields are kept. *)
Fixpoint split_char_aux (sep : ascii) (cur : string) (s : string) : list string :=
  match s with
  | EmptyString => [cur]
  | String c r =>
      if Ascii.eqb c sep
      then cur :: split_char_aux sep EmptyString r
      else split_char_aux sep (cur ++ String c EmptyString) r
  end.

Definition split_char (sep : ascii) (s : string) : list string :=
  split_char_aux sep EmptyString s.

(** [sep.join(parts)] *)
Fixpoint join (sep : string) (parts : list string) : string :=
  match parts with
  | [] => EmptyString
  | [p] => p
  | p :: rest => p ++ sep ++ join sep rest
  end.

(** No character of [s] is white space. *)
Fixpoint no_space (s : string) : bool :=
  match s with
  | EmptyString => true
  | String c r => negb (is_space c) && no_space r
  end.

Definition is_lower (c : ascii) : bool :=
  let n := nat_of_ascii c in (97 <=? n)%nat && (n <=? 122)%nat.

Definition upper_char (c : ascii) : ascii :=
  if is_lower c then ascii_of_nat (nat_of_ascii c - 32) else c.

(** [s.upper()] *)
Fixpoint upper (s : string) : string :=
  match s with
  | EmptyString => EmptyString
  | String c r => String (upper_char c) (upper r)
  end.

Definition is_digit (c : ascii) : bool :=
  let n := nat_of_ascii c in (48 <=? n)%nat && (n <=? 57)%nat.

Fixpoint all_digits (s : string) : bool :=
  match s with
  | EmptyString => true
  | String c r => is_digit c && all_digits r
  end.

(** [s.isdigit()]: at least one character, and only digits. *)
Definition isdigit (s : string) : bool := truthy s && all_digits s.

(** [s.isascii()]: every character is below 128.  On such text a byte
    is a character, and [lower], [strip] and [take] are [str.lower],
    [str.strip] and the slice [s[:n]]. *)
Definition is_ascii_char (c : ascii) : bool := (nat_of_ascii c <? 128)%nat.

Fixpoint is_ascii (s : string) : bool :=
  match s with
  | EmptyString => true
  | String c r => is_ascii_char c && is_ascii r
  end.

End PyStr.

(** ** Column hooks ([hooks.py]) *)

Module Hooks.

(** [fwts.config.ColumnHook]; [color_map] in registration order. *)
Record ColumnHook : Type := {
  ch_name : string;
  ch_hook : string;
  ch_color_map : list (string * string)
}.

(** [fwts.git.Worktree] *)
Record Worktree : Type := {
  wt_path : string;
  wt_branch : string;
  wt_is_bare : bool
}.

Record HookResult : Type := {
  hr_worktree_path : string;
  hr_column_name : string;
  hr_value : string;
  hr_color : option string
}.

(** What awaiting [anyio.run_process(["bash", "-c", cmd], ...)] and
    decoding its standard output does, with the time it takes in
    milliseconds: the call returns when the child has exited, or raises. *)
Inductive proc_outcome : Type :=
| Completed (elapsed : Z) (stdout : string)
| ProcRaised (elapsed : Z) (e : exn).

(** The surroundings of a hook run. *)
Record Env : Type := {
  environ : gmap string string;
  home : string;
  path_exists : string -> bool;
  run_process : string -> Worktree -> proc_outcome
}.

(** [d / name] of [pathlib], as text: an absolute right operand
    replaces the left one, another one is appended after a slash.  This is
    the text [pathlib] gives when the operands are in its normal form
    ([normal_dir] and [plain_name] below); it drops doubled and trailing
    slashes and lone dots that other operands may hold. *)
Definition path_join (d name : string) : string :=
  if PyStr.startswith "/" name then name else d ++ "/" ++ name.

(** [Path(p).expanduser()] for a leading [~]. *)
Definition expanduser (env : Env) (p : string) : string :=
  match p with
  | String "~" EmptyString => home env
  | String "~" (String "/" r) => path_join (home env) r
  | _ => p
  end.

(** [paths.get_config_dir] *)
Definition get_config_dir (env : Env) : string :=
  match environ env !! "FWTS_CONFIG_DIR" with
  | Some (String _ _ as override) => expanduser env override
  | _ =>
      match environ env !! "XDG_CONFIG_HOME" with
      | Some (String _ _ as xdg_config) => path_join xdg_config "fwts"
      | _ => path_join (path_join (home env) ".config") "fwts"
      end
  end.

(** [paths.get_global_hooks_dir] *)
Definition get_global_hooks_dir (env : Env) : string :=
  path_join (get_config_dir env) "hooks".

(** The command [run_hook] hands to the shell: a leading bare token that
    names a script in the worktree's or the global hook directory is
    replaced by that script's path.  [hook_cmd.split()[0]] raises
    [IndexError] on a blank command. *)
Definition resolve_command (env : Env) (hook : ColumnHook) (worktree : Worktree)
  : result string :=
  let hook_cmd := ch_hook hook in
  let hooks_dir := path_join (path_join (wt_path worktree) ".fwts") "hooks" in
  let global_hooks := get_global_hooks_dir env in
  if PyStr.startswith "/" hook_cmd then Ok hook_cmd
  else
    match PyStr.split_ws hook_cmd with
    | [] => Raise (IndexError "list index out of range")
    | script_name :: args =>
        if PyStr.contains " " script_name then Ok hook_cmd
        else
          match find (fun d => path_exists env (path_join d script_name))
                     [hooks_dir; global_hooks] with
          | Some d =>
              let script_path := path_join d script_name in
              Ok (if Z.ltb 1 (Z.of_nat (List.length (PyStr.split_ws (ch_hook hook))))
                  then script_path ++ " " ++ PyStr.join " " args
                  else script_path)
          | None => Ok hook_cmd
          end
    end.

(** [d.get(k)] on a table kept in registration order. *)
Definition dict_get (k : string) (d : list (string * string)) : option string :=
  snd <$> find (fun kv => String.eqb (fst kv) k) d.

(** [bool(color)] for [color : str | None] *)
Definition color_truthy (color : option string) : bool :=
  match color with
  | Some c => PyStr.truthy c
  | None => false
  end.

(** Lines 77-84 of [run_hook]: the colour of an output. *)
Definition resolve_color (color_map : list (string * string)) (output : string)
  : option string :=
  let color := dict_get (PyStr.lower output) color_map in
  if color_truthy color then color
  else
    match find (fun kv => PyStr.contains (PyStr.lower (fst kv)) (PyStr.lower output))
               color_map with
    | Some kv => Some (snd kv)
    | None => color
    end.

(** The [try] block of [run_hook]: the output text and the time spent. *)
Definition hook_output (env : Env) (hook_cmd : string) (worktree : Worktree)
  : Z * string :=
  match run_process env hook_cmd worktree with
  | Completed t stdout => (t, PyStr.strip stdout)
  | ProcRaised t (TimeoutError _) => (t, "timeout")
  | ProcRaised t _ => (t, "error")
  end.

(** [run_hook]: the time until the coroutine finishes and what it
    yields.  The [timeout] argument is accepted and, as in the source,
    used nowhere in the body. *)
Definition run_hook (env : Env) (hook : ColumnHook) (worktree : Worktree)
    (timeout : Z) : Z * result HookResult :=
  match resolve_command env hook worktree with
  | Raise e => (0, Raise e)
  | Ok hook_cmd =>
      let '(elapsed, output) := hook_output env hook_cmd worktree in
      (elapsed,
       Ok {| hr_worktree_path := wt_path worktree;
             hr_column_name := ch_name hook;
             hr_value := if PyStr.truthy output then PyStr.take 20 output else "-";
             hr_color := resolve_color (ch_color_map hook) output |})
  end.

(** The coroutines [run_all_hooks] creates, in creation order: worktrees
    in the outer loop, hooks in the inner one. *)
Definition hook_tasks (hooks : list ColumnHook) (worktrees : list Worktree)
  : list (ColumnHook * Worktree) :=
  worktree ← worktrees; hook ← hooks; [(hook, worktree)].

(** The loop over the gathered results: a [HookResult] is filed under its
    worktree path and column name, anything else is passed over. *)
Definition organize_step (organized : gmap string (gmap string HookResult))
    (r : result HookResult) : gmap string (gmap string HookResult) :=
  match r with
  | Ok hr =>
      let inner := default ∅ (organized !! hr_worktree_path hr) in
      <[hr_worktree_path hr := <[hr_column_name hr := hr]> inner]> organized
  | Raise _ => organized
  end.

Definition organize (results : list (result HookResult))
  : gmap string (gmap string HookResult) :=
  foldl organize_step ∅ results.

(** [organized[path][name]], when both keys are present. *)
Definition lookup2 (m : gmap string (gmap string HookResult)) (path name : string)
  : option HookResult :=
  match m !! path with
  | Some inner => inner !! name
  | None => None
  end.

(** The last [HookResult] of a list of gathered results that carries the
    given path and name, [acc] when there is none. *)
Fixpoint last_ok (path name : string) (results : list (result HookResult))
    (acc : option HookResult) : option HookResult :=
  match results with
  | [] => acc
  | Ok hr :: rest =>
      last_ok path name rest
        (if bool_decide (hr_worktree_path hr = path /\ hr_column_name hr = name)
         then Some hr else acc)
  | Raise _ :: rest => last_ok path name rest acc
  end.

(** What one call of [run_all_hooks] does: the coroutines it started, the
    time [asyncio.gather] waited (the slowest of them), and the mapping
    it returns. *)
Record BatchRun : Type := {
  spawned : list (ColumnHook * Worktree);
  batch_elapsed : Z;
  organized : gmap string (gmap string HookResult)
}.

Definition run_all_hooks (env : Env) (hooks : list ColumnHook)
    (worktrees : list Worktree) (timeout : Z) : BatchRun :=
  match hooks, worktrees with
  | [], _ | _, [] => {| spawned := []; batch_elapsed := 0; organized := ∅ |}
  | _, _ =>
      let tasks := hook_tasks hooks worktrees in
      let runs := map (fun t => run_hook env (fst t) (snd t) timeout) tasks in
      {| spawned := tasks;
         batch_elapsed := foldr Z.max 0 (map fst runs);
         organized := organize (map snd runs) |}
  end.

(** The shell text of the four built-in hooks (lines 137-155, 167-209,
    223-241 and 256-296 of [hooks.py]); the properties below do not look
    inside it. *)
Record BuiltinScripts : Type := {
  local_script : string;
  merge_script : string;
  ci_script : string;
  claude_script : string
}.

(** [get_builtin_hooks] *)
Definition get_builtin_hooks (sh : BuiltinScripts) : list ColumnHook :=
  [ {| ch_name := "Local";
       ch_hook := local_script sh;
       ch_color_map := [("synced", "dim"); ("clean", "dim"); ("↑", "cyan");
                        ("∗", "yellow")] |};
    {| ch_name := "Merge";
       ch_hook := merge_script sh;
       ch_color_map := [("ready", "green"); ("conflict", "red"); ("blocked", "yellow");
                        ("draft", "dim"); ("no PR", "dim"); ("unknown", "dim")] |};
    {| ch_name := "CI";
       ch_hook := ci_script sh;
       ch_color_map := [("pass", "green"); ("pass*", "green"); ("fail", "red");
                        ("req-fail", "red"); ("pending", "yellow"); ("none", "dim")] |};
    {| ch_name := "Claude";
       ch_hook := claude_script sh;
       ch_color_map := [("typing", "green"); ("waiting", "yellow"); ("idle", "dim");
                        ("off", "dim")] |} ].

(** A path component that [pathlib] keeps as it is: not empty, without
    a slash, and not the lone dot. *)
Definition plain_name (name : string) : bool :=
  PyStr.truthy name && negb (PyStr.has_char "/" name) && negb (String.eqb name ".").

(** The text of an absolute path in the normal form of [pathlib], the
    root apart: a slash before each of one or more plain components.
    [str(Path(d))] is [d] for such a [d], and [str(Path(d) / name)] is
    [path_join d name] for a plain [name]. *)
Definition normal_dir (d : string) : bool :=
  match PyStr.split_char "/" d with
  | EmptyString :: (_ :: _ as components) => forallb plain_name components
  | _ => false
  end.

(** A directory variable of the environment that is unset, empty or in
    normal form. *)
Definition env_dir_ok (v : option string) : bool :=
  match v with
  | Some (String _ _ as d) => normal_dir d
  | _ => true
  end.

(** Surroundings in which the home directory and the two variables
    [get_config_dir] reads are in normal form, so that [get_config_dir]
    gives the text of the path the program computes. *)
Definition normal_env (env : Env) : bool :=
  normal_dir (home env)
  && env_dir_ok (environ env !! "FWTS_CONFIG_DIR")
  && env_dir_ok (environ env !! "XDG_CONFIG_HOME").

End Hooks.

(** ** The dashboard ([tui.py]): data *)

Module Tui.
Import Hooks.

Inductive TUIMode : Type :=
| WORKTREES | TICKETS_MINE | TICKETS_REVIEW | TICKETS_ALL | PRS.

#[global] Instance TUIMode_eq_dec : EqDecision TUIMode.
Proof. solve_decision. Defined.

(** [github.ReviewState] and [github.MergeableState] *)
Inductive ReviewState : Type :=
| PENDING | APPROVED | CHANGES_REQUESTED | COMMENTED | DISMISSED.

Inductive MergeableState : Type := MERGEABLE | CONFLICTING | UNKNOWN.

(** [github.PRInfo] *)
Record PRInfo : Type := {
  pr_number : Z;
  pr_title : string;
  pr_branch : string;
  pr_base_branch : string;
  pr_state : string;
  pr_url : string;
  pr_review_decision : option ReviewState;
  pr_mergeable : MergeableState;
  pr_is_draft : bool
}.

(** [github.DetailedPRInfo], the fields the data loaders read. *)
Record DetailedPRInfo : Type := {
  dpr_number : Z;
  dpr_branch : string;
  dpr_url : string;
  dpr_review_requestees : list string;
  dpr_current_username : option string
}.

(** The [needs_your_review] property. *)
Definition needs_your_review (pr : DetailedPRInfo) : bool :=
  match dpr_current_username pr with
  | Some (String _ _ as u) => bool_decide (u ∈ dpr_review_requestees pr)
  | _ => false
  end.

Record WorktreeInfo : Type := {
  wi_worktree : Worktree;
  wi_session_active : bool;
  wi_docker_status : option string;
  wi_hook_data : gmap string HookResult;
  wi_pr_info : option PRInfo
}.

Record PRDisplayInfo : Type := {
  pd_pr : DetailedPRInfo;
  pd_has_local_worktree : bool;
  pd_worktree_branch : option string
}.

(** A ticket as the Linear client returns it ([fwts.linear], read through
    the attributes [_load_ticket_data] copies). *)
Record RawTicket : Type := {
  rt_id : string;
  rt_identifier : string;
  rt_title : string;
  rt_state : string;
  rt_state_type : string;
  rt_priority : Z;
  rt_assignee : option string;
  rt_url : string;
  rt_branch_name : string
}.

Record TicketInfo : Type := {
  ti_id : string;
  ti_identifier : string;
  ti_title : string;
  ti_state : string;
  ti_state_type : string;
  ti_priority : Z;
  ti_assignee : option string;
  ti_url : string;
  ti_branch_name : string;
  ti_has_local_worktree : bool;
  ti_pr_info : option PRInfo
}.

(** [TUIState]; times are in milliseconds. *)
Record TUIState : Type := {
  cursor : Z;
  selected : gset Z;
  viewport_start : Z;
  mode : TUIMode;
  running : bool;
  status_message : option string;
  status_style : string;
  needs_refresh : bool;
  loading : bool;
  last_refresh : Z;
  worktrees : list WorktreeInfo;
  tickets : list TicketInfo;
  prs : list PRDisplayInfo;
  last_terminal_size : Z * Z;
  resize_detected : bool
}.

(** The state [TUIState(mode=initial_mode)] builds. *)
Definition initial_state (initial_mode : TUIMode) : TUIState :=
  {| cursor := 0; selected := ∅; viewport_start := 0; mode := initial_mode;
     running := true; status_message := None; status_style := "dim";
     needs_refresh := true; loading := false; last_refresh := 0;
     worktrees := []; tickets := []; prs := [];
     last_terminal_size := (0, 0); resize_detected := false |}.

(** Field assignments. *)
Definition set_cursor (v : Z) (s : TUIState) : TUIState :=
  {| cursor := v; selected := selected s; viewport_start := viewport_start s;
     mode := mode s; running := running s; status_message := status_message s;
     status_style := status_style s; needs_refresh := needs_refresh s;
     loading := loading s; last_refresh := last_refresh s; worktrees := worktrees s;
     tickets := tickets s; prs := prs s; last_terminal_size := last_terminal_size s;
     resize_detected := resize_detected s |}.

Definition set_selected (v : gset Z) (s : TUIState) : TUIState :=
  {| cursor := cursor s; selected := v; viewport_start := viewport_start s;
     mode := mode s; running := running s; status_message := status_message s;
     status_style := status_style s; needs_refresh := needs_refresh s;
     loading := loading s; last_refresh := last_refresh s; worktrees := worktrees s;
     tickets := tickets s; prs := prs s; last_terminal_size := last_terminal_size s;
     resize_detected := resize_detected s |}.

Definition set_viewport_start (v : Z) (s : TUIState) : TUIState :=
  {| cursor := cursor s; selected := selected s; viewport_start := v;
     mode := mode s; running := running s; status_message := status_message s;
     status_style := status_style s; needs_refresh := needs_refresh s;
     loading := loading s; last_refresh := last_refresh s; worktrees := worktrees s;
     tickets := tickets s; prs := prs s; last_terminal_size := last_terminal_size s;
     resize_detected := resize_detected s |}.

Definition set_mode (v : TUIMode) (s : TUIState) : TUIState :=
  {| cursor := cursor s; selected := selected s; viewport_start := viewport_start s;
     mode := v; running := running s; status_message := status_message s;
     status_style := status_style s; needs_refresh := needs_refresh s;
     loading := loading s; last_refresh := last_refresh s; worktrees := worktrees s;
     tickets := tickets s; prs := prs s; last_terminal_size := last_terminal_size s;
     resize_detected := resize_detected s |}.

Definition set_running (v : bool) (s : TUIState) : TUIState :=
  {| cursor := cursor s; selected := selected s; viewport_start := viewport_start s;
     mode := mode s; running := v; status_message := status_message s;
     status_style := status_style s; needs_refresh := needs_refresh s;
     loading := loading s; last_refresh := last_refresh s; worktrees := worktrees s;
     tickets := tickets s; prs := prs s; last_terminal_size := last_terminal_size s;
     resize_detected := resize_detected s |}.

Definition set_status_message (v : option string) (s : TUIState) : TUIState :=
  {| cursor := cursor s; selected := selected s; viewport_start := viewport_start s;
     mode := mode s; running := running s; status_message := v;
     status_style := status_style s; needs_refresh := needs_refresh s;
     loading := loading s; last_refresh := last_refresh s; worktrees := worktrees s;
     tickets := tickets s; prs := prs s; last_terminal_size := last_terminal_size s;
     resize_detected := resize_detected s |}.

Definition set_status_style (v : string) (s : TUIState) : TUIState :=
  {| cursor := cursor s; selected := selected s; viewport_start := viewport_start s;
     mode := mode s; running := running s; status_message := status_message s;
     status_style := v; needs_refresh := needs_refresh s;
     loading := loading s; last_refresh := last_refresh s; worktrees := worktrees s;
     tickets := tickets s; prs := prs s; last_terminal_size := last_terminal_size s;
     resize_detected := resize_detected s |}.

Definition set_needs_refresh (v : bool) (s : TUIState) : TUIState :=
  {| cursor := cursor s; selected := selected s; viewport_start := viewport_start s;
     mode := mode s; running := running s; status_message := status_message s;
     status_style := status_style s; needs_refresh := v;
     loading := loading s; last_refresh := last_refresh s; worktrees := worktrees s;
     tickets := tickets s; prs := prs s; last_terminal_size := last_terminal_size s;
     resize_detected := resize_detected s |}.

Definition set_loading (v : bool) (s : TUIState) : TUIState :=
  {| cursor := cursor s; selected := selected s; viewport_start := viewport_start s;
     mode := mode s; running := running s; status_message := status_message s;
     status_style := status_style s; needs_refresh := needs_refresh s;
     loading := v; last_refresh := last_refresh s; worktrees := worktrees s;
     tickets := tickets s; prs := prs s; last_terminal_size := last_terminal_size s;
     resize_detected := resize_detected s |}.

Definition set_last_refresh (v : Z) (s : TUIState) : TUIState :=
  {| cursor := cursor s; selected := selected s; viewport_start := viewport_start s;
     mode := mode s; running := running s; status_message := status_message s;
     status_style := status_style s; needs_refresh := needs_refresh s;
     loading := loading s; last_refresh := v; worktrees := worktrees s;
     tickets := tickets s; prs := prs s; last_terminal_size := last_terminal_size s;
     resize_detected := resize_detected s |}.

Definition set_worktrees (v : list WorktreeInfo) (s : TUIState) : TUIState :=
  {| cursor := cursor s; selected := selected s; viewport_start := viewport_start s;
     mode := mode s; running := running s; status_message := status_message s;
     status_style := status_style s; needs_refresh := needs_refresh s;
     loading := loading s; last_refresh := last_refresh s; worktrees := v;
     tickets := tickets s; prs := prs s; last_terminal_size := last_terminal_size s;
     resize_detected := resize_detected s |}.

Definition set_tickets (v : list TicketInfo) (s : TUIState) : TUIState :=
  {| cursor := cursor s; selected := selected s; viewport_start := viewport_start s;
     mode := mode s; running := running s; status_message := status_message s;
     status_style := status_style s; needs_refresh := needs_refresh s;
     loading := loading s; last_refresh := last_refresh s; worktrees := worktrees s;
     tickets := v; prs := prs s; last_terminal_size := last_terminal_size s;
     resize_detected := resize_detected s |}.

Definition set_prs (v : list PRDisplayInfo) (s : TUIState) : TUIState :=
  {| cursor := cursor s; selected := selected s; viewport_start := viewport_start s;
     mode := mode s; running := running s; status_message := status_message s;
     status_style := status_style s; needs_refresh := needs_refresh s;
     loading := loading s; last_refresh := last_refresh s; worktrees := worktrees s;
     tickets := tickets s; prs := v; last_terminal_size := last_terminal_size s;
     resize_detected := resize_detected s |}.

Definition set_terminal (size : Z * Z) (detected : bool) (s : TUIState) : TUIState :=
  {| cursor := cursor s; selected := selected s; viewport_start := viewport_start s;
     mode := mode s; running := running s; status_message := status_message s;
     status_style := status_style s; needs_refresh := needs_refresh s;
     loading := loading s; last_refresh := last_refresh s; worktrees := worktrees s;
     tickets := tickets s; prs := prs s; last_terminal_size := size;
     resize_detected := detected |}.

(** [TUIState.set_status] and [FwtsTUI.set_status] *)
Definition set_status (message : option string) (style : string) (s : TUIState)
  : TUIState :=
  set_status_style style (set_status_message message s).

(** [TUIState.reset_navigation] *)
Definition reset_navigation (s : TUIState) : TUIState :=
  set_selected ∅ (set_viewport_start 0 (set_cursor 0 s)).

(** *** Collaborators *)

(** The parts of [fwts.config.Config] the modelled code reads. *)
Record Config : Type := {
  main_repo : string;
  base_branch : string;
  github_repo : option string;
  linear_api_key : option string;
  docker_enabled : bool;
  docker_compose_file : string;
  tui_columns : list ColumnHook
}.

(** The modules [tui.py] imports and calls ([fwts.git], [fwts.tmux],
    [fwts.github], [fwts.linear], [fwts.docker]), the clock, and the two
    key handlers whose only effect on the state is a [set_status]. *)
Record Collab : Type := {
  config : Config;
  hooks_env : Hooks.Env;
  builtin_scripts : BuiltinScripts;
  now : Z;
  list_worktrees : string -> result (list Worktree);
  session_name_from_branch : string -> string;
  session_exists : string -> result bool;
  get_pr_by_branch : string -> string -> result (option PRInfo);
  search_pr_by_ticket : string -> string -> result (option PRInfo);
  list_prs_detailed : string -> result (list DetailedPRInfo);
  compose_ps : Worktree -> result (list string);
  list_my_tickets : option string -> result (list RawTicket);
  list_review_requests : option string -> result (list RawTicket);
  list_team_tickets : option string -> result (list RawTicket);
  open_current_url : bool -> TUIState -> option (string * string);
  show_unpushed_commits : TUIState -> option (string * string)
}.

(** *** Navigation and keys *)

(** [FwtsTUI]: the state, the size of the shared [console] (columns,
    lines) and the pending-action flags. *)
Record FwtsTUI : Type := {
  state : TUIState;
  console_size : Z * Z;
  pending_cleanup : bool;
  pending_docker_down : bool;
  pending_docker_up : bool
}.

Definition with_state (f : TUIState -> TUIState) (t : FwtsTUI) : FwtsTUI :=
  {| state := f (state t); console_size := console_size t;
     pending_cleanup := pending_cleanup t;
     pending_docker_down := pending_docker_down t;
     pending_docker_up := pending_docker_up t |}.

Definition set_pending (cleanup down up : bool) (t : FwtsTUI) : FwtsTUI :=
  {| state := state t; console_size := console_size t;
     pending_cleanup := cleanup; pending_docker_down := down;
     pending_docker_up := up |}.

Definition set_console_size (size : Z * Z) (t : FwtsTUI) : FwtsTUI :=
  {| state := state t; console_size := size;
     pending_cleanup := pending_cleanup t;
     pending_docker_down := pending_docker_down t;
     pending_docker_up := pending_docker_up t |}.

(** The [viewport_size] property: [max(5, console.height - 13)]. *)
Definition viewport_size_of (console_height : Z) : Z :=
  Z.max 5 (console_height - 13).

Definition viewport_size (t : FwtsTUI) : Z :=
  viewport_size_of (snd (console_size t)).

(** [len(self._get_current_items())] *)
Definition current_len (s : TUIState) : Z :=
  match mode s with
  | WORKTREES => Z.of_nat (length (worktrees s))
  | PRS => Z.of_nat (length (prs s))
  | _ => Z.of_nat (length (tickets s))
  end.

(** [_switch_mode] *)
Definition switch_mode (new_mode : TUIMode) (s : TUIState) : TUIState :=
  if decide (new_mode ≠ mode s)
  then set_needs_refresh true
         (set_selected ∅ (set_viewport_start 0 (set_cursor 0 (set_mode new_mode s))))
  else s.

Definition modes : list TUIMode :=
  [WORKTREES; TICKETS_MINE; TICKETS_REVIEW; TICKETS_ALL; PRS].

(** [modes.index(m)] *)
Definition mode_index (m : TUIMode) : nat :=
  match m with
  | WORKTREES => 0 | TICKETS_MINE => 1 | TICKETS_REVIEW => 2
  | TICKETS_ALL => 3 | PRS => 4
  end%nat.

(** [_cycle_mode] *)
Definition cycle_mode (s : TUIState) : TUIState :=
  let current_idx := mode_index (mode s) in
  let next_idx := ((current_idx + 1) mod length modes)%nat in
  switch_mode (nth next_idx modes WORKTREES) s.

Definition ESC : string := String (ascii_of_nat 27) EmptyString.
Definition KEY_UP : string := ESC ++ "[A".
Definition KEY_DOWN : string := ESC ++ "[B".
Definition KEY_TAB : string := String (ascii_of_nat 9) EmptyString.
Definition KEY_CR : string := String (ascii_of_nat 13) EmptyString.
Definition KEY_LF : string := String (ascii_of_nat 10) EmptyString.

(** [key in (k1, k2, ...)] *)
Definition key_in (key : string) (ks : list string) : bool :=
  existsb (String.eqb key) ks.

(** The [j]/down branch of [_handle_key]. *)
Definition move_down (vsize : Z) (s : TUIState) : TUIState :=
  let n := current_len s in
  let s1 := set_cursor (if 0 <? n then Z.min (cursor s + 1) (n - 1) else 0) s in
  if cursor s1 >=? viewport_start s1 + vsize
  then set_viewport_start (cursor s1 - vsize + 1) s1
  else s1.

(** The [k]/up branch of [_handle_key]. *)
Definition move_up (s : TUIState) : TUIState :=
  let s1 := set_cursor (Z.max (cursor s - 1) 0) s in
  if cursor s1 <? viewport_start s1
  then set_viewport_start (cursor s1) s1
  else s1.

(** The space key: toggle the row under the cursor. *)
Definition toggle_selected (s : TUIState) : TUIState :=
  if decide (cursor s ∈ selected s)
  then set_selected (selected s ∖ {[cursor s]}) s
  else set_selected (selected s ∪ {[cursor s]}) s.

(** The [a] key: all rows, or none when all are selected. *)
Definition toggle_all (s : TUIState) : TUIState :=
  if decide (size (selected s) = length (worktrees s))
  then set_selected ∅ s
  else set_selected (list_to_set (seqZ 0 (Z.of_nat (length (worktrees s))))) s.

Definition apply_status (st : option (string * string)) (s : TUIState) : TUIState :=
  match st with
  | Some (message, style) => set_status (Some message) style s
  | None => s
  end.

(** [_handle_key]: the action it returns and the object afterwards. *)
Definition handle_key (c : Collab) (key : string) (t : FwtsTUI)
  : option string * FwtsTUI :=
  if key_in key ["q"; "Q"] then (None, with_state (set_running false) t)
  else if String.eqb key KEY_TAB then (None, with_state cycle_mode t)
  else if String.eqb key "1" then (None, with_state (switch_mode WORKTREES) t)
  else if String.eqb key "2" then (None, with_state (switch_mode TICKETS_MINE) t)
  else if String.eqb key "3" then (None, with_state (switch_mode TICKETS_REVIEW) t)
  else if String.eqb key "4" then (None, with_state (switch_mode TICKETS_ALL) t)
  else if String.eqb key "5" then (None, with_state (switch_mode PRS) t)
  else if key_in key ["j"; KEY_DOWN]
  then (None, with_state (move_down (viewport_size t)) t)
  else if key_in key ["k"; KEY_UP] then (None, with_state move_up t)
  else if key_in key ["o"; "O"]
  then (None, with_state (apply_status (open_current_url c false (state t))) t)
  else if key_in key ["p"; "P"]
  then (None, with_state (apply_status (open_current_url c true (state t))) t)
  else if key_in key ["r"; "R"] then (None, with_state (set_needs_refresh true) t)
  else
    match mode (state t) with
    | WORKTREES =>
        if String.eqb key " " then (None, with_state toggle_selected t)
        else if key_in key ["a"; "A"] then (None, with_state toggle_all t)
        else if key_in key [KEY_CR; KEY_LF] then (Some "launch", t)
        else if key_in key ["d"; "D"]
        then (None, set_pending true (pending_docker_down t) (pending_docker_up t) t)
        else if key_in key ["l"; "L"]
        then (None, with_state (apply_status (show_unpushed_commits c (state t))) t)
        else if String.eqb key "x"
        then (None, set_pending (pending_cleanup t) true (pending_docker_up t) t)
        else if String.eqb key "X"
        then (None, set_pending (pending_cleanup t) (pending_docker_down t) true t)
        else (None, t)
    | PRS =>
        if key_in key [KEY_CR; KEY_LF] then (Some "open_pr", t) else (None, t)
    | _ =>
        if key_in key [KEY_CR; KEY_LF] then (Some "start_ticket", t) else (None, t)
    end.

(** [seq[i]] of Python: a negative index counts from the end, an index
    outside the sequence raises. *)
Definition py_index {A} (l : list A) (i : Z) : result A :=
  let n := Z.of_nat (length l) in
  let j := if i <? 0 then i + n else i in
  if (0 <=? j) && (j <? n)
  then match l !! Z.to_nat j with
       | Some x => Ok x
       | None => Raise (IndexError "list index out of range")
       end
  else Raise (IndexError "list index out of range").

(** [[f(x) for x in xs]] where [f] may raise: the first raise ends it. *)
Fixpoint map_result {A B} (f : A -> result B) (xs : list A) : result (list B) :=
  match xs with
  | [] => Ok []
  | x :: r =>
      match f x with
      | Raise e => Raise e
      | Ok y =>
          match map_result f r with
          | Raise e => Raise e
          | Ok ys => Ok (y :: ys)
          end
      end
  end.

(** [sorted(s)] for a set of integers. *)
Definition sorted_set (s : gset Z) : list Z := merge_sort Z.le (elements s).

(** [get_selected_worktrees] *)
Definition get_selected_worktrees (s : TUIState) : result (list WorktreeInfo) :=
  if decide (selected s = ∅)
  then
    if (0 <=? cursor s) && (cursor s <? Z.of_nat (length (worktrees s)))
    then match py_index (worktrees s) (cursor s) with
         | Ok x => Ok [x]
         | Raise e => Raise e
         end
    else Ok []
  else map_result (py_index (worktrees s)) (sorted_set (selected s)).

(** [_adjust_viewport_after_resize(items)] *)
Definition adjust_viewport_after_resize (vsize : Z) (s : TUIState) : TUIState :=
  let n := current_len s in
  if n =? 0 then s
  else
    let s1 := set_cursor (Z.min (cursor s) (n - 1)) s in
    let max_start := Z.max 0 (n - vsize) in
    let s2 := set_viewport_start (Z.min (viewport_start s1) max_start) s1 in
    if cursor s2 <? viewport_start s2
    then set_viewport_start (cursor s2) s2
    else if cursor s2 >=? viewport_start s2 + vsize
         then set_viewport_start (cursor s2 - vsize + 1) s2
         else s2.

(** The resize check at the top of each iteration of the loop in [run]. *)
Definition check_resize (t : FwtsTUI) : FwtsTUI :=
  let current_size := console_size t in
  if resize_detected (state t)
     || negb (bool_decide (current_size = last_terminal_size (state t)))
  then with_state (fun s => adjust_viewport_after_resize (viewport_size t)
                              (set_terminal current_size false s)) t
  else t.

(** *** Sorting with a key *)

(** [list.sort(key=...)] is stable and ascending; the stable insertion
    sort computes the same list. *)
Fixpoint insert_by {A} (le : A -> A -> bool) (x : A) (l : list A) : list A :=
  match l with
  | [] => [x]
  | y :: r => if le x y then x :: y :: r else y :: insert_by le x r
  end.

Definition sort_by {A} (le : A -> A -> bool) (l : list A) : list A :=
  foldr (insert_by le) [] l.

(** Comparison of 3-tuples of integers, as Python compares tuples. *)
Definition tuple3_le (a b : Z * Z * Z) : bool :=
  let '(a1, a2, a3) := a in
  let '(b1, b2, b3) := b in
  (a1 <? b1) || ((a1 =? b1) && ((a2 <? b2) || ((a2 =? b2) && (a3 <=? b3)))).

(** [type_order.get(state_type.lower(), 5)] *)
Definition type_order (state_type : string) : Z :=
  let k := PyStr.lower state_type in
  if String.eqb k "started" then 0
  else if String.eqb k "unstarted" then 1
  else if String.eqb k "backlog" then 2
  else if String.eqb k "completed" then 3
  else if String.eqb k "canceled" then 4
  else 5.

Definition pr_sort_key (ticket : TicketInfo) : Z :=
  match ti_pr_info ticket with
  | None => 0
  | Some pr =>
      if String.eqb (pr_state pr) "merged" then 4
      else if String.eqb (pr_state pr) "closed" then 5
      else if pr_is_draft pr then 1
      else match pr_review_decision pr with
           | Some APPROVED => 3
           | _ => 2
           end
  end.

(** The [key] of the ticket sort. *)
Definition ticket_key (t : TicketInfo) : Z * Z * Z :=
  (type_order (ti_state_type t), pr_sort_key t, - ti_priority t).

Definition sort_tickets (l : list TicketInfo) : list TicketInfo :=
  sort_by (fun a b => tuple3_le (ticket_key a) (ticket_key b)) l.


(** The order of the specification, written out: category rank, then
    review rank, then priority from high to low. *)
Definition ticket_before (a b : TicketInfo) : Prop :=
  type_order (ti_state_type a) < type_order (ti_state_type b)
  \/ (type_order (ti_state_type a) = type_order (ti_state_type b)
      /\ (pr_sort_key a < pr_sort_key b
          \/ (pr_sort_key a = pr_sort_key b /\ ti_priority b <= ti_priority a))).

(** The comparison the ticket sort makes on two tickets. *)
Definition ticket_le (a b : TicketInfo) : bool :=
  tuple3_le (ticket_key a) (ticket_key b).

(** Two elements a comparison cannot tell apart. *)
Definition tied {A} (le : A -> A -> bool) (x y : A) : bool := le x y && le y x.

(** The [key] of the pull-request sort: [(not needs_your_review,)]. *)
Definition pr_display_key (p : PRDisplayInfo) : Z :=
  if needs_your_review (pd_pr p) then 0 else 1.

Definition sort_prs (l : list PRDisplayInfo) : list PRDisplayInfo :=
  sort_by (fun a b => pr_display_key a <=? pr_display_key b) l.

(** *** Data loading *)

(** [bool(s)] for [s : str | None] *)
Definition opt_truthy (o : option string) : bool :=
  match o with
  | Some s => PyStr.truthy s
  | None => false
  end.

(** [_get_feature_worktrees] *)
Definition get_feature_worktrees (c : Collab) : result (list Worktree) :=
  match list_worktrees c (main_repo (config c)) with
  | Raise e => Raise e
  | Ok all_worktrees =>
      Ok (List.filter
            (fun wt => negb (wt_is_bare wt)
                       && negb (String.eqb (wt_branch wt) (base_branch (config c))))
            all_worktrees)
  end.

(** A call under [contextlib.suppress(Exception)] that assigns to a
    variable initialised to [None]. *)
Definition suppressed {A} (r : result (option A)) : option A :=
  match r with
  | Ok v => v
  | Raise _ => None
  end.

(** The first loop of [_load_worktree_data], for one worktree. *)
Definition make_worktree_info (c : Collab) (wt : Worktree) : result WorktreeInfo :=
  match session_exists c (session_name_from_branch c (wt_branch wt)) with
  | Raise e => Raise e
  | Ok active =>
      Ok {| wi_worktree := wt;
            wi_session_active := active;
            wi_docker_status := None;
            wi_hook_data := ∅;
            wi_pr_info :=
              match github_repo (config c) with
              | Some (String _ _ as repo) =>
                  suppressed (get_pr_by_branch c (wt_branch wt) repo)
              | _ => None
              end |}
  end.

Definition set_docker_status (v : option string) (i : WorktreeInfo) : WorktreeInfo :=
  {| wi_worktree := wi_worktree i; wi_session_active := wi_session_active i;
     wi_docker_status := v; wi_hook_data := wi_hook_data i;
     wi_pr_info := wi_pr_info i |}.

Definition set_hook_data (v : gmap string HookResult) (i : WorktreeInfo)
  : WorktreeInfo :=
  {| wi_worktree := wi_worktree i; wi_session_active := wi_session_active i;
     wi_docker_status := wi_docker_status i; wi_hook_data := v;
     wi_pr_info := wi_pr_info i |}.

(** The docker loop of [_load_worktree_data], for one entry;
    [compose_ps] gives the [status] of every service. *)
Definition with_docker_status (c : Collab) (info : WorktreeInfo) : result WorktreeInfo :=
  let compose_file :=
    path_join (wt_path (wi_worktree info)) (docker_compose_file (config c)) in
  if negb (path_exists (hooks_env c) compose_file)
  then Ok (set_docker_status None info)
  else
    match compose_ps c (wi_worktree info) with
    | Raise e => Raise e
    | Ok services =>
        let running :=
          List.filter (fun st => String.eqb (PyStr.lower st) "running") services in
        Ok (set_docker_status
              (Some (match services with
                     | [] => "none"
                     | _ => if (length running =? length services)%nat
                            then "all" else "partial"
                     end))
              info)
    end.

(** Built-in hooks, with those a custom column of the same name
    (ignoring case) replaces left out, then the custom columns. *)
Definition resolve_hooks (c : Collab) : list ColumnHook :=
  let builtin_hooks := get_builtin_hooks (builtin_scripts c) in
  match tui_columns (config c) with
  | [] => builtin_hooks
  | columns =>
      let custom_names := map (fun h => PyStr.lower (ch_name h)) columns in
      (List.filter
         (fun h => negb (existsb (String.eqb (PyStr.lower (ch_name h))) custom_names))
         builtin_hooks ++ columns)%list
  end.

Definition attach_hook_data (hook_results : gmap string (gmap string HookResult))
    (info : WorktreeInfo) : WorktreeInfo :=
  match hook_results !! wt_path (wi_worktree info) with
  | Some data => set_hook_data data info
  | None => info
  end.

(** [_load_worktree_data]: [None] when it returns, the exception when
    it raises; no statement of it catches one. *)
Definition load_worktree_data (c : Collab) (s : TUIState) : option exn * TUIState :=
  match get_feature_worktrees c with
  | Raise e => (Some e, s)
  | Ok wts =>
      match map_result (make_worktree_info c) wts with
      | Raise e => (Some e, s)
      | Ok infos =>
          match (if docker_enabled (config c)
                 then map_result (with_docker_status c) infos
                 else Ok infos) with
          | Raise e => (Some e, s)
          | Ok infos' =>
              let hooks := resolve_hooks c in
              let new_worktrees :=
                match hooks, wts with
                | _ :: _, _ :: _ =>
                    let hook_results :=
                      organized (run_all_hooks (hooks_env c) hooks wts 10000) in
                    map (attach_hook_data hook_results) infos'
                | _, _ => infos'
                end in
              (None, set_worktrees new_worktrees s)
          end
      end
  end.

(** The [has_local] test of the ticket loop; [local_branches] holds the
    lower-cased local branch names. *)
Definition ticket_has_local (local_branches : list string) (t : RawTicket) : bool :=
  existsb
    (fun branch =>
       PyStr.contains (PyStr.lower (rt_identifier t)) branch
       || (PyStr.truthy (rt_branch_name t)
           && String.eqb (PyStr.lower (rt_branch_name t)) branch))
    local_branches.

(** The review record of a ticket: by branch first, by ticket search
    second, the whole under [contextlib.suppress(Exception)]. *)
Definition ticket_pr_info (c : Collab) (t : RawTicket) : option PRInfo :=
  match github_repo (config c) with
  | Some (String _ _ as repo) =>
      match (if PyStr.truthy (rt_branch_name t)
             then get_pr_by_branch c (rt_branch_name t) repo
             else Ok None) with
      | Raise _ => None
      | Ok (Some pr) => Some pr
      | Ok None => suppressed (search_pr_by_ticket c (rt_identifier t) repo)
      end
  | _ => None
  end.

Definition make_ticket_info (c : Collab) (local_branches : list string) (t : RawTicket)
  : TicketInfo :=
  {| ti_id := rt_id t; ti_identifier := rt_identifier t; ti_title := rt_title t;
     ti_state := rt_state t; ti_state_type := rt_state_type t;
     ti_priority := rt_priority t; ti_assignee := rt_assignee t;
     ti_url := rt_url t; ti_branch_name := rt_branch_name t;
     ti_has_local_worktree := ticket_has_local local_branches t;
     ti_pr_info := ticket_pr_info c t |}.

(** The fetch the ticket mode selects. *)
Definition fetch_tickets (c : Collab) (m : TUIMode) : result (list RawTicket) :=
  let api_key := linear_api_key (config c) in
  match m with
  | TICKETS_MINE => list_my_tickets c api_key
  | TICKETS_REVIEW => list_review_requests c api_key
  | TICKETS_ALL => list_team_tickets c api_key
  | _ => Ok []
  end.

(** [_load_ticket_data]: the enumeration of the local worktrees stands
    before the [try]; the fetch stands inside it. *)
Definition load_ticket_data (c : Collab) (s : TUIState) : option exn * TUIState :=
  match get_feature_worktrees c with
  | Raise e => (Some e, s)
  | Ok local_worktrees =>
      let local_branches :=
        map (fun wt => PyStr.lower (wt_branch wt)) local_worktrees in
      match fetch_tickets c (mode s) with
      | Ok raw_tickets =>
          (None,
           set_tickets
             (sort_tickets (map (make_ticket_info c local_branches) raw_tickets)) s)
      | Raise e =>
          (None,
           set_tickets []
             (set_status_style "red"
                (set_status_message
                   (Some ("Failed to load tickets: " ++ exn_str e)) s)))
      end
  end.

(** [{wt.branch.lower(): wt.branch for wt in local_worktrees}]: a later
    worktree replaces an earlier one under the same key. *)
Definition local_branch_map (local_worktrees : list Worktree) : gmap string string :=
  foldl (fun m wt => <[PyStr.lower (wt_branch wt) := wt_branch wt]> m) ∅ local_worktrees.

Definition make_pr_display (local_branches : gmap string string) (pr : DetailedPRInfo)
  : PRDisplayInfo :=
  let branch_lower := PyStr.lower (dpr_branch pr) in
  {| pd_pr := pr;
     pd_has_local_worktree := bool_decide (is_Some (local_branches !! branch_lower));
     pd_worktree_branch := local_branches !! branch_lower |}.

(** [_load_pr_data] *)
Definition load_pr_data (c : Collab) (s : TUIState) : option exn * TUIState :=
  match github_repo (config c) with
  | Some (String _ _ as repo) =>
      match list_prs_detailed c repo with
      | Ok detailed_prs =>
          match get_feature_worktrees c with
          | Ok local_worktrees =>
              let local_branches := local_branch_map local_worktrees in
              (None,
               set_prs (sort_prs (map (make_pr_display local_branches) detailed_prs)) s)
          | Raise e =>
              (None,
               set_prs []
                 (set_status_style "red"
                    (set_status_message
                       (Some ("Failed to load PRs: " ++ exn_str e)) s)))
          end
      | Raise e =>
          (None,
           set_prs []
             (set_status_style "red"
                (set_status_message (Some ("Failed to load PRs: " ++ exn_str e)) s)))
      end
  | _ =>
      (None,
       set_status_style "red"
         (set_status_message (Some "No github_repo configured") (set_prs [] s)))
  end.

(** The loader [_load_data] dispatches to. *)
Definition load_mode_data (c : Collab) (s : TUIState) : option exn * TUIState :=
  match mode s with
  | WORKTREES => load_worktree_data c s
  | PRS => load_pr_data c s
  | _ => load_ticket_data c s
  end.

(** [_load_data]: when the loader raises, the statements after it are
    not reached and the exception leaves [_load_data]. *)
Definition load_data (c : Collab) (s : TUIState) : option exn * TUIState :=
  let s1 := set_status_style "yellow"
              (set_status_message (Some "Refreshing...") (set_loading true s)) in
  match load_mode_data c s1 with
  | (Some e, s2) => (Some e, s2)
  | (None, s2) =>
      let s3 := set_last_refresh (now c)
                  (set_needs_refresh false (set_loading false s2)) in
      (None,
       if negb (opt_truthy (status_message s3))
          || bool_decide (status_message s3 = Some "Refreshing...")
       then set_status_message None s3
       else s3)
  end.

(** [_start_background_refresh], with the thread it starts run to its
    end: the thread's [except Exception] only writes to the log file. *)
Definition start_background_refresh (c : Collab) (s : TUIState) : TUIState :=
  if loading s then s
  else snd (load_data c (set_needs_refresh false s)).

Definition AUTO_REFRESH_INTERVAL : Z := 30000.

(** The refresh test of the loop in [run]. *)
Definition refresh_due (c : Collab) (s : TUIState) : bool :=
  let needs_auto := now c - last_refresh s >=? AUTO_REFRESH_INTERVAL in
  (needs_refresh s || needs_auto) && negb (loading s).

(** *** The keyboard *)

(** Standard input: the bytes already readable, and the key presses
    still to come, each with the time in milliseconds that passes
    before it arrives. *)
Record Stdin : Type := {
  buffered : string;
  incoming : list (Z * string)
}.

(** [select.select([fd], [], [], timeout)]: is there something to read
    within [timeout]? *)
Definition select_stdin (timeout : Z) (k : Stdin) : bool * Stdin :=
  match buffered k with
  | String _ _ => (true, k)
  | EmptyString =>
      match incoming k with
      | [] => (false, k)
      | (delay, bytes) :: rest =>
          if delay <=? timeout
          then (true, {| buffered := bytes; incoming := rest |})
          else (false, {| buffered := EmptyString;
                          incoming := (delay - timeout, bytes) :: rest |})
      end
  end.

(** [os.read(fd, n)] *)
Definition os_read (n : nat) (k : Stdin) : string * Stdin :=
  (PyStr.take n (buffered k),
   {| buffered := PyStr.drop n (buffered k); incoming := incoming k |}).

(** The loop of [_flush_stdin], at most [fuel] turns. *)
Fixpoint flush_loop (fuel : nat) (k : Stdin) : Stdin :=
  match fuel with
  | O => k
  | S fuel' =>
      let '(r, k1) := select_stdin 0 k in
      if r then flush_loop fuel' (snd (os_read 1024 k1)) else k1
  end.

(** A bound on the turns the loop takes: every turn reads a byte or
    takes a key press from the queue. *)
Definition stdin_measure (k : Stdin) : nat :=
  String.length (buffered k)
  + fold_right (fun chunk acc => S (String.length (snd chunk)) + acc)%nat O (incoming k).

(** [_flush_stdin] *)
Definition flush_stdin (k : Stdin) : Stdin :=
  flush_loop (S (stdin_measure k)) k.

(** [_get_key_with_timeout] *)
Definition get_key_with_timeout (timeout : Z) (k : Stdin) : option string * Stdin :=
  let '(r, k1) := select_stdin timeout k in
  if negb r then (None, k1)
  else
    let '(ch, k2) := os_read 1 k1 in
    if String.eqb ch ESC
    then
      let '(r2, k3) := select_stdin 50 k2 in
      if negb r2 then (Some ESC, k3)
      else
        let '(ch2, k4) := os_read 1 k3 in
        if String.eqb ch2 "["
        then
          let '(r3, k5) := select_stdin 50 k4 in
          if r3
          then let '(ch3, k6) := os_read 1 k5 in (Some (ESC ++ "[" ++ ch3), k6)
          else (Some (ESC ++ "["), k5)
        else (Some (ESC ++ ch2), k4)
    else (Some ch, k2).

(** *** Inline cleanup *)

(** What the cleanup operation can see and change: which paths exist,
    and the keyboard (keys typed while it runs end up buffered). *)
Record World : Type := {
  fs_exists : string -> bool;
  stdin : Stdin
}.

Definition set_stdin (k : Stdin) (w : World) : World :=
  {| fs_exists := fs_exists w; stdin := k |}.

Inductive cleanup_outcome : Type :=
| Returned
| Raised (e : exn).

(** [_cleanup_func(worktree, config, force=force)]: how the call ends,
    the text it printed on the lifecycle console, and the world after. *)
Definition CleanupFunc : Type :=
  Worktree -> bool -> World -> cleanup_outcome * string * World.

(** The [result] dictionary a cleanup thread fills in. *)
Record CleanupResult : Type := {
  cr_done : bool;
  cr_success : bool;
  cr_error : option string;
  cr_logs : option string
}.

(** [_run_cleanup_in_thread]: every path assigns the four keys, so the
    dictionary passed in does not show in the outcome. *)
Definition run_cleanup_in_thread (cleanup_func : option CleanupFunc)
    (worktree : Worktree) (force : bool) (w : World) : CleanupResult * World :=
  let '(outcome, captured, w1) :=
    match cleanup_func with
    | Some f => f worktree force w
    | None => (Returned, EmptyString, w)
    end in
  match outcome with
  | Raised e =>
      ({| cr_done := true; cr_success := false;
          cr_error := Some (exn_str e); cr_logs := Some captured |}, w1)
  | Returned =>
      if fs_exists w1 (wt_path worktree)
      then ({| cr_done := true; cr_success := false;
               cr_error := Some "Worktree still exists after cleanup";
               cr_logs := Some captured |}, w1)
      else ({| cr_done := true; cr_success := true;
               cr_error := None; cr_logs := Some captured |}, w1)
  end.

Definition NL : string := KEY_LF.

Definition is_ansi_param (c : ascii) : bool :=
  let n := nat_of_ascii c in (48 <=? n)%nat && (n <=? 59)%nat && negb (n =? 58)%nat.

(** A character read while no escape sequence is open. *)
Definition ansi_start (c : ascii) (rest : string -> string -> string) (r : string)
  : string :=
  if Ascii.eqb c (ascii_of_nat 27)
  then rest (String c EmptyString) r
  else String c (rest EmptyString r).

(** [re.sub] of the colour sequences (escape, bracket, digits and
    semicolons, [m]) by nothing, read left to right.  [pend] is
    the part of a possible match read so far: nothing, the escape
    character, or the escape character, the bracket and parameters.  A
    match that does not complete is kept as text; none of its characters
    after the first can start another match. *)
Fixpoint strip_ansi_aux (pend : string) (s : string) : string :=
  match s with
  | EmptyString => pend
  | String c r =>
      match pend with
      | EmptyString => ansi_start c strip_ansi_aux r
      | String _ EmptyString =>
          if Ascii.eqb c "["
          then strip_ansi_aux (pend ++ "[") r
          else pend ++ ansi_start c strip_ansi_aux r
      | _ =>
          if is_ansi_param c
          then strip_ansi_aux (pend ++ String c EmptyString) r
          else if Ascii.eqb c "m"
               then strip_ansi_aux EmptyString r
               else pend ++ ansi_start c strip_ansi_aux r
      end
  end.

Definition strip_ansi (s : string) : string := strip_ansi_aux EmptyString s.

(** The reason [_run_inline_cleanup] extracts from the captured log;
    empty when no signature is found. *)
Definition failure_reason (logs : string) : string :=
  let clean_logs := strip_ansi logs in
  if PyStr.contains "modified or untracked files" clean_logs
  then "has uncommitted changes"
  else if PyStr.contains "is not a valid reference" clean_logs
  then "branch reference invalid"
  else if PyStr.contains "fatal:" clean_logs
  then match find (PyStr.contains "fatal:") (PyStr.split_char (ascii_of_nat 10) clean_logs) with
       | Some line => PyStr.strip line
       | None => EmptyString
       end
  else EmptyString.

(** [f"{x}"] for [x : str | None] *)
Definition fmt_opt (o : option string) : string :=
  match o with
  | Some s => s
  | None => "None"
  end.

(** The text shown with the force/skip choice. *)
Definition failure_display (branch : string) (result : CleanupResult) : string :=
  let logs := PyStr.strip (default EmptyString (cr_logs result)) in
  let reason := failure_reason logs in
  PyStr.join NL
    [ "⚠ Cleanup failed: " ++ branch;
      "  Reason: " ++ (if PyStr.truthy reason then reason else fmt_opt (cr_error result));
      EmptyString;
      "[f] Force cleanup  |  [any other key] Skip" ].

(** What can be observed of a cleanup run, in order. *)
Inductive Event : Type :=
| EvCleanup (worktree : Worktree) (force : bool)
| EvPrompt (message : string)
| EvFlush
| EvKey (key : option string).

Record Exec : Type := {
  ex_state : TUIState;
  ex_world : World;
  ex_trace : list Event
}.

(** One turn of the loop of [_run_inline_cleanup], for the [i]-th of
    [n] worktrees.  The two polling loops wait for the thread they
    started; their spinner texts are replaced before the turn ends. *)
Definition cleanup_unit (cleanup_func : option CleanupFunc) (n : Z)
    (x : Exec) (item : Z * WorktreeInfo) : Exec :=
  let '(i, info) := item in
  let wt := wi_worktree info in
  let branch := wt_branch wt in
  let progress := "[" ++ pretty (i + 1) ++ "/" ++ pretty n ++ "]: " ++ branch ++ "..." in
  let s0 := set_status (Some ("Cleaning " ++ progress)) "yellow" (ex_state x) in
  let '(result, w1) := run_cleanup_in_thread cleanup_func wt false (ex_world x) in
  let tr1 := (ex_trace x ++ [EvCleanup wt false])%list in
  if cr_success result
  then {| ex_state := set_status (Some ("✓ Cleaned up: " ++ branch)) "green" s0;
          ex_world := w1; ex_trace := tr1 |}
  else
    let message := failure_display branch result in
    let s1 := set_status_message (Some message) s0 in
    let '(key, k2) := get_key_with_timeout 30000 (flush_stdin (stdin w1)) in
    let w2 := set_stdin k2 w1 in
    let tr2 := (tr1 ++ [EvPrompt message; EvFlush; EvKey key])%list in
    if bool_decide (key = Some "f")
    then
      let s2 := set_status (Some ("Force cleaning " ++ progress)) "yellow" s1 in
      let '(force_result, w3) := run_cleanup_in_thread cleanup_func wt true w2 in
      {| ex_state :=
           if cr_success force_result
           then set_status (Some ("✓ Force cleaned: " ++ branch)) "green" s2
           else set_status
                  (Some ("✗ Failed: " ++ branch ++ " - " ++ fmt_opt (cr_error force_result)
                         ++ NL ++ PyStr.strip (default EmptyString (cr_logs force_result))))
                  "red" s2;
         ex_world := w3;
         ex_trace := (tr2 ++ [EvCleanup wt true])%list |}
    else {| ex_state := set_status (Some ("⊘ Skipped: " ++ branch)) "dim" s1;
            ex_world := w2; ex_trace := tr2 |}.

(** [enumerate(l)] *)
Definition enumerate {A} (l : list A) : list (Z * A) :=
  imap (fun i a => (Z.of_nat i, a)) l.

(** [_run_inline_cleanup] *)
Definition run_inline_cleanup (cleanup_func : option CleanupFunc) (x : Exec)
  : result Exec :=
  match cleanup_func with
  | None =>
      Ok {| ex_state := set_status (Some "No cleanup function configured") "red" (ex_state x);
            ex_world := ex_world x; ex_trace := ex_trace x |}
  | Some _ =>
      match get_selected_worktrees (ex_state x) with
      | Raise e => Raise e
      | Ok [] =>
          Ok {| ex_state := set_status (Some "No worktrees selected") "yellow" (ex_state x);
                ex_world := ex_world x; ex_trace := ex_trace x |}
      | Ok wts =>
          let x1 := foldl (cleanup_unit cleanup_func (Z.of_nat (length wts))) x
                      (enumerate wts) in
          Ok {| ex_state :=
                  set_status (Some "Cleanup complete - refreshing...") "green"
                    (set_needs_refresh true
                       (set_viewport_start 0 (set_cursor 0 (set_selected ∅ (ex_state x1)))));
                ex_world := ex_world x1; ex_trace := ex_trace x1 |}
      end
  end.

(** *** Histories of the dashboard *)

(** What happens to the dashboard between two frames: a key is handled,
    or a loader assigns a new snapshot. *)
Inductive NavOp : Type :=
| OpKey (key : string)
| OpWorktrees (new_worktrees : list WorktreeInfo)
| OpTickets (new_tickets : list TicketInfo)
| OpPrs (new_prs : list PRDisplayInfo).

Definition apply_op (c : Collab) (t : FwtsTUI) (op : NavOp) : FwtsTUI :=
  match op with
  | OpKey key => snd (handle_key c key t)
  | OpWorktrees l => with_state (set_worktrees l) t
  | OpTickets l => with_state (set_tickets l) t
  | OpPrs l => with_state (set_prs l) t
  end.

Definition run_ops (c : Collab) (t : FwtsTUI) (ops : list NavOp) : FwtsTUI :=
  foldl (apply_op c) t ops.

(** The navigation invariant of the specification. *)
Definition nav_inv (t : FwtsTUI) : Prop :=
  let s := state t in
  let n := current_len s in
  (0 <= cursor s < Z.max n 1)
  /\ (n > 0 -> viewport_start s <= cursor s < viewport_start s + viewport_size t).




(** The keys outside navigation and mode switching leave the cursor, the
    window, the mode and the snapshots alone. *)
Definition same_view (s' s : TUIState) : Prop :=
  cursor s' = cursor s /\ viewport_start s' = viewport_start s /\ mode s' = mode s
  /\ worktrees s' = worktrees s /\ tickets s' = tickets s /\ prs s' = prs s.

(** The three ticket views. *)
Definition ticket_mode (m : TUIMode) : Prop :=
  m = TICKETS_MINE \/ m = TICKETS_REVIEW \/ m = TICKETS_ALL.

(** [FwtsTUI(config, initial_mode)] on a terminal of the given size. *)
Definition initial_tui (initial_mode : TUIMode) (size : Z * Z) : FwtsTUI :=
  {| state := initial_state initial_mode; console_size := size;
     pending_cleanup := false; pending_docker_down := false;
     pending_docker_up := false |}.

(** The key presses of a queue that have already arrived are dropped
    with the buffered bytes. *)
Fixpoint drop_ready (inc : list (Z * string)) : list (Z * string) :=
  match inc with
  | (delay, bytes) :: rest => if delay <=? 0 then drop_ready rest else inc
  | [] => []
  end.

Definition drained (k : Stdin) : Stdin :=
  {| buffered := EmptyString; incoming := drop_ready (incoming k) |}.

(** *** Further methods of [FwtsTUI] *)

(** [get_selected_ticket] *)
Definition get_selected_ticket (s : TUIState) : option TicketInfo :=
  if (0 <=? cursor s) && (cursor s <? Z.of_nat (length (tickets s)))
  then tickets s !! Z.to_nat (cursor s)
  else None.

(** [get_selected_pr] *)
Definition get_selected_pr (s : TUIState) : option PRDisplayInfo :=
  if (0 <=? cursor s) && (cursor s <? Z.of_nat (length (prs s)))
  then prs s !! Z.to_nat (cursor s)
  else None.

(** [_preload_tickets]: the worktree enumeration stands before the [try];
    inside it every exception is passed over, and the tickets are assigned
    only when none are loaded. *)
Definition preload_tickets (c : Collab) (s : TUIState) : option exn * TUIState :=
  match get_feature_worktrees c with
  | Raise e => (Some e, s)
  | Ok local_worktrees =>
      let local_branches :=
        map (fun wt => PyStr.lower (wt_branch wt)) local_worktrees in
      match list_my_tickets c (linear_api_key (config c)) with
      | Ok raw_tickets =>
          let preloaded_tickets :=
            sort_tickets (map (make_ticket_info c local_branches) raw_tickets) in
          (None, match tickets s with
                 | [] => set_tickets preloaded_tickets s
                 | _ => s
                 end)
      | Raise _ => (None, s)
      end
  end.

(** [_background_load_tickets]: [_preload_tickets] under
    [contextlib.suppress(Exception)]. *)
Definition background_load_tickets (c : Collab) (s : TUIState) : TUIState :=
  snd (preload_tickets c s).

(** The cleanup function as [run_with_cleanup_status] calls it:
    [cleanup_func(worktree, config)]. *)
Definition SimpleCleanup : Type := Worktree -> World -> cleanup_outcome * World.

(** What a run of [run_with_cleanup_status] leaves: how it ended, the
    state, the world, and the worktrees the function was called for. *)
Record CleanupRun : Type := {
  cu_result : result unit;
  cu_state : TUIState;
  cu_world : World;
  cu_calls : list Worktree
}.

(** The loop of the branch for a standard input that is no terminal: a
    raise ends the loop and the method. *)
Fixpoint cleanup_plain (cleanup_func : SimpleCleanup) (worktrees : list WorktreeInfo)
    (run : CleanupRun) : CleanupRun :=
  match worktrees with
  | [] => run
  | info :: rest =>
      let '(outcome, w1) := cleanup_func (wi_worktree info) (cu_world run) in
      let calls := (cu_calls run ++ [wi_worktree info])%list in
      match outcome with
      | Raised e =>
          {| cu_result := Raise e; cu_state := cu_state run; cu_world := w1;
             cu_calls := calls |}
      | Returned =>
          cleanup_plain cleanup_func rest
            {| cu_result := Ok tt; cu_state := cu_state run; cu_world := w1;
               cu_calls := calls |}
      end
  end.

(** One turn of the loop under [Live]: the raise is caught and shown. *)
Definition cleanup_shown (cleanup_func : SimpleCleanup) (run : CleanupRun)
    (info : WorktreeInfo) : CleanupRun :=
  let branch := wt_branch (wi_worktree info) in
  let '(outcome, w1) := cleanup_func (wi_worktree info) (cu_world run) in
  {| cu_result := Ok tt;
     cu_state :=
       match outcome with
       | Returned => set_status (Some ("✓ Cleaned up: " ++ branch)) "green" (cu_state run)
       | Raised e =>
           set_status (Some ("✗ Failed: " ++ branch ++ " - " ++ exn_str e)) "red"
             (cu_state run)
       end;
     cu_world := w1;
     cu_calls := (cu_calls run ++ [wi_worktree info])%list |}.

(** [run_with_cleanup_status] *)
Definition run_with_cleanup_status (isatty : bool) (cleanup_func : SimpleCleanup)
    (worktrees : list WorktreeInfo) (s : TUIState) (w : World) : CleanupRun :=
  let start := {| cu_result := Ok tt; cu_state := s; cu_world := w; cu_calls := [] |} in
  if negb isatty then cleanup_plain cleanup_func worktrees start
  else
    let run := foldl (cleanup_shown cleanup_func) start worktrees in
    {| cu_result := Ok tt;
       cu_state :=
         set_status
           (Some ("Cleanup complete (" ++ pretty (length worktrees) ++ " worktrees)"))
           "green" (cu_state run);
       cu_world := cu_world run;
       cu_calls := cu_calls run |}.

(** The worktrees the cleanup was called for without force, and with
    force, in the order of the calls. *)
Definition plain_calls (trace : list Event) : list Worktree :=
  omap (fun ev => match ev with EvCleanup wt false => Some wt | _ => None end) trace.

Definition forced_calls (trace : list Event) : list Worktree :=
  omap (fun ev => match ev with EvCleanup wt true => Some wt | _ => None end) trace.

Definition prompts (trace : list Event) : list string :=
  omap (fun ev => match ev with EvPrompt m => Some m | _ => None end) trace.

(** What [run] hands back with an action: the ticket, the pull request
    or the worktrees the action is about. *)
Inductive ResultData : Type :=
| DataTicket (ticket : option TicketInfo)
| DataPr (pr : option PRDisplayInfo)
| DataWorktrees (selected_worktrees : list WorktreeInfo).

(** The [if action:] block of the loop in [run]. *)
Definition action_data (action : string) (s : TUIState) : result ResultData :=
  if String.eqb action "start_ticket" then Ok (DataTicket (get_selected_ticket s))
  else if String.eqb action "open_pr" then Ok (DataPr (get_selected_pr s))
  else match get_selected_worktrees s with
       | Ok l => Ok (DataWorktrees l)
       | Raise e => Raise e
       end.

(** [_format_pr_display]: the pieces of the [Text], each with its
    style. *)
Definition format_pr_display (pr : option PRInfo) : list (string * string) :=
  match pr with
  | None => [("no PR", "dim")]
  | Some pr =>
      let parts :=
        if String.eqb (pr_state pr) "merged" then [("merged", "magenta")]
        else if String.eqb (pr_state pr) "closed" then [("closed", "dim")]
        else if pr_is_draft pr then [("draft", "dim")]
        else match pr_review_decision pr with
             | Some APPROVED => [("approved", "green")]
             | Some CHANGES_REQUESTED => [("changes", "red")]
             | Some PENDING => [("in review", "yellow")]
             | _ => [("open", "yellow")]
             end in
      (parts ++ [((" #" ++ pretty (pr_number pr))%string, "cyan")])%list
  end.

(** [_format_time_ago].  [age_seconds] stands for the parse of the
    timestamp and the clock: it gives
    [int((now - dt).total_seconds())], or the exception raised on the
    way. *)
Definition format_time_ago (age_seconds : string -> result Z) (iso_timestamp : string)
  : string :=
  if negb (PyStr.truthy iso_timestamp) then EmptyString
  else
    match age_seconds iso_timestamp with
    | Raise _ => EmptyString
    | Ok seconds =>
        if seconds <? 60 then pretty seconds ++ "s"
        else
          let minutes := seconds / 60 in
          if minutes <? 60 then pretty minutes ++ "m"
          else
            let hours := minutes / 60 in
            if hours <? 24 then pretty hours ++ "h"
            else
              let days := hours / 24 in
              if days <? 30 then pretty days ++ "d"
              else pretty (days / 30) ++ "mo"
    end.

(** [_render_status]: the pieces of the status line, each with its style
    when it has one.  [package_changed] is the outcome of
    [_get_package_mtime() != self._startup_mtime]; [int] rounds the
    seconds since the last refresh towards zero. *)
Definition render_status (c : Collab) (package_changed : bool) (s : TUIState)
  : list (string * option string) :=
  let status :=
    if loading s then [("⟳ Loading data...", Some "bold yellow")]
    else
      match status_message s with
      | Some (String _ _ as message) => [(message, Some (status_style s))]
      | _ =>
          let elapsed := Z.quot (now c - last_refresh s) 1000 in
          let updated :=
            if elapsed <? 60 then "Updated " ++ pretty elapsed ++ "s ago"
            else "Updated " ++ pretty (elapsed / 60) ++ "m ago" in
          let next_refresh := 30 - elapsed mod 30 in
          [(updated, Some "dim");
           (" · auto-refresh in " ++ pretty next_refresh ++ "s", Some "dim")]
      end in
  if package_changed
  then (status ++ [(NL, None);
                   ("⚡ fwts updated — restart for new version (q then re-run)",
                    Some "bold magenta")])%list
  else status.

End Tui.

(** ** Pull requests ([github.py]) *)

Module Github.

(** [StatusCheck] *)
Record StatusCheck : Type := {
  sc_name : string;
  sc_status : string;
  sc_conclusion : option string;
  sc_is_required : bool
}.

Definition fail_conclusions : list string := ["failure"; "timed_out"; "action_required"].

(** [c.conclusion in fail_conclusions] *)
Definition has_failed (c : StatusCheck) : bool :=
  match sc_conclusion c with
  | Some conclusion => existsb (String.eqb conclusion) fail_conclusions
  | None => false
  end.

(** [c.status != "completed"] *)
Definition is_pending (c : StatusCheck) : bool :=
  negb (String.eqb (sc_status c) "completed").

(** The [ci_summary] property, of the [status_checks] of a pull
    request. *)
Definition ci_summary (status_checks : list StatusCheck) : string :=
  match status_checks with
  | [] => "none"
  | _ =>
      let failed := List.filter has_failed status_checks in
      let pending := List.filter is_pending status_checks in
      match failed, pending with
      | _ :: _, _ => pretty (length failed) ++ "fail"
      | [], _ :: _ => "pend"
      | [], [] => "pass"
      end
  end.

(** The longest prefix of [s] whose characters satisfy [p], and what
    follows it. *)
Fixpoint span (p : ascii -> bool) (s : string) : string * string :=
  match s with
  | EmptyString => (EmptyString, EmptyString)
  | String c r =>
      if p c then let '(a, b) := span p r in (String c a, b) else (EmptyString, s)
  end.

(** [s] without the prefix [p], when it starts with it. *)
Fixpoint strip_prefix (p s : string) : option string :=
  match p, s with
  | EmptyString, _ => Some s
  | String a p', String b s' => if Ascii.eqb a b then strip_prefix p' s' else None
  | String _ _, EmptyString => None
  end.

Definition not_slash (c : ascii) : bool := negb (Ascii.eqb c "/").

(** [re.match] of the pull-request address, with its two groups: the
    prefix, a run without a slash, a slash, a second such run, the
    [/pull/] part and a run of digits.  A run without a slash ends at the
    next slash or at the end of the text, and the digits stand last, so a
    shorter run never gives a match that the longest one does not. *)
Definition match_pr_url (s : string) : option (string * string) :=
  match strip_prefix "https://github.com/" s with
  | None => None
  | Some r0 =>
      let '(owner, r1) := span not_slash r0 in
      match owner, strip_prefix "/" r1 with
      | String _ _, Some r2 =>
          let '(name, r3) := span not_slash r2 in
          match name, strip_prefix "/pull/" r3 with
          | String _ _, Some r4 =>
              let '(number, _) := span PyStr.is_digit r4 in
              match number with
              | String _ _ => Some (owner ++ "/" ++ name, number)
              | EmptyString => None
              end
          | _, _ => None
          end
      | _, _ => None
      end
  end.

(** [_parse_pr_input] *)
Definition parse_pr_input (input_str : string) (repo : option string)
  : option string * string :=
  match match_pr_url input_str with
  | Some (url_repo, number) => (Some url_repo, number)
  | None =>
      if PyStr.isdigit input_str then (repo, input_str)
      else if PyStr.startswith "#" input_str && PyStr.isdigit (PyStr.drop 1 input_str)
      then (repo, PyStr.drop 1 input_str)
      else (repo, input_str)
  end.

End Github.

(** ** The specification's wording, for comparison *)

Module Spec.
Import Hooks.

(** Colour resolution as section 4.1 words it: an exact match that
    ignores case on both sides first, then the first registered key that
    is a substring (ignoring case), else nothing. *)
Definition resolve_color_spec (color_map : list (string * string)) (output : string)
  : option string :=
  match find (fun kv => String.eqb (PyStr.lower (fst kv)) (PyStr.lower output))
             color_map with
  | Some kv => Some (snd kv)
  | None =>
      match find (fun kv => PyStr.contains (PyStr.lower (fst kv)) (PyStr.lower output))
                 color_map with
      | Some kv => Some (snd kv)
      | None => None
      end
  end.

(** A table is regular when its keys are written in lower case and no
    colour is the empty string. *)
Definition regular_map (color_map : list (string * string)) : Prop :=
  forall k v, In (k, v) color_map -> PyStr.lower k = k /\ PyStr.truthy v = true.

End Spec.

(** ** Sample data *)

Module Samples.
Import Hooks Tui.

Definition wt_a : Worktree :=
  {| wt_path := "/repo/a"; wt_branch := "feature/a"; wt_is_bare := false |}.
Definition wt_b : Worktree :=
  {| wt_path := "/repo/b"; wt_branch := "feature/b"; wt_is_bare := false |}.
Definition wt_c : Worktree :=
  {| wt_path := "/repo/c"; wt_branch := "feature/c"; wt_is_bare := false |}.

(** A machine on which every command prints [done] after a minute. *)
Definition slow_env : Env :=
  {| environ := ∅; home := "/home/dev"; path_exists := fun _ => false;
     run_process := fun _ _ => Completed 60000 ("done" ++ NL) |}.

(** A machine on which the command [boom] exits with a failure after one
    second and every other command prints [ok] at once. *)
Definition flaky_env : Env :=
  {| environ := ∅; home := "/home/dev"; path_exists := fun _ => false;
     run_process := fun cmd _ =>
       if String.eqb cmd "boom"
       then ProcRaised 1000 (Exception "Command returned non-zero exit status 1")
       else Completed 5 ("ok" ++ NL) |}.

Definition sleepy_hook : ColumnHook :=
  {| ch_name := "Slow"; ch_hook := "sleep 60; echo done"; ch_color_map := [] |}.

Definition blank_hook : ColumnHook :=
  {| ch_name := "Blank"; ch_hook := "  "; ch_color_map := [] |}.

Definition boom_hook : ColumnHook :=
  {| ch_name := "Boom"; ch_hook := "boom"; ch_color_map := [("error", "red")] |}.

Definition echo_hook : ColumnHook :=
  {| ch_name := "Echo"; ch_hook := "echo ok"; ch_color_map := [("ok", "green")] |}.

Definition config0 : Config :=
  {| main_repo := "/repo"; base_branch := "main"; github_repo := None;
     linear_api_key := Some "key"; docker_enabled := false;
     docker_compose_file := "docker-compose.yml"; tui_columns := [] |}.

Definition no_scripts : BuiltinScripts :=
  {| local_script := "true"; merge_script := "true"; ci_script := "true";
     claude_script := "true" |}.

(** Collaborators that all answer, with nothing to report. *)
Definition collab0 : Collab :=
  {| config := config0; hooks_env := flaky_env; builtin_scripts := no_scripts;
     now := 0;
     list_worktrees := fun _ => Ok [wt_a; wt_b; wt_c];
     session_name_from_branch := fun b => b;
     session_exists := fun _ => Ok false;
     get_pr_by_branch := fun _ _ => Ok None;
     search_pr_by_ticket := fun _ _ => Ok None;
     list_prs_detailed := fun _ => Ok [];
     compose_ps := fun _ => Ok [];
     list_my_tickets := fun _ => Ok [];
     list_review_requests := fun _ => Ok [];
     list_team_tickets := fun _ => Ok [];
     open_current_url := fun _ _ => None;
     show_unpushed_commits := fun _ => None |}.

(** The same with a [git worktree list] that fails. *)
Definition collab_git_down : Collab :=
  {| config := config0; hooks_env := flaky_env; builtin_scripts := no_scripts;
     now := 0;
     list_worktrees := fun _ => Raise (Exception "git worktree list failed");
     session_name_from_branch := fun b => b;
     session_exists := fun _ => Ok false;
     get_pr_by_branch := fun _ _ => Ok None;
     search_pr_by_ticket := fun _ _ => Ok None;
     list_prs_detailed := fun _ => Ok [];
     compose_ps := fun _ => Ok [];
     list_my_tickets := fun _ => Ok [];
     list_review_requests := fun _ => Ok [];
     list_team_tickets := fun _ => Ok [];
     open_current_url := fun _ _ => None;
     show_unpushed_commits := fun _ => None |}.

Definition info_of (wt : Worktree) : WorktreeInfo :=
  {| wi_worktree := wt; wi_session_active := false; wi_docker_status := None;
     wi_hook_data := ∅; wi_pr_info := None |}.

Definition tui0 : FwtsTUI := initial_tui WORKTREES (120, 40).

Definition three_rows : list WorktreeInfo := [info_of wt_a; info_of wt_b; info_of wt_c].


(** The same with the third row selected before the refresh. *)
Definition stale_selection_history : list NavOp :=
  [OpWorktrees three_rows; OpKey "j"; OpKey "j"; OpKey " "; OpWorktrees [info_of wt_a]].


Definition raw_ticket (identifier state_type branch : string) (priority : Z) : RawTicket :=
  {| rt_id := identifier; rt_identifier := identifier; rt_title := "title";
     rt_state := state_type; rt_state_type := state_type; rt_priority := priority;
     rt_assignee := None; rt_url := "https://linear.example/" ++ identifier;
     rt_branch_name := branch |}.

(** The three tickets of the specification's example. *)
Definition raw_started_9 : RawTicket := raw_ticket "ENG-1" "started" "eng-1-plain" 9.
Definition raw_started_draft_9 : RawTicket := raw_ticket "ENG-2" "started" "eng-2-draft" 9.
Definition raw_unstarted_10 : RawTicket := raw_ticket "ENG-3" "unstarted" "eng-3-todo" 10.

Definition draft_pr : PRInfo :=
  {| pr_number := 7; pr_title := "wip"; pr_branch := "eng-2-draft";
     pr_base_branch := "main"; pr_state := "open"; pr_url := "https://github.example/7";
     pr_review_decision := None; pr_mergeable := UNKNOWN; pr_is_draft := true |}.

(** A ticket service that returns the three tickets, the least urgent
    category first, and a review service that knows one draft. *)
Definition collab_tickets : Collab :=
  {| config := {| main_repo := "/repo"; base_branch := "main";
                  github_repo := Some "acme/repo"; linear_api_key := Some "key";
                  docker_enabled := false; docker_compose_file := "docker-compose.yml";
                  tui_columns := [] |};
     hooks_env := flaky_env; builtin_scripts := no_scripts; now := 0;
     list_worktrees := fun _ => Ok [wt_a];
     session_name_from_branch := fun b => b;
     session_exists := fun _ => Ok false;
     get_pr_by_branch := fun b _ => if String.eqb b "eng-2-draft" then Ok (Some draft_pr)
                                    else Ok None;
     search_pr_by_ticket := fun _ _ => Ok None;
     list_prs_detailed := fun _ => Ok [];
     compose_ps := fun _ => Ok [];
     list_my_tickets := fun _ => Ok [raw_unstarted_10; raw_started_draft_9; raw_started_9];
     list_review_requests := fun _ => Raise (Exception "HTTP 401");
     list_team_tickets := fun _ => Ok [];
     open_current_url := fun _ _ => None;
     show_unpushed_commits := fun _ => None |}.

Definition ticket_started_9 : TicketInfo := make_ticket_info collab_tickets [] raw_started_9.
Definition ticket_started_draft_9 : TicketInfo :=
  make_ticket_info collab_tickets [] raw_started_draft_9.
Definition ticket_unstarted_10 : TicketInfo :=
  make_ticket_info collab_tickets [] raw_unstarted_10.

(** The worktree view with three rows loaded. *)
Definition state_three_rows : TUIState :=
  set_worktrees three_rows (initial_state WORKTREES).

(** A cleanup that refuses a dirty worktree unless forced; while it
    runs without force the user hits a key. *)
Definition dirty_cleanup : CleanupFunc :=
  fun worktree force w =>
    if force
    then (Returned, "Removed worktree" ++ NL,
          {| fs_exists := fun p => fs_exists w p && negb (String.eqb p (wt_path worktree));
             stdin := stdin w |})
    else (Returned,
          ESC ++ "[31mfatal: '" ++ wt_path worktree
          ++ "' contains modified or untracked files, use --force to delete it"
          ++ ESC ++ "[0m" ++ NL,
          {| fs_exists := fs_exists w;
             stdin := {| buffered := buffered (stdin w) ++ "x";
                         incoming := incoming (stdin w) |} |}).

(** Every path exists, and the user presses [f] two seconds after the
    prompt appears. *)
Definition world_f_after_2s : World :=
  {| fs_exists := fun _ => true;
     stdin := {| buffered := EmptyString; incoming := [(2000, "f")] |} |}.

Definition exec0 : Exec :=
  {| ex_state := state_three_rows; ex_world := world_f_after_2s; ex_trace := [] |}.

(** The worktree view with the third and the first row selected. *)
Definition state_two_selected : TUIState :=
  set_selected {[2; 0]} state_three_rows.

(** The worktree view with the cursor past a window that is too low. *)
Definition state_off_window : TUIState :=
  set_viewport_start 7 (set_cursor 9 state_three_rows).

(** A machine with one script in the hook directory of worktree [a]
    and another in the global hook directory. *)
Definition scripts_env : Env :=
  {| environ := {["XDG_CONFIG_HOME" := "/home/dev/.config"]}; home := "/home/dev";
     path_exists := fun p => String.eqb p "/repo/a/.fwts/hooks/lint"
                             || String.eqb p "/home/dev/.config/fwts/hooks/deps";
     run_process := fun _ _ => Completed 5 ("ok" ++ NL) |}.

Definition lint_hook : ColumnHook :=
  {| ch_name := "Lint"; ch_hook := " lint   --fast  src "; ch_color_map := [] |}.

Definition detailed_pr (number : Z) (branch : string) (requestees : list string)
  : DetailedPRInfo :=
  {| dpr_number := number; dpr_branch := branch;
     dpr_url := "https://github.example/pull"; dpr_review_requestees := requestees;
     dpr_current_username := Some "dev" |}.

(** A review service with three open pull requests, the second and the
    third waiting for the user's review. *)
Definition collab_prs : Collab :=
  {| config := {| main_repo := "/repo"; base_branch := "main";
                  github_repo := Some "acme/repo"; linear_api_key := None;
                  docker_enabled := false; docker_compose_file := "docker-compose.yml";
                  tui_columns := [] |};
     hooks_env := flaky_env; builtin_scripts := no_scripts; now := 5000;
     list_worktrees := fun _ => Ok [wt_a];
     session_name_from_branch := fun b => b;
     session_exists := fun _ => Ok false;
     get_pr_by_branch := fun _ _ => Ok None;
     search_pr_by_ticket := fun _ _ => Ok None;
     list_prs_detailed := fun _ =>
       Ok [detailed_pr 30 "feature/a" ["sam"]; detailed_pr 20 "fix/b" ["dev"];
           detailed_pr 10 "fix/c" ["kim"; "dev"]];
     compose_ps := fun _ => Ok [];
     list_my_tickets := fun _ => Ok [];
     list_review_requests := fun _ => Ok [];
     list_team_tickets := fun _ => Ok [];
     open_current_url := fun _ _ => None;
     show_unpushed_commits := fun _ => None |}.

(** A repository whose listing holds the main checkout and a bare
    entry beside two feature worktrees. *)
Definition collab_main_and_bare : Collab :=
  {| config := config0; hooks_env := flaky_env; builtin_scripts := no_scripts;
     now := 0;
     list_worktrees := fun _ =>
       Ok [ {| wt_path := "/repo"; wt_branch := "main"; wt_is_bare := false |};
            wt_b;
            {| wt_path := "/repo/.bare"; wt_branch := "(bare)"; wt_is_bare := true |};
            wt_a ];
     session_name_from_branch := fun b => b;
     session_exists := fun _ => Ok false;
     get_pr_by_branch := fun _ _ => Ok None;
     search_pr_by_ticket := fun _ _ => Ok None;
     list_prs_detailed := fun _ => Ok [];
     compose_ps := fun _ => Ok [];
     list_my_tickets := fun _ => Ok [];
     list_review_requests := fun _ => Ok [];
     list_team_tickets := fun _ => Ok [];
     open_current_url := fun _ _ => None;
     show_unpushed_commits := fun _ => None |}.

(** The worktree view after a load, with the cursor on the third row,
    that row selected and the window started at the second row. *)
Definition tui_third_row_selected : FwtsTUI :=
  with_state
    (fun _ => set_needs_refresh false
                (set_selected {[2]} (set_viewport_start 1 (set_cursor 2 state_three_rows))))
    tui0.

(** A table whose keys are written in capitals, the shorter one first. *)
Definition mixed_case_map : list (string * string) :=
  [("OK", "green"); ("NOT OK", "red")].

End Samples.

(** * Properties *)

(** ** String helpers on examples *)

Example lower_mixed : PyStr.lower "No PR" = "no pr".
Proof. reflexivity. Qed.

Example strip_both : PyStr.strip "  ok done
" = "ok done".
Proof. reflexivity. Qed.

Example split_ws_runs : PyStr.split_ws "  my-hook   --fast x " = ["my-hook"; "--fast"; "x"].
Proof. reflexivity. Qed.

Example split_ws_blank : PyStr.split_ws "   " = [].
Proof. reflexivity. Qed.

Example contains_mid : PyStr.contains "blocked" "is blocked:CI" = true.
Proof. reflexivity. Qed.

Example unicode_literal : String.length "✓" = 3%nat.
Proof. reflexivity. Qed.


(** ** Colour resolution *)

Section ColourResolution.
Import Hooks Spec.

Lemma lower_char_idem c : PyStr.lower_char (PyStr.lower_char c) = PyStr.lower_char c.
Proof.
  destruct c as [[] [] [] [] [] [] [] []]; reflexivity.
Qed.

Lemma lower_idem s : PyStr.lower (PyStr.lower s) = PyStr.lower s.
Proof.
  induction s as [|c s IH]; simpl; [reflexivity|].
  now rewrite lower_char_idem, IH.
Qed.

Lemma prefix_refl s : String.prefix s s = true.
Proof.
  induction s as [|c s IH]; simpl; [reflexivity|].
  destruct (ascii_dec c c); [assumption|congruence].
Qed.

Lemma contains_refl s : PyStr.contains s s = true.
Proof.
  destruct s; simpl; [reflexivity|].
  destruct (ascii_dec a a); [|congruence].
  now rewrite prefix_refl.
Qed.

Lemma find_ext_in {A} (f g : A -> bool) (l : list A) :
  (forall x, In x l -> f x = g x) -> find f l = find g l.
Proof.
  induction l as [|x l IH]; intros H; simpl; [reflexivity|].
  rewrite (H x (or_introl eq_refl)).
  destruct (g x); [reflexivity|].
  apply IH. intros y Hy. apply H. now right.
Qed.

Lemma find_none_intro {A} (f : A -> bool) (l : list A) :
  (forall x, In x l -> f x = false) -> find f l = None.
Proof.
  induction l as [|x l IH]; intros H; simpl; [reflexivity|].
  rewrite (H x (or_introl eq_refl)). apply IH. intros y Hy. apply H. now right.
Qed.

(** X1: on a regular table (lower-case keys, non-empty colours) the code
    resolves colours as the specification words it, for keys and an output
    of ASCII text, on which the case mapping of the embedding is Python's. *)
Lemma resolve_color_regular color_map output :
  Forall (fun kv => PyStr.is_ascii (fst kv) = true) color_map ->
  PyStr.is_ascii output = true ->
  regular_map color_map ->
  resolve_color color_map output = resolve_color_spec color_map output.
Proof.
  intros _ _ Hreg. unfold resolve_color, resolve_color_spec, dict_get.
  rewrite (find_ext_in
             (fun kv => String.eqb (PyStr.lower (fst kv)) (PyStr.lower output))
             (fun kv => String.eqb (fst kv) (PyStr.lower output))).
  2:{ intros [k v] Hin. simpl. now destruct (Hreg k v Hin) as [-> _]. }
  destruct (find (fun kv => String.eqb (fst kv) (PyStr.lower output)) color_map)
    as [[k v]|] eqn:Hf; simpl.
  - apply find_some in Hf as [Hin _].
    destruct (Hreg k v Hin) as [_ ->]. reflexivity.
  - destruct (find _ color_map) as [kv|]; reflexivity.
Qed.

(** When nothing matches, the colour stays unset. *)
Lemma resolve_color_no_match color_map output :
  (forall k v, In (k, v) color_map ->
               PyStr.contains (PyStr.lower k) (PyStr.lower output) = false) ->
  resolve_color color_map output = None.
Proof.
  intros Hno. unfold resolve_color, dict_get.
  assert (Hexact : find (fun kv => String.eqb (fst kv) (PyStr.lower output)) color_map
                   = None).
  { apply find_none_intro. intros [k v] Hin. simpl.
    destruct (String.eqb_spec k (PyStr.lower output)) as [->|]; [|reflexivity].
    specialize (Hno _ _ Hin). now rewrite lower_idem, contains_refl in Hno. }
  rewrite Hexact. simpl.
  assert (Hpart : find (fun kv => PyStr.contains (PyStr.lower (fst kv)) (PyStr.lower output))
                    color_map = None).
  { apply find_none_intro. intros [k v] Hin. simpl. eauto. }
  now rewrite Hpart.
Qed.

End ColourResolution.

(** C2, the example of the specification: a key that is only a substring
    of the output gives its colour. *)
Example resolve_color_blocked :
  Hooks.resolve_color [("blocked", "yellow")] "blocked:CI+review" = Some "yellow".
Proof. reflexivity. Qed.

(** C2: colour resolution gives the exact match (ignoring case) priority
    over substring matches.  The code looks the lower-cased output up among
    the keys as they are written, so a key with a capital letter is never an
    exact match: on the table [OK -> green, NOT OK -> red] the output
    [NOT OK] is coloured [green] by the earlier substring key, where the
    specification's wording gives [red]. *)
Theorem C2_exact_match_misses_mixed_case_key :
  Hooks.resolve_color Samples.mixed_case_map "NOT OK" = Some "green"
  /\ Spec.resolve_color_spec Samples.mixed_case_map "NOT OK" = Some "red"
  /\ Hooks.dict_get (PyStr.lower "NOT OK") Samples.mixed_case_map = None.
Proof. repeat split; reflexivity. Qed.

(** ** Running one hook *)

Section RunHook.
Import Hooks.
Context (env : Env).

(** The time limit has no influence on what [run_hook] does. *)
Lemma run_hook_timeout_unused hook worktree t1 t2 :
  run_hook env hook worktree t1 = run_hook env hook worktree t2.
Proof. reflexivity. Qed.

(** [run_hook] raises only when the command cannot be resolved, that is
    when the hook text is blank. *)
Lemma resolve_command_ok hook worktree :
  PyStr.split_ws (ch_hook hook) <> [] ->
  exists cmd, resolve_command env hook worktree = Ok cmd.
Proof.
  intros Hne. unfold resolve_command.
  destruct (PyStr.startswith "/" (ch_hook hook)); [eauto|].
  destruct (PyStr.split_ws (ch_hook hook)) as [|script_name args]; [congruence|].
  destruct (PyStr.contains " " script_name); [eauto|].
  destruct (find _ _); eauto.
Qed.

Lemma run_hook_ok hook worktree timeout :
  PyStr.split_ws (ch_hook hook) <> [] ->
  exists r, snd (run_hook env hook worktree timeout) = Ok r
            /\ hr_worktree_path r = wt_path worktree
            /\ hr_column_name r = ch_name hook.
Proof.
  intros Hne. destruct (resolve_command_ok hook worktree Hne) as [cmd Hcmd].
  unfold run_hook. rewrite Hcmd.
  destruct (hook_output env cmd worktree) as [elapsed output].
  simpl. eauto.
Qed.

(** Whatever [run_hook] yields is labelled with its worktree and hook. *)
Lemma run_hook_labels hook worktree timeout r :
  snd (run_hook env hook worktree timeout) = Ok r ->
  hr_worktree_path r = wt_path worktree /\ hr_column_name r = ch_name hook.
Proof.
  unfold run_hook. destruct (resolve_command env hook worktree) as [cmd|e]; [|discriminate].
  destruct (hook_output env cmd worktree) as [elapsed output]. simpl.
  intros [= <-]. split; reflexivity.
Qed.

(** When awaiting the process raises a time-out, the value is the
    literal [timeout]; when it raises anything else, the literal [error]. *)
Lemma run_hook_timeout_sentinel hook worktree timeout cmd t msg :
  resolve_command env hook worktree = Ok cmd ->
  run_process env cmd worktree = ProcRaised t (TimeoutError msg) ->
  exists r, run_hook env hook worktree timeout = (t, Ok r) /\ hr_value r = "timeout".
Proof.
  intros Hcmd Hrun. unfold run_hook, hook_output. rewrite Hcmd, Hrun.
  eexists. split; reflexivity.
Qed.

(** X2: when awaiting the process raises anything but a time-out,
    [run_hook] yields a result whose value is the literal [error]. *)
Lemma run_hook_error_sentinel hook worktree timeout cmd t e :
  resolve_command env hook worktree = Ok cmd ->
  run_process env cmd worktree = ProcRaised t e ->
  (forall msg, e <> TimeoutError msg) ->
  exists r, run_hook env hook worktree timeout = (t, Ok r) /\ hr_value r = "error".
Proof.
  intros Hcmd Hrun Hne. unfold run_hook, hook_output. rewrite Hcmd, Hrun.
  destruct e as [m|m|m]; try (eexists; split; reflexivity).
  now destruct (Hne m).
Qed.

End RunHook.

(** C1: [run_hook] never propagates a fault and, on a time-out, returns
    within the configured limit with the value [timeout].  The code hands
    no limit to the process call: with a limit of 10 seconds and a command
    that runs for 60, [run_hook] returns after 60 seconds with the command's
    output.  A blank hook text raises [IndexError] before the [try]. *)
Theorem C1_timeout_not_enforced :
  Hooks.run_hook Samples.slow_env Samples.sleepy_hook Samples.wt_a 10000
  = (60000, Ok {| Hooks.hr_worktree_path := "/repo/a"; Hooks.hr_column_name := "Slow";
                  Hooks.hr_value := "done"; Hooks.hr_color := None |})
  /\ Hooks.run_hook Samples.slow_env Samples.blank_hook Samples.wt_a 10000
     = (0, Raise (IndexError "list index out of range")).
Proof. split; reflexivity. Qed.

(** An execution error other than a time-out gives the value [error]. *)
Example run_hook_boom :
  Hooks.run_hook Samples.flaky_env Samples.boom_hook Samples.wt_a 10000
  = (1000, Ok {| Hooks.hr_worktree_path := "/repo/a"; Hooks.hr_column_name := "Boom";
                 Hooks.hr_value := "error"; Hooks.hr_color := Some "red" |}).
Proof. reflexivity. Qed.

(** ** Running all hooks *)

Section RunAllHooks.
Import Hooks.

Lemma lookup2_organize_step m hr path name :
  lookup2 (organize_step m (Ok hr)) path name
  = if bool_decide (hr_worktree_path hr = path /\ hr_column_name hr = name)
    then Some hr else lookup2 m path name.
Proof.
  unfold lookup2, organize_step.
  destruct (decide (hr_worktree_path hr = path)) as [<-|Hp].
  - rewrite lookup_insert_eq.
    destruct (decide (hr_column_name hr = name)) as [<-|Hn].
    + rewrite lookup_insert_eq. rewrite bool_decide_eq_true_2; [reflexivity|tauto].
    + rewrite lookup_insert_ne by assumption.
      rewrite bool_decide_eq_false_2 by tauto.
      destruct (m !! hr_worktree_path hr); simpl; [reflexivity|apply lookup_empty].
  - rewrite lookup_insert_ne by assumption.
    rewrite bool_decide_eq_false_2 by tauto. reflexivity.
Qed.

(** The entry under a pair of keys is the last result gathered for it. *)
Lemma lookup2_foldl results m path name :
  lookup2 (foldl organize_step m results) path name
  = last_ok path name results (lookup2 m path name).
Proof.
  revert m. induction results as [|[hr|e] results IH]; intros m; cbn [foldl last_ok].
  - reflexivity.
  - rewrite IH, lookup2_organize_step. reflexivity.
  - apply IH.
Qed.

Lemma lookup2_organize results path name :
  lookup2 (organize results) path name = last_ok path name results None.
Proof. unfold organize. rewrite lookup2_foldl. reflexivity. Qed.

(** A result that is an exception leaves the mapping as it would be
    without it. *)
Lemma organize_skips_failure l1 e l2 :
  organize (l1 ++ Raise e :: l2)%list = organize (l1 ++ l2)%list.
Proof. unfold organize. now rewrite !foldl_app. Qed.

Lemma last_ok_present path name results acc hr :
  In (Ok hr) results ->
  hr_worktree_path hr = path -> hr_column_name hr = name ->
  exists hr', last_ok path name results acc = Some hr'
              /\ hr_worktree_path hr' = path /\ hr_column_name hr' = name.
Proof.
  intros Hin Hp Hn.
  assert (Hacc : forall rs a,
             (exists h, a = Some h /\ hr_worktree_path h = path /\ hr_column_name h = name) ->
             exists h, last_ok path name rs a = Some h
                       /\ hr_worktree_path h = path /\ hr_column_name h = name).
  { induction rs as [|[h|e] rs IH]; intros a Ha; simpl; [assumption| |now apply IH].
    apply IH. case_bool_decide as Hd; [|assumption].
    exists h. tauto. }
  revert acc. induction results as [|[h|e] results IH]; intros acc; simpl in *.
  - contradiction.
  - destruct Hin as [[= ->]|Hin].
    + apply Hacc. rewrite bool_decide_eq_true_2 by tauto. eauto.
    + now apply IH.
  - destruct Hin as [Hin|Hin]; [discriminate|now apply IH].
Qed.

Lemma last_ok_origin path name results hr :
  last_ok path name results None = Some hr ->
  In (Ok hr) results /\ hr_worktree_path hr = path /\ hr_column_name hr = name.
Proof.
  assert (Hgen : forall rs a,
             last_ok path name rs a = Some hr ->
             a = Some hr \/
             (In (Ok hr) rs /\ hr_worktree_path hr = path /\ hr_column_name hr = name)).
  { induction rs as [|[h|e] rs IH]; intros a Ha; simpl in *.
    - now left.
    - destruct (IH _ Ha) as [Hs|(Hin & Hp & Hn)]; [|tauto].
      case_bool_decide as Hd; [|now left].
      injection Hs as ->. right. tauto.
    - destruct (IH _ Ha) as [Hs|(Hin & Hp & Hn)]; tauto. }
  intros H. destruct (Hgen _ _ H) as [Hs|Hr]; [discriminate|assumption].
Qed.

Lemma in_hook_tasks hooks worktrees hook worktree :
  In (hook, worktree) (hook_tasks hooks worktrees)
  <-> In hook hooks /\ In worktree worktrees.
Proof.
  unfold hook_tasks. rewrite <- !list_elem_of_In, list_elem_of_bind. split.
  - intros (w & Hw1 & Hw2). apply list_elem_of_bind in Hw1 as (h & Hh1 & Hh2).
    apply list_elem_of_singleton in Hh1 as [= -> ->]. tauto.
  - intros [Hh Hw]. exists worktree. split; [|assumption].
    apply list_elem_of_bind. exists hook. split; [|assumption].
    now apply list_elem_of_singleton.
Qed.

End RunAllHooks.

(** C6: the mapping [run_all_hooks] returns.  With no hook or no worktree it
    is empty and no coroutine is started.  Otherwise every pair of a hook
    and a worktree whose run yields a result has an entry under the
    worktree's path and the hook's name, whatever the other runs do; every
    entry is the result of a started run with these keys; a pair of keys
    has one entry; and a run that raised leaves the entries of the others
    as they are. *)
Theorem C6_run_all_hooks_mapping (env : Hooks.Env) (hooks : list Hooks.ColumnHook)
    (worktrees : list Hooks.Worktree) (timeout : Z) :
  let b := Hooks.run_all_hooks env hooks worktrees timeout in
  (hooks = [] \/ worktrees = [] -> Hooks.organized b = ∅ /\ Hooks.spawned b = []) /\
  (forall hook worktree r,
      In hook hooks -> In worktree worktrees ->
      snd (Hooks.run_hook env hook worktree timeout) = Ok r ->
      exists r',
        Hooks.lookup2 (Hooks.organized b) (Hooks.wt_path worktree) (Hooks.ch_name hook)
        = Some r'
        /\ Hooks.hr_worktree_path r' = Hooks.wt_path worktree
        /\ Hooks.hr_column_name r' = Hooks.ch_name hook) /\
  (forall path name r,
      Hooks.lookup2 (Hooks.organized b) path name = Some r ->
      exists hook worktree,
        In (hook, worktree) (Hooks.spawned b)
        /\ snd (Hooks.run_hook env hook worktree timeout) = Ok r
        /\ Hooks.wt_path worktree = path /\ Hooks.ch_name hook = name) /\
  (forall path name r1 r2,
      Hooks.lookup2 (Hooks.organized b) path name = Some r1 ->
      Hooks.lookup2 (Hooks.organized b) path name = Some r2 -> r1 = r2) /\
  (forall l1 e l2,
      Hooks.organize (l1 ++ Raise e :: l2)%list = Hooks.organize (l1 ++ l2)%list).
Proof.
  intros b. split; [|split; [|split; [|split]]].
  - subst b. unfold Hooks.run_all_hooks.
    intros [-> | ->]; [split; reflexivity|]. destruct hooks; split; reflexivity.
  - intros hook worktree r Hh Hw Hr. subst b. unfold Hooks.run_all_hooks.
    destruct hooks as [|h0 hs]; [contradiction|].
    destruct worktrees as [|w0 ws]; [contradiction|].
    cbn [Hooks.organized]. rewrite lookup2_organize.
    destruct (run_hook_labels env hook worktree timeout r Hr) as [Hp Hn].
    rewrite <- Hp, <- Hn.
    apply (last_ok_present _ _ _ None r); [|reflexivity|reflexivity].
    rewrite <- Hr. apply in_map_iff.
    exists (Hooks.run_hook env hook worktree timeout). split; [reflexivity|].
    apply in_map_iff. exists (hook, worktree). split; [reflexivity|].
    now apply in_hook_tasks.
  - intros path name r. subst b. unfold Hooks.run_all_hooks.
    destruct hooks as [|h0 hs]; [discriminate|].
    destruct worktrees as [|w0 ws]; [discriminate|].
    cbn [Hooks.organized Hooks.spawned]. rewrite lookup2_organize.
    intros Hl. apply last_ok_origin in Hl as (Hin & Hp & Hn).
    apply in_map_iff in Hin as (run & Hrun & Hin).
    apply in_map_iff in Hin as ([hook worktree] & <- & Hin).
    simpl in Hrun. exists hook, worktree.
    destruct (run_hook_labels env hook worktree timeout r Hrun) as [Hp' Hn'].
    repeat split; [assumption|assumption|congruence|congruence].
  - intros path name r1 r2 H1 H2. congruence.
  - apply organize_skips_failure.
Qed.

(** C6 at two worktrees and two hooks, one of which raises on every run:
    the other hook's entry for the second worktree is there. *)
Lemma C6_run_all_hooks_mapping_witness :
  exists r',
    Hooks.lookup2
      (Hooks.organized
         (Hooks.run_all_hooks Samples.flaky_env [Samples.blank_hook; Samples.echo_hook]
            [Samples.wt_a; Samples.wt_b] 10000))
      "/repo/b" "Echo" = Some r'
    /\ Hooks.hr_worktree_path r' = "/repo/b" /\ Hooks.hr_column_name r' = "Echo".
Proof.
  destruct (C6_run_all_hooks_mapping Samples.flaky_env
              [Samples.blank_hook; Samples.echo_hook] [Samples.wt_a; Samples.wt_b] 10000)
    as (_ & Hpresent & _).
  apply (Hpresent Samples.echo_hook Samples.wt_b
           {| Hooks.hr_worktree_path := "/repo/b"; Hooks.hr_column_name := "Echo";
              Hooks.hr_value := "ok"; Hooks.hr_color := Some "green" |}).
  - simpl. tauto.
  - simpl. tauto.
  - reflexivity.
Defined.

(** ** Keys and navigation *)

Section Navigation.
Import Hooks Tui.

Lemma switch_mode_same s : switch_mode (mode s) s = s.
Proof. unfold switch_mode. destruct (decide (mode s <> mode s)); congruence. Qed.

Lemma switch_mode_changed new_mode s :
  new_mode <> mode s ->
  switch_mode new_mode s
  = set_needs_refresh true
      (set_selected ∅ (set_viewport_start 0 (set_cursor 0 (set_mode new_mode s)))).
Proof. intros H. unfold switch_mode. destruct (decide (new_mode <> mode s)); tauto. Qed.

Lemma switch_mode_resets new_mode s :
  mode (switch_mode new_mode s) <> mode s ->
  cursor (switch_mode new_mode s) = 0
  /\ viewport_start (switch_mode new_mode s) = 0
  /\ selected (switch_mode new_mode s) = ∅
  /\ needs_refresh (switch_mode new_mode s) = true.
Proof.
  destruct (decide (new_mode = mode s)) as [->|Hne].
  - rewrite switch_mode_same. congruence.
  - rewrite switch_mode_changed by assumption. intros _. repeat split.
Qed.

(** The next mode in the cycle is never the current one. *)
Lemma cycle_mode_switches s :
  exists new_mode, new_mode <> mode s /\ cycle_mode s = switch_mode new_mode s.
Proof.
  unfold cycle_mode. destruct (mode s) eqn:Hm; simpl; eexists; (split; [|reflexivity]);
    discriminate.
Qed.

Lemma same_view_refl s : same_view s s.
Proof. repeat split. Qed.

Lemma apply_status_same_view st s : same_view (apply_status st s) s.
Proof. destruct st as [[m y]|]; repeat split. Qed.

Lemma toggle_selected_same_view s : same_view (toggle_selected s) s.
Proof. unfold toggle_selected. destruct (decide _); repeat split. Qed.

Lemma toggle_all_same_view s : same_view (toggle_all s) s.
Proof. unfold toggle_all. destruct (decide _); repeat split. Qed.

(** What a key can do to the view. *)
Lemma handle_key_view c key t :
  console_size (snd (handle_key c key t)) = console_size t
  /\ (  (exists new_mode, state (snd (handle_key c key t)) = switch_mode new_mode (state t))
      \/ state (snd (handle_key c key t)) = move_down (viewport_size t) (state t)
      \/ state (snd (handle_key c key t)) = move_up (state t)
      \/ same_view (state (snd (handle_key c key t))) (state t)).
Proof.
  unfold handle_key.
  repeat lazymatch goal with
         | |- context [if ?b then _ else _] => destruct b
         | |- context [match mode ?x with _ => _ end] => destruct (mode x)
         end;
    cbn [snd state with_state console_size set_pending];
    (split; [reflexivity|]);
    first
      [ left; eexists; reflexivity
      | left; destruct (cycle_mode_switches (state t)) as (m & _ & ->); eexists; reflexivity
      | right; left; reflexivity
      | right; right; left; reflexivity
      | right; right; right;
        first [ apply same_view_refl | apply apply_status_same_view
              | apply toggle_selected_same_view | apply toggle_all_same_view
              | repeat split ] ].
Qed.

Lemma mode_move_down v s : mode (move_down v s) = mode s.
Proof. unfold move_down. destruct (_ >=? _); reflexivity. Qed.

Lemma mode_move_up s : mode (move_up s) = mode s.
Proof. unfold move_up. destruct (_ <? _); reflexivity. Qed.

End Navigation.

(** C8, as stated: a jump to the mode that is already shown resets
    nothing.  In the worktree view with the cursor on the third row, that row
    selected, the window started at the second row and no refresh requested,
    the key [1] leaves all four as they are. *)
Lemma C8_jump_to_shown_mode_resets_nothing :
  Tui.mode (Tui.state Samples.tui_third_row_selected) = Tui.WORKTREES
  /\ snd (Tui.handle_key Samples.collab0 "1" Samples.tui_third_row_selected)
     = Samples.tui_third_row_selected
  /\ Tui.cursor
       (Tui.state (snd (Tui.handle_key Samples.collab0 "1" Samples.tui_third_row_selected)))
     = 2
  /\ Tui.viewport_start
       (Tui.state (snd (Tui.handle_key Samples.collab0 "1" Samples.tui_third_row_selected)))
     = 1
  /\ Tui.selected
       (Tui.state (snd (Tui.handle_key Samples.collab0 "1" Samples.tui_third_row_selected)))
     = {[2]}
  /\ Tui.needs_refresh
       (Tui.state (snd (Tui.handle_key Samples.collab0 "1" Samples.tui_third_row_selected)))
     = false.
Proof. repeat split. Qed.

(** C8, amended: every mode switch that changes the mode resets the
    cursor and the start of the window to 0, empties the selection and sets
    the staleness flag, so that the loop starts a refresh on its next turn
    when no load is running, and none while one is.  This holds for
    [_switch_mode] to another mode, for the tab key (whose target is never the
    current mode) and for any key press after which the mode differs.  A jump
    to the mode that is already shown changes nothing. *)
Theorem C8_mode_switch_resets (s : Tui.TUIState) :
  (forall new_mode,
      new_mode <> Tui.mode s ->
      Tui.mode (Tui.switch_mode new_mode s) = new_mode
      /\ Tui.cursor (Tui.switch_mode new_mode s) = 0
      /\ Tui.viewport_start (Tui.switch_mode new_mode s) = 0
      /\ Tui.selected (Tui.switch_mode new_mode s) = ∅
      /\ Tui.needs_refresh (Tui.switch_mode new_mode s) = true
      /\ (forall c : Tui.Collab,
            Tui.refresh_due c (Tui.switch_mode new_mode s) = negb (Tui.loading s))) /\
  (Tui.mode (Tui.cycle_mode s) <> Tui.mode s
   /\ Tui.cursor (Tui.cycle_mode s) = 0
   /\ Tui.viewport_start (Tui.cycle_mode s) = 0
   /\ Tui.selected (Tui.cycle_mode s) = ∅
   /\ Tui.needs_refresh (Tui.cycle_mode s) = true
   /\ (forall c : Tui.Collab,
         Tui.refresh_due c (Tui.cycle_mode s) = negb (Tui.loading s))) /\
  (forall c key t,
      Tui.state t = s ->
      Tui.mode (Tui.state (snd (Tui.handle_key c key t))) <> Tui.mode s ->
      Tui.cursor (Tui.state (snd (Tui.handle_key c key t))) = 0
      /\ Tui.viewport_start (Tui.state (snd (Tui.handle_key c key t))) = 0
      /\ Tui.selected (Tui.state (snd (Tui.handle_key c key t))) = ∅
      /\ Tui.needs_refresh (Tui.state (snd (Tui.handle_key c key t))) = true
      /\ Tui.refresh_due c (Tui.state (snd (Tui.handle_key c key t)))
         = negb (Tui.loading s)) /\
  Tui.switch_mode (Tui.mode s) s = s.
Proof.
  assert (Hdue : forall (c : Tui.Collab) new_mode,
             Tui.refresh_due c
               (Tui.set_needs_refresh true
                  (Tui.set_selected ∅
                     (Tui.set_viewport_start 0
                        (Tui.set_cursor 0 (Tui.set_mode new_mode s)))))
             = negb (Tui.loading s)).
  { intros c new_mode. unfold Tui.refresh_due. reflexivity. }
  split; [|split; [|split]].
  - intros new_mode Hne. rewrite switch_mode_changed by assumption.
    repeat split; try (intros c; apply Hdue).
  - destruct (cycle_mode_switches s) as (m & Hne & ->).
    rewrite switch_mode_changed by assumption.
    split; [simpl; congruence|]. repeat split; try (intros c; apply Hdue).
  - intros c key t <- Hmode.
    destruct (handle_key_view c key t) as [_ [(m & Hs)|[Hs|[Hs|Hs]]]].
    + rewrite Hs in *. destruct (decide (m = Tui.mode (Tui.state t))) as [->|Hne].
      * rewrite switch_mode_same in Hmode. congruence.
      * rewrite switch_mode_changed by assumption. repeat split; try apply Hdue.
    + rewrite Hs, mode_move_down in Hmode. congruence.
    + rewrite Hs, mode_move_up in Hmode. congruence.
    + destruct Hs as (_ & _ & Hm & _). congruence.
  - apply switch_mode_same.
Qed.

(** ** The navigation invariant *)

Section NavigationInvariant.
Import Hooks Tui.













(** X3: [_adjust_viewport_after_resize] puts the cursor on a row and in
    the window when there is a row. *)
Lemma adjust_viewport_restores vsize s :
  1 <= vsize -> 0 < current_len s -> 0 <= cursor s ->
  let s' := adjust_viewport_after_resize vsize s in
  0 <= cursor s' < current_len s'
  /\ viewport_start s' <= cursor s' < viewport_start s' + vsize.
Proof.
  intros Hv Hn Hc. cbv zeta. unfold adjust_viewport_after_resize.
  destruct (current_len s =? 0) eqn:H0; [apply Z.eqb_eq in H0; lia|].
  cbn [cursor viewport_start set_cursor set_viewport_start].
  assert (Hlen : forall x y, current_len (set_viewport_start y (set_cursor x s))
                             = current_len s) by reflexivity.
  assert (Hlen' : forall x y z,
             current_len (set_viewport_start z (set_viewport_start y (set_cursor x s)))
             = current_len s) by reflexivity.
  repeat match goal with
         | |- context [if ?a <? ?b then _ else _] =>
             destruct (Z.ltb_spec a b)
         | |- context [if ?a >=? ?b then _ else _] =>
             rewrite (Z.geb_leb a b); destruct (Z.leb_spec b a)
         end;
    cbn [cursor viewport_start set_cursor set_viewport_start];
    rewrite ?Hlen, ?Hlen'; lia.
Qed.

End NavigationInvariant.




(** ** The selected worktrees *)

Section SelectedWorktrees.
Import Hooks Tui.

Lemma py_index_in_range {A} (l : list A) (i : Z) :
  0 <= i < Z.of_nat (length l) ->
  exists x, py_index l i = Ok x /\ l !! Z.to_nat i = Some x.
Proof.
  intros Hi. unfold py_index.
  destruct (Z.ltb_spec i 0); [lia|].
  destruct (Z.leb_spec 0 i); [|lia].
  destruct (Z.ltb_spec i (Z.of_nat (length l))); [|lia]. simpl.
  destruct (l !! Z.to_nat i) as [x|] eqn:Hl; [eauto|].
  apply lookup_ge_None in Hl. lia.
Qed.

Lemma py_index_past_end {A} (l : list A) (i : Z) :
  Z.of_nat (length l) <= i ->
  py_index l i = Raise (IndexError "list index out of range").
Proof.
  intros Hi. unfold py_index.
  destruct (Z.ltb_spec i 0); [lia|].
  destruct (Z.leb_spec 0 i); [|lia].
  destruct (Z.ltb_spec i (Z.of_nat (length l))); [lia|]. reflexivity.
Qed.

Lemma map_result_ok {A B} (f : A -> result B) (P : A -> B -> Prop) (xs : list A) :
  Forall (fun x => exists y, f x = Ok y /\ P x y) xs ->
  exists ys, map_result f xs = Ok ys /\ Forall2 P xs ys.
Proof.
  induction 1 as [|x xs (y & Hy & HP) _ (ys & Hys & HF)]; simpl.
  - exists []. split; [reflexivity|constructor].
  - rewrite Hy, Hys. exists (y :: ys). split; [reflexivity|now constructor].
Qed.

Lemma map_result_raise {A B} (f : A -> result B) (xs : list A) x e :
  In x xs -> (forall y, In y xs -> f y = Raise e) -> map_result f xs = Raise e.
Proof.
  destruct xs as [|y xs]; [contradiction|]. intros _ H. simpl.
  now rewrite (H y (or_introl eq_refl)).
Qed.

Lemma sorted_nodup_strict (l : list Z) :
  StronglySorted Z.le l -> NoDup l -> StronglySorted Z.lt l.
Proof.
  induction 1 as [|x l Hs IH Hall]; intros Hnd; [constructor|].
  apply NoDup_cons in Hnd as [Hx Hnd]. constructor; [now apply IH|].
  rewrite Forall_forall in *. intros y Hy.
  assert (x <> y) by (intros ->; apply Hx; now apply list_elem_of_In).
  specialize (Hall y Hy). lia.
Qed.

(** [sorted] of a set: ascending, without repetition, the same elements. *)
Lemma sorted_set_spec (sel : gset Z) :
  StronglySorted Z.lt (sorted_set sel)
  /\ (forall i, i ∈ sorted_set sel <-> i ∈ sel).
Proof.
  unfold sorted_set.
  assert (Hperm : merge_sort Z.le (elements sel) ≡ₚ elements sel)
    by apply merge_sort_Permutation.
  assert (Hnd : NoDup (merge_sort Z.le (elements sel)))
    by (rewrite Hperm; apply NoDup_elements).
  assert (Hs : StronglySorted Z.le (merge_sort Z.le (elements sel)))
    by (apply StronglySorted_merge_sort; apply _).
  split.
  - now apply sorted_nodup_strict.
  - intros i. rewrite Hperm. apply elem_of_elements.
Qed.

(** With nothing selected the row under the cursor is returned, or
    nothing when the cursor is on no row. *)
Lemma get_selected_cursor_row s :
  selected s = ∅ ->
  (0 <= cursor s < Z.of_nat (length (worktrees s)) ->
   exists w, worktrees s !! Z.to_nat (cursor s) = Some w
             /\ get_selected_worktrees s = Ok [w])
  /\ (~ 0 <= cursor s < Z.of_nat (length (worktrees s)) ->
      get_selected_worktrees s = Ok []).
Proof.
  intros Hsel. unfold get_selected_worktrees.
  destruct (decide (selected s = ∅)); [|contradiction]. split; intros Hc.
  - destruct (Z.leb_spec 0 (cursor s)); [|lia].
    destruct (Z.ltb_spec (cursor s) (Z.of_nat (length (worktrees s)))); [|lia]. simpl.
    destruct (py_index_in_range (worktrees s) (cursor s) Hc) as (w & -> & Hw). eauto.
  - destruct (Z.leb_spec 0 (cursor s)); simpl; [|reflexivity].
    destruct (Z.ltb_spec (cursor s) (Z.of_nat (length (worktrees s)))); [lia|reflexivity].
Qed.

(** X4: with a selection whose indices are all rows, the selected rows
    are returned in ascending order of index. *)
Lemma get_selected_rows_ascending s :
  selected s <> ∅ ->
  (forall i, i ∈ selected s -> 0 <= i < Z.of_nat (length (worktrees s))) ->
  exists ws,
    get_selected_worktrees s = Ok ws
    /\ Forall2 (fun i w => worktrees s !! Z.to_nat i = Some w) (sorted_set (selected s)) ws
    /\ StronglySorted Z.lt (sorted_set (selected s))
    /\ (forall i, i ∈ sorted_set (selected s) <-> i ∈ selected s).
Proof.
  intros Hsel Hrange. unfold get_selected_worktrees.
  destruct (decide (selected s = ∅)); [contradiction|].
  destruct (sorted_set_spec (selected s)) as [Hsorted Hmem].
  destruct (map_result_ok (py_index (worktrees s))
              (fun i w => worktrees s !! Z.to_nat i = Some w)
              (sorted_set (selected s))) as (ws & Hws & HF).
  { apply Forall_forall. intros i Hi. apply Hmem in Hi.
    apply py_index_in_range. auto. }
  exists ws. auto.
Qed.

End SelectedWorktrees.

(** C9: with a non-empty selection [get_selected_worktrees] returns the
    selected rows in ascending order.  The selection is not cleared when a
    refresh brings fewer rows: after three rows arrive, the third is
    selected and a refresh returns one row, the selection holds index 2 of a
    one-row snapshot and the function raises [IndexError] where the branch
    for an empty selection checks the range. *)
Theorem C9_stale_selection_raises :
  elements (Tui.selected
              (Tui.state (Tui.run_ops Samples.collab0 Samples.tui0
                            Samples.stale_selection_history))) = [2]
  /\ length (Tui.worktrees
               (Tui.state (Tui.run_ops Samples.collab0 Samples.tui0
                             Samples.stale_selection_history))) = 1%nat
  /\ Tui.get_selected_worktrees
       (Tui.state (Tui.run_ops Samples.collab0 Samples.tui0
                     Samples.stale_selection_history))
     = Raise (IndexError "list index out of range").
Proof. repeat split; vm_compute; reflexivity. Qed.

(** ** Stable sorting *)

Section SortBy.
Import Tui.
Context {A : Type} (le : A -> A -> bool).
Hypothesis le_total : forall x y, le x y = true \/ le y x = true.
Hypothesis le_trans : forall x y z, le x y = true -> le y z = true -> le x z = true.

Lemma insert_by_perm x l : insert_by le x l ≡ₚ x :: l.
Proof.
  induction l as [|y l IH]; simpl; [reflexivity|].
  destruct (le x y); [reflexivity|]. rewrite IH. apply Permutation_swap.
Qed.

Lemma sort_by_perm l : sort_by le l ≡ₚ l.
Proof.
  induction l as [|x l IH]; simpl; [reflexivity|].
  unfold sort_by in *. simpl. rewrite insert_by_perm. now rewrite IH.
Qed.

Lemma insert_by_sorted x l :
  StronglySorted (fun a b => le a b = true) l ->
  StronglySorted (fun a b => le a b = true) (insert_by le x l).
Proof.
  induction 1 as [|y l Hs IH Hall]; simpl.
  - repeat constructor.
  - destruct (le x y) eqn:Hxy.
    + constructor; [now constructor|]. constructor; [assumption|].
      eapply Forall_impl; [exact Hall|]. intros z Hz. simpl in Hz. eauto.
    + constructor; [assumption|].
      assert (Hyx : le y x = true) by (destruct (le_total x y); congruence).
      rewrite insert_by_perm. now constructor.
Qed.

Lemma sort_by_sorted l : StronglySorted (fun a b => le a b = true) (sort_by le l).
Proof.
  induction l as [|x l IH]; [constructor|].
  unfold sort_by in *. simpl. now apply insert_by_sorted.
Qed.

(** Insertion passes over no element tied with the one inserted. *)
Lemma insert_by_tied z x l :
  List.filter (tied le z) (insert_by le x l) = List.filter (tied le z) (x :: l).
Proof.
  induction l as [|y l IH]; [reflexivity|].
  cbn [insert_by]. destruct (le x y) eqn:Hxy; [reflexivity|].
  cbn [List.filter] in *. rewrite IH.
  destruct (tied le z x) eqn:Hzx; [|reflexivity].
  destruct (tied le z y) eqn:Hzy; [|reflexivity].
  unfold tied in *. apply andb_prop in Hzx as [Hzx Hxz]. apply andb_prop in Hzy as [Hzy Hyz].
  rewrite (le_trans x z y Hxz Hzy) in Hxy. discriminate.
Qed.

(** The sort is stable: elements the comparison cannot tell apart keep
    their order. *)
Lemma sort_by_stable z l :
  List.filter (tied le z) (sort_by le l) = List.filter (tied le z) l.
Proof.
  induction l as [|x l IH]; [reflexivity|].
  unfold sort_by in *. cbn [foldr]. rewrite insert_by_tied.
  cbn [List.filter]. now rewrite IH.
Qed.

End SortBy.

(** ** The ticket snapshot *)

Section TicketSort.
Import Hooks Tui.

Lemma tuple3_le_spec a1 a2 a3 b1 b2 b3 :
  tuple3_le (a1, a2, a3) (b1, b2, b3) = true
  <-> a1 < b1 \/ (a1 = b1 /\ (a2 < b2 \/ (a2 = b2 /\ a3 <= b3))).
Proof.
  unfold tuple3_le.
  destruct (Z.ltb_spec a1 b1), (Z.eqb_spec a1 b1), (Z.ltb_spec a2 b2),
    (Z.eqb_spec a2 b2), (Z.leb_spec a3 b3); simpl; split; (lia || reflexivity || discriminate).
Qed.

Lemma ticket_le_before a b : ticket_le a b = true <-> ticket_before a b.
Proof.
  unfold ticket_le, ticket_before, ticket_key. rewrite tuple3_le_spec. lia.
Qed.

Lemma ticket_le_total a b : ticket_le a b = true \/ ticket_le b a = true.
Proof. rewrite !ticket_le_before. unfold ticket_before. lia. Qed.

Lemma ticket_le_trans a b c :
  ticket_le a b = true -> ticket_le b c = true -> ticket_le a c = true.
Proof. rewrite !ticket_le_before. unfold ticket_before. lia. Qed.

Lemma sort_tickets_sorted l : StronglySorted ticket_before (sort_tickets l).
Proof.
  pose proof (sort_by_sorted ticket_le ticket_le_total ticket_le_trans l) as H.
  unfold sort_tickets. fold ticket_le.
  induction H as [|x xs Hs IH Hall]; constructor; [assumption|].
  eapply Forall_impl; [exact Hall|]. intros y Hy. now apply ticket_le_before.
Qed.

(** The category ranks. *)
Lemma type_order_table :
  type_order "started" = 0 /\ type_order "unstarted" = 1 /\ type_order "backlog" = 2
  /\ type_order "completed" = 3 /\ type_order "canceled" = 4
  /\ (forall state_type,
        ~ In (PyStr.lower state_type)
             ["started"; "unstarted"; "backlog"; "completed"; "canceled"] ->
        type_order state_type = 5).
Proof.
  repeat split. intros st Hst. unfold type_order. simpl in Hst.
  repeat match goal with
         | |- context [String.eqb ?a ?b] =>
             destruct (String.eqb_spec a b) as [Heq|]; [exfalso; rewrite Heq in Hst; tauto|]
         end.
  reflexivity.
Qed.

(** The review ranks. *)
Lemma pr_sort_key_table t :
  (ti_pr_info t = None -> pr_sort_key t = 0)
  /\ (forall pr, ti_pr_info t = Some pr ->
        (pr_state pr = "merged" -> pr_sort_key t = 4)
        /\ (pr_state pr = "closed" -> pr_sort_key t = 5)
        /\ (pr_state pr <> "merged" -> pr_state pr <> "closed" ->
            (pr_is_draft pr = true -> pr_sort_key t = 1)
            /\ (pr_is_draft pr = false -> pr_review_decision pr = Some APPROVED ->
                pr_sort_key t = 3)
            /\ (pr_is_draft pr = false -> pr_review_decision pr <> Some APPROVED ->
                pr_sort_key t = 2))).
Proof.
  unfold pr_sort_key. split; [now intros ->|]. intros pr ->.
  split; [now intros ->|]. split; [now intros ->|]. intros Hm Hc.
  destruct (String.eqb_spec (pr_state pr) "merged"); [contradiction|].
  destruct (String.eqb_spec (pr_state pr) "closed"); [contradiction|].
  split; [now intros ->|]. split.
  - now intros -> ->.
  - intros -> Hr. destruct (pr_review_decision pr) as [[]|]; congruence.
Qed.

End TicketSort.

(** The example of the specification, in each of the six orders the
    tickets can be fetched in. *)
Example ticket_sort_example :
  let a := Samples.ticket_started_9 in
  let b := Samples.ticket_started_draft_9 in
  let c := Samples.ticket_unstarted_10 in
  Tui.sort_tickets [a; b; c] = [a; b; c] /\ Tui.sort_tickets [a; c; b] = [a; b; c]
  /\ Tui.sort_tickets [b; a; c] = [a; b; c] /\ Tui.sort_tickets [b; c; a] = [a; b; c]
  /\ Tui.sort_tickets [c; a; b] = [a; b; c] /\ Tui.sort_tickets [c; b; a] = [a; b; c].
Proof. repeat split; vm_compute; reflexivity. Qed.

(** C5: when the worktrees are enumerated and the tickets fetched, the
    ticket snapshot holds the fetched tickets, each before the next in the
    order category rank, review rank, priority from high to low, and tickets
    with equal keys in the order they were fetched in; the ranks are those
    of the specification; and the three tickets of its example come out as
    started/no review/9, started/draft/9, unstarted/no review/10. *)
Theorem C5_ticket_snapshot_sorted (c : Tui.Collab) (s : Tui.TUIState)
    (local_worktrees : list Hooks.Worktree) (raw_tickets : list Tui.RawTicket) :
  Tui.get_feature_worktrees c = Ok local_worktrees ->
  Tui.fetch_tickets c (Tui.mode s) = Ok raw_tickets ->
  let fetched :=
    map (Tui.make_ticket_info c
           (map (fun wt => PyStr.lower (Hooks.wt_branch wt)) local_worktrees))
        raw_tickets in
  let snapshot := Tui.tickets (snd (Tui.load_ticket_data c s)) in
  fst (Tui.load_ticket_data c s) = None
  /\ snapshot ≡ₚ fetched
  /\ StronglySorted Tui.ticket_before snapshot
  /\ (forall z, List.filter (Tui.tied Tui.ticket_le z) snapshot
                = List.filter (Tui.tied Tui.ticket_le z) fetched)
  /\ (Tui.type_order "started" = 0 /\ Tui.type_order "unstarted" = 1
      /\ Tui.type_order "backlog" = 2 /\ Tui.type_order "completed" = 3
      /\ Tui.type_order "canceled" = 4
      /\ (forall state_type,
            ~ In (PyStr.lower state_type)
                 ["started"; "unstarted"; "backlog"; "completed"; "canceled"] ->
            Tui.type_order state_type = 5))
  /\ (forall t,
        (Tui.ti_pr_info t = None -> Tui.pr_sort_key t = 0)
        /\ (forall pr, Tui.ti_pr_info t = Some pr ->
              (Tui.pr_state pr = "merged" -> Tui.pr_sort_key t = 4)
              /\ (Tui.pr_state pr = "closed" -> Tui.pr_sort_key t = 5)
              /\ (Tui.pr_state pr <> "merged" -> Tui.pr_state pr <> "closed" ->
                  (Tui.pr_is_draft pr = true -> Tui.pr_sort_key t = 1)
                  /\ (Tui.pr_is_draft pr = false ->
                      Tui.pr_review_decision pr = Some Tui.APPROVED ->
                      Tui.pr_sort_key t = 3)
                  /\ (Tui.pr_is_draft pr = false ->
                      Tui.pr_review_decision pr <> Some Tui.APPROVED ->
                      Tui.pr_sort_key t = 2))))
  /\ Tui.sort_tickets
       [Samples.ticket_unstarted_10; Samples.ticket_started_draft_9;
        Samples.ticket_started_9]
     = [Samples.ticket_started_9; Samples.ticket_started_draft_9;
        Samples.ticket_unstarted_10].
Proof.
  intros Hwts Hfetch fetched snapshot.
  assert (Hsnap : Tui.load_ticket_data c s
                  = (None, Tui.set_tickets (Tui.sort_tickets fetched) s)).
  { unfold Tui.load_ticket_data. now rewrite Hwts, Hfetch. }
  subst snapshot. rewrite Hsnap. cbn [fst snd Tui.tickets Tui.set_tickets].
  split; [reflexivity|]. split; [|split; [|split; [|split; [|split]]]].
  - apply sort_by_perm.
  - apply sort_tickets_sorted.
  - intros z. apply (sort_by_stable Tui.ticket_le ticket_le_trans).
  - apply type_order_table.
  - apply pr_sort_key_table.
  - vm_compute. reflexivity.
Qed.

(** C5 on a service that returns the example's tickets in the opposite
    order. *)
Lemma C5_ticket_snapshot_sorted_witness :
  Tui.tickets
    (snd (Tui.load_ticket_data Samples.collab_tickets (Tui.initial_state Tui.TICKETS_MINE)))
  ≡ₚ map (Tui.make_ticket_info Samples.collab_tickets ["feature/a"])
       [Samples.raw_unstarted_10; Samples.raw_started_draft_9; Samples.raw_started_9]
  /\ StronglySorted Tui.ticket_before
       (Tui.tickets
          (snd (Tui.load_ticket_data Samples.collab_tickets
                  (Tui.initial_state Tui.TICKETS_MINE)))).
Proof.
  destruct (C5_ticket_snapshot_sorted Samples.collab_tickets
              (Tui.initial_state Tui.TICKETS_MINE) [Samples.wt_a]
              [Samples.raw_unstarted_10; Samples.raw_started_draft_9; Samples.raw_started_9]
              eq_refl eq_refl)
    as (_ & Hperm & Hsorted & _).
  split; [exact Hperm|exact Hsorted].
Defined.

(** ** Loading data *)

Section LoadData.
Import Hooks Tui.
Context (c : Collab).

(** X5: in a ticket mode, an error of the ticket fetch is caught: the
    loader returns, the snapshot is empty and the status line tells the
    error. *)
Lemma load_data_ticket_fetch_error s local_worktrees e :
  ticket_mode (mode s) ->
  get_feature_worktrees c = Ok local_worktrees ->
  fetch_tickets c (mode s) = Raise e ->
  fst (load_data c s) = None
  /\ tickets (snd (load_data c s)) = []
  /\ status_message (snd (load_data c s))
     = Some ("Failed to load tickets: " ++ exn_str e)
  /\ status_style (snd (load_data c s)) = "red"
  /\ loading (snd (load_data c s)) = false.
Proof.
  intros Hm Hw Hf. unfold load_data, load_mode_data.
  assert (Hl : forall s1, mode s1 = mode s ->
             load_ticket_data c s1
             = (None, set_tickets []
                        (set_status_style "red"
                           (set_status_message
                              (Some ("Failed to load tickets: " ++ exn_str e)) s1)))).
  { intros s1 Hs1. unfold load_ticket_data. now rewrite Hw, Hs1, Hf. }
  set (s1 := set_status_style "yellow"
               (set_status_message (Some "Refreshing...") (set_loading true s))).
  assert (Hs1 : mode s1 = mode s) by reflexivity.
  rewrite (Hl s1 Hs1), Hs1.
  destruct Hm as [Hm|[Hm|Hm]]; rewrite Hm; cbn; repeat split.
Qed.

(** In the pull-request mode, an error of the fetch or of the worktree
    enumeration is caught in the same way. *)
Lemma load_data_pr_fetch_error s repo e :
  mode s = PRS ->
  github_repo (config c) = Some repo -> PyStr.truthy repo = true ->
  (list_prs_detailed c repo = Raise e
   \/ (exists prs, list_prs_detailed c repo = Ok prs)
      /\ get_feature_worktrees c = Raise e) ->
  fst (load_data c s) = None
  /\ prs (snd (load_data c s)) = []
  /\ status_message (snd (load_data c s)) = Some ("Failed to load PRs: " ++ exn_str e)
  /\ status_style (snd (load_data c s)) = "red"
  /\ loading (snd (load_data c s)) = false.
Proof.
  intros Hm Hrepo Htruthy Herr. unfold load_data, load_mode_data.
  cbn [mode set_status_style set_status_message set_loading]. rewrite Hm.
  unfold load_pr_data. rewrite Hrepo. destruct repo as [|ch repo]; [discriminate|].
  destruct Herr as [->|[(prs0 & ->) ->]]; cbn; repeat split.
Qed.

(** In the worktree mode nothing catches: an error of the enumeration
    leaves [_load_data] with the loading flag still set, the status line
    still announcing the refresh and the old snapshot in place. *)
Lemma load_data_worktree_error_escapes s e :
  mode s = WORKTREES ->
  list_worktrees c (main_repo (config c)) = Raise e ->
  fst (load_data c s) = Some e
  /\ loading (snd (load_data c s)) = true
  /\ status_message (snd (load_data c s)) = Some "Refreshing..."
  /\ worktrees (snd (load_data c s)) = worktrees s.
Proof.
  intros Hm He. unfold load_data, load_mode_data.
  cbn [mode set_status_style set_status_message set_loading]. rewrite Hm.
  unfold load_worktree_data, get_feature_worktrees. rewrite He. cbn. repeat split.
Qed.

(** The enumeration of the local worktrees in [_load_ticket_data] stands
    before its [try]: its error leaves the loader too. *)
Lemma load_data_ticket_enumeration_error_escapes s e :
  ticket_mode (mode s) ->
  list_worktrees c (main_repo (config c)) = Raise e ->
  fst (load_data c s) = Some e /\ loading (snd (load_data c s)) = true.
Proof.
  intros Hm He. unfold load_data, load_mode_data.
  cbn [mode set_status_style set_status_message set_loading].
  destruct Hm as [Hm|[Hm|Hm]]; rewrite Hm;
    unfold load_ticket_data, get_feature_worktrees; rewrite He; cbn; repeat split.
Qed.

End LoadData.

(** C3: in every mode an error raised while fetching is caught, turned
    into a status message and an empty snapshot.  [_load_worktree_data] has
    no [try] as the other two loaders have: with the worktree view showing
    three rows and a worktree enumeration that fails, the exception leaves
    [_load_data]; the background thread only logs it, so the loading flag
    stays set, the status line keeps saying that a refresh is under way, the
    three rows stay, and no later refresh is started. *)
Theorem C3_worktree_fetch_error_not_caught :
  fst (Tui.load_data Samples.collab_git_down Samples.state_three_rows)
  = Some (Exception "git worktree list failed")
  /\ Tui.loading (Tui.start_background_refresh Samples.collab_git_down
                    Samples.state_three_rows) = true
  /\ Tui.status_message (Tui.start_background_refresh Samples.collab_git_down
                           Samples.state_three_rows) = Some "Refreshing..."
  /\ Tui.worktrees (Tui.start_background_refresh Samples.collab_git_down
                      Samples.state_three_rows) = Samples.three_rows
  /\ Tui.refresh_due Samples.collab_git_down
       (Tui.set_needs_refresh true
          (Tui.start_background_refresh Samples.collab_git_down Samples.state_three_rows))
     = false.
Proof. repeat split; vm_compute; reflexivity. Qed.

(** ** Cleanup in a thread *)

(** C10: a cleanup is reported as successful only when the worktree
    directory is gone after the operation.  When the operation returns and
    the directory is still there, the result is a failure with the error
    [Worktree still exists after cleanup]; when it raises, the result is a
    failure with the exception's message; the captured log is kept in
    either case. *)
Theorem C10_cleanup_success_requires_removal (f : Tui.CleanupFunc)
    (worktree : Hooks.Worktree) (force : bool) (w : Tui.World) :
  let outcome := fst (fst (f worktree force w)) in
  let captured := snd (fst (f worktree force w)) in
  let w1 := snd (f worktree force w) in
  let r := fst (Tui.run_cleanup_in_thread (Some f) worktree force w) in
  snd (Tui.run_cleanup_in_thread (Some f) worktree force w) = w1
  /\ Tui.cr_done r = true
  /\ Tui.cr_logs r = Some captured
  /\ (Tui.cr_success r = true
      <-> outcome = Tui.Returned /\ Tui.fs_exists w1 (Hooks.wt_path worktree) = false)
  /\ (outcome = Tui.Returned -> Tui.fs_exists w1 (Hooks.wt_path worktree) = true ->
      Tui.cr_success r = false
      /\ Tui.cr_error r = Some "Worktree still exists after cleanup")
  /\ (forall e, outcome = Tui.Raised e ->
        Tui.cr_success r = false /\ Tui.cr_error r = Some (exn_str e)).
Proof.
  cbv zeta. unfold Tui.run_cleanup_in_thread.
  destruct (f worktree force w) as [[outcome captured] w1]. cbn [fst snd].
  destruct outcome as [|e].
  - destruct (Tui.fs_exists w1 (Hooks.wt_path worktree)) eqn:Hex; cbn;
      (split; [reflexivity|]); (split; [reflexivity|]); (split; [reflexivity|]);
      (split; [|split]).
    + split; [discriminate|]. intros [_ Hgone]. discriminate Hgone.
    + intros _ _. split; reflexivity.
    + intros e Hraised. discriminate Hraised.
    + split; [intros _; split; reflexivity|reflexivity].
    + intros _ Hthere. discriminate Hthere.
    + intros e Hraised. discriminate Hraised.
  - cbn. (split; [reflexivity|]); (split; [reflexivity|]); (split; [reflexivity|]);
      (split; [|split]).
    + split; [discriminate|]. intros [Hreturned _]. discriminate Hreturned.
    + intros Hreturned. discriminate Hreturned.
    + intros e' Hraised. injection Hraised as ->. split; reflexivity.
Qed.

(** Without a cleanup function nothing runs, and the directory decides. *)
Lemma run_cleanup_without_function worktree force w :
  Tui.run_cleanup_in_thread None worktree force w
  = ({| Tui.cr_done := true;
        Tui.cr_success := negb (Tui.fs_exists w (Hooks.wt_path worktree));
        Tui.cr_error := if Tui.fs_exists w (Hooks.wt_path worktree)
                        then Some "Worktree still exists after cleanup" else None;
        Tui.cr_logs := Some EmptyString |}, w).
Proof.
  unfold Tui.run_cleanup_in_thread.
  destruct (Tui.fs_exists w (Hooks.wt_path worktree)); reflexivity.
Qed.

(** ** The keyboard *)

Section Keyboard.
Import Tui.

Lemma drop_length n s : String.length (PyStr.drop n s) = (String.length s - n)%nat.
Proof.
  revert s. induction n as [|n IH]; intros s; simpl; [lia|].
  destruct s; simpl; [reflexivity|apply IH].
Qed.

(** With fuel above the measure the loop of [_flush_stdin] ends by its
    own test, having dropped what was buffered and what had arrived. *)
Lemma flush_loop_drained fuel k :
  (stdin_measure k < fuel)%nat -> flush_loop fuel k = drained k.
Proof.
  revert k. induction fuel as [|fuel IH]; intros [buf inc] Hm; [lia|].
  unfold stdin_measure in Hm. cbn [buffered incoming] in Hm.
  cbn [flush_loop]. unfold select_stdin. cbn [buffered incoming].
  destruct buf as [|ch buf].
  - destruct inc as [|[delay bytes] rest]; [reflexivity|].
    destruct (Z.leb_spec delay 0) as [Hd|Hd].
    + cbn [fold_right snd] in Hm. unfold os_read. cbn [snd buffered incoming].
      rewrite IH.
      * unfold drained. cbn [incoming drop_ready].
        destruct (Z.leb_spec delay 0); [reflexivity|lia].
      * unfold stdin_measure. cbn [buffered incoming]. rewrite drop_length.
        cbn [String.length] in Hm. lia.
    + unfold drained. cbn [incoming drop_ready].
      destruct (Z.leb_spec delay 0); [lia|]. now rewrite Z.sub_0_r.
  - unfold os_read. cbn [snd buffered incoming]. rewrite IH.
    + reflexivity.
    + unfold stdin_measure. cbn [buffered incoming]. rewrite drop_length.
      cbn [String.length] in Hm. cbn [String.length]. lia.
Qed.

Lemma flush_stdin_drained k : flush_stdin k = drained k.
Proof. unfold flush_stdin. apply flush_loop_drained. lia. Qed.

(** After the flush the loop's own test says that nothing is readable. *)
Lemma flush_stdin_nothing_readable k : fst (select_stdin 0 (flush_stdin k)) = false.
Proof.
  rewrite flush_stdin_drained. unfold drained, select_stdin. cbn [buffered incoming].
  induction (incoming k) as [|[delay bytes] rest IH]; [reflexivity|].
  cbn [drop_ready]. destruct (Z.leb_spec delay 0) as [Hd|Hd]; [exact IH|].
  destruct (Z.leb_spec delay 0); [lia|reflexivity].
Qed.

(** What was buffered does not reach the prompt. *)
Lemma flush_stdin_ignores_buffer buf1 buf2 inc :
  flush_stdin {| buffered := buf1; incoming := inc |}
  = flush_stdin {| buffered := buf2; incoming := inc |}.
Proof. now rewrite !flush_stdin_drained. Qed.

(** When no key arrives within the wait, the prompt reads nothing. *)
Lemma get_key_times_out timeout k :
  buffered k = EmptyString ->
  (forall delay bytes rest, incoming k = (delay, bytes) :: rest -> timeout < delay) ->
  fst (get_key_with_timeout timeout k) = None.
Proof.
  intros Hb Hi. unfold get_key_with_timeout, select_stdin. rewrite Hb.
  destruct (incoming k) as [|[delay bytes] rest]; [reflexivity|].
  specialize (Hi delay bytes rest eq_refl).
  destruct (Z.leb_spec delay timeout); [lia|reflexivity].
Qed.

End Keyboard.

(** ** The reason of a failed cleanup *)

Section FailureReason.
Import Tui.

Lemma append_cons c s r : String c s ++ r = String c (s ++ r).
Proof. reflexivity. Qed.

Lemma append_empty_l r : EmptyString ++ r = r.
Proof. reflexivity. Qed.

Lemma append_empty_r s : s ++ EmptyString = s.
Proof.
  induction s as [|c s IH]; [reflexivity|]. now rewrite append_cons, IH.
Qed.

Lemma append_assoc_char s c r : (s ++ String c EmptyString) ++ r = s ++ String c r.
Proof.
  induction s as [|d s IH]; [reflexivity|]. now rewrite !append_cons, IH.
Qed.

Lemma prefix_cons_inv n ns c s :
  String.prefix (String n ns) (String c s) = true -> n = c /\ String.prefix ns s = true.
Proof. simpl. destruct (ascii_dec n c); [tauto|discriminate]. Qed.

(** A needle without the separator cannot reach across it. *)
Lemma prefix_before_sep needle sep a b :
  PyStr.has_char sep needle = false ->
  String.prefix needle (a ++ String sep b) = true ->
  String.prefix needle a = true.
Proof.
  revert a. induction needle as [|n ns IH]; intros a Hsep Hp; [now destruct a|].
  simpl in Hsep. apply orb_false_elim in Hsep as [Hn Hns].
  destruct a as [|c a].
  - rewrite append_empty_l in Hp. apply prefix_cons_inv in Hp as [-> _].
    rewrite Ascii.eqb_refl in Hn. discriminate.
  - rewrite append_cons in Hp. apply prefix_cons_inv in Hp as [-> Hp].
    simpl. destruct (ascii_dec c c); [|congruence]. now apply IH.
Qed.

Lemma contains_cons needle c s :
  PyStr.contains needle (String c s)
  = String.prefix needle (String c s) || PyStr.contains needle s.
Proof. reflexivity. Qed.

Lemma contains_split_sep needle sep a b :
  PyStr.has_char sep needle = false ->
  PyStr.contains needle (a ++ String sep b) = true ->
  PyStr.contains needle a = true \/ PyStr.contains needle b = true.
Proof.
  intros Hsep. induction a as [|c a IH]; intros Hc.
  - rewrite append_empty_l, contains_cons in Hc.
    apply orb_prop in Hc as [Hp|Hc]; [|now right].
    left. apply (prefix_before_sep needle sep EmptyString b Hsep) in Hp.
    destruct needle; [reflexivity|discriminate].
  - rewrite append_cons, contains_cons in Hc. apply orb_prop in Hc as [Hp|Hc].
    + left. rewrite <- append_cons in Hp.
      apply (prefix_before_sep needle sep (String c a) b Hsep) in Hp.
      rewrite contains_cons, Hp. reflexivity.
    + destruct (IH Hc) as [Ha|Hb]; [left|now right].
      rewrite contains_cons, Ha. apply orb_true_r.
Qed.

(** A text that contains the needle has a line that contains it. *)
Lemma contains_some_line needle sep cur s :
  PyStr.has_char sep needle = false ->
  PyStr.contains needle (cur ++ s) = true ->
  exists line, find (PyStr.contains needle) (PyStr.split_char_aux sep cur s) = Some line.
Proof.
  intros Hsep. revert cur. induction s as [|c s IH]; intros cur Hc.
  - rewrite append_empty_r in Hc. cbn [PyStr.split_char_aux find]. rewrite Hc. eauto.
  - cbn [PyStr.split_char_aux]. destruct (Ascii.eqb_spec c sep) as [->|Hne].
    + cbn [find]. destruct (PyStr.contains needle cur) eqn:Hcur; [eauto|].
      apply (contains_split_sep needle sep cur s Hsep) in Hc as [Hc|Hc]; [congruence|].
      now apply (IH EmptyString).
    + apply IH. now rewrite append_assoc_char.
Qed.

(** The three signatures, in the order they are tried. *)
Lemma failure_reason_cases logs :
  let clean_logs := strip_ansi logs in
  (PyStr.contains "modified or untracked files" clean_logs = true ->
   failure_reason logs = "has uncommitted changes")
  /\ (PyStr.contains "modified or untracked files" clean_logs = false ->
      PyStr.contains "is not a valid reference" clean_logs = true ->
      failure_reason logs = "branch reference invalid")
  /\ (PyStr.contains "modified or untracked files" clean_logs = false ->
      PyStr.contains "is not a valid reference" clean_logs = false ->
      PyStr.contains "fatal:" clean_logs = true ->
      exists line,
        In line (PyStr.split_char (ascii_of_nat 10) clean_logs)
        /\ PyStr.contains "fatal:" line = true
        /\ failure_reason logs = PyStr.strip line)
  /\ (PyStr.contains "modified or untracked files" clean_logs = false ->
      PyStr.contains "is not a valid reference" clean_logs = false ->
      PyStr.contains "fatal:" clean_logs = false ->
      failure_reason logs = EmptyString).
Proof.
  cbv zeta. unfold failure_reason. repeat split.
  - now intros ->.
  - now intros -> ->.
  - intros -> -> Hf. rewrite Hf.
    destruct (contains_some_line "fatal:" (ascii_of_nat 10) EmptyString (strip_ansi logs)
                eq_refl Hf) as [line Hline].
    unfold PyStr.split_char. rewrite Hline. apply find_some in Hline as [Hin Hc]. eauto.
  - now intros -> -> ->.
Qed.

End FailureReason.

(** ** The failure prompt *)

(** C7: when the cleanup of a unit fails, the captured log is searched for
    the three signatures and the reason is shown with the choice; what is
    buffered on the keyboard is dropped; one key is then read with a wait of
    30 seconds; [f] runs the operation once more with the force flag and
    reports that run with no further prompt; any other key, or none within
    the wait, skips the unit. *)
Theorem C7_failure_prompt_and_forced_retry (cleanup_func : option Tui.CleanupFunc)
    (n i : Z) (info : Tui.WorktreeInfo) (x : Tui.Exec) :
  let wt := Tui.wi_worktree info in
  let branch := Hooks.wt_branch wt in
  let first := Tui.run_cleanup_in_thread cleanup_func wt false (Tui.ex_world x) in
  let w1 := snd first in
  let logs := PyStr.strip (default EmptyString (Tui.cr_logs (fst first))) in
  let clean_logs := Tui.strip_ansi logs in
  let reason := Tui.failure_reason logs in
  let message := Tui.failure_display branch (fst first) in
  let prompt := Tui.get_key_with_timeout 30000 (Tui.drained (Tui.stdin w1)) in
  let key := fst prompt in
  let w2 := Tui.set_stdin (snd prompt) w1 in
  let forced := Tui.run_cleanup_in_thread cleanup_func wt true w2 in
  let x' := Tui.cleanup_unit cleanup_func n x (i, info) in
  Tui.cr_success (fst first) = false ->
  (message
   = PyStr.join Tui.NL
       [ "⚠ Cleanup failed: " ++ branch;
         "  Reason: " ++ (if PyStr.truthy reason then reason
                          else Tui.fmt_opt (Tui.cr_error (fst first)));
         EmptyString;
         "[f] Force cleanup  |  [any other key] Skip" ]
   /\ (PyStr.contains "modified or untracked files" clean_logs = true ->
       reason = "has uncommitted changes")
   /\ (PyStr.contains "modified or untracked files" clean_logs = false ->
       PyStr.contains "is not a valid reference" clean_logs = true ->
       reason = "branch reference invalid")
   /\ (PyStr.contains "modified or untracked files" clean_logs = false ->
       PyStr.contains "is not a valid reference" clean_logs = false ->
       PyStr.contains "fatal:" clean_logs = true ->
       exists line,
         In line (PyStr.split_char (ascii_of_nat 10) clean_logs)
         /\ PyStr.contains "fatal:" line = true /\ reason = PyStr.strip line))
  /\ (Tui.flush_stdin (Tui.stdin w1) = Tui.drained (Tui.stdin w1)
      /\ Tui.buffered (Tui.drained (Tui.stdin w1)) = EmptyString)
  /\ ((forall delay bytes rest,
          Tui.incoming (Tui.drained (Tui.stdin w1)) = (delay, bytes) :: rest ->
          30000 < delay) ->
      key = None)
  /\ (key = Some "f" ->
      Tui.ex_trace x'
      = (Tui.ex_trace x
         ++ [Tui.EvCleanup wt false; Tui.EvPrompt message; Tui.EvFlush; Tui.EvKey key;
             Tui.EvCleanup wt true])%list
      /\ Tui.ex_world x' = snd forced
      /\ (Tui.cr_success (fst forced) = true ->
          Tui.status_message (Tui.ex_state x') = Some ("✓ Force cleaned: " ++ branch)
          /\ Tui.status_style (Tui.ex_state x') = "green")
      /\ (Tui.cr_success (fst forced) = false ->
          Tui.status_message (Tui.ex_state x')
          = Some ("✗ Failed: " ++ branch ++ " - " ++ Tui.fmt_opt (Tui.cr_error (fst forced))
                  ++ Tui.NL
                  ++ PyStr.strip (default EmptyString (Tui.cr_logs (fst forced))))
          /\ Tui.status_style (Tui.ex_state x') = "red"))
  /\ (key <> Some "f" ->
      Tui.ex_trace x'
      = (Tui.ex_trace x
         ++ [Tui.EvCleanup wt false; Tui.EvPrompt message; Tui.EvFlush; Tui.EvKey key])%list
      /\ Tui.ex_world x' = w2
      /\ Tui.status_message (Tui.ex_state x') = Some ("⊘ Skipped: " ++ branch)
      /\ Tui.status_style (Tui.ex_state x') = "dim").
Proof.
  cbv zeta. intros Hfail.
  split; [|split; [|split; [|split]]].
  - split; [reflexivity|].
    destruct (failure_reason_cases
                (PyStr.strip (default EmptyString
                   (Tui.cr_logs (fst (Tui.run_cleanup_in_thread cleanup_func
                                        (Tui.wi_worktree info) false (Tui.ex_world x)))))))
      as (H1 & H2 & H3 & _).
    repeat split; assumption.
  - split; [apply flush_stdin_drained|reflexivity].
  - intros Hlate. apply get_key_times_out; [reflexivity|exact Hlate].
  - intros Hkey. unfold Tui.cleanup_unit.
    destruct (Tui.run_cleanup_in_thread cleanup_func (Tui.wi_worktree info) false
                (Tui.ex_world x)) as [result w1] eqn:Hfirst.
    cbn [fst snd] in *. rewrite Hfail, flush_stdin_drained.
    destruct (Tui.get_key_with_timeout 30000 (Tui.drained (Tui.stdin w1)))
      as [key k2] eqn:Hprompt.
    cbn [fst snd] in *. subst key. rewrite bool_decide_eq_true_2 by reflexivity.
    destruct (Tui.run_cleanup_in_thread cleanup_func (Tui.wi_worktree info) true
                (Tui.set_stdin k2 w1)) as [force_result w3] eqn:Hforced.
    cbn [fst snd Tui.ex_trace Tui.ex_world Tui.ex_state].
    split; [|split; [reflexivity|split]].
    + rewrite <- !app_assoc. reflexivity.
    + intros ->. split; reflexivity.
    + intros ->. split; reflexivity.
  - intros Hkey. unfold Tui.cleanup_unit.
    destruct (Tui.run_cleanup_in_thread cleanup_func (Tui.wi_worktree info) false
                (Tui.ex_world x)) as [result w1] eqn:Hfirst.
    cbn [fst snd] in *. rewrite Hfail, flush_stdin_drained.
    destruct (Tui.get_key_with_timeout 30000 (Tui.drained (Tui.stdin w1)))
      as [key k2] eqn:Hprompt.
    cbn [fst snd] in *. rewrite bool_decide_eq_false_2 by assumption.
    cbn [Tui.ex_trace Tui.ex_world Tui.ex_state].
    split; [|repeat split].
    rewrite <- !app_assoc. reflexivity.
Qed.

(** C7 on a worktree with uncommitted changes: a key hit during the run
    is dropped, [f] arrives two seconds after the prompt, and the forced run
    removes the worktree. *)
Lemma C7_failure_prompt_and_forced_retry_witness :
  Tui.ex_trace
    (Tui.cleanup_unit (Some Samples.dirty_cleanup) 1 Samples.exec0
       (0, Samples.info_of Samples.wt_c))
  = [Tui.EvCleanup Samples.wt_c false;
     Tui.EvPrompt
       (PyStr.join Tui.NL
          [ "⚠ Cleanup failed: feature/c"; "  Reason: has uncommitted changes";
            EmptyString; "[f] Force cleanup  |  [any other key] Skip" ]);
     Tui.EvFlush; Tui.EvKey (Some "f"); Tui.EvCleanup Samples.wt_c true]
  /\ Tui.status_message
       (Tui.ex_state
          (Tui.cleanup_unit (Some Samples.dirty_cleanup) 1 Samples.exec0
             (0, Samples.info_of Samples.wt_c)))
     = Some "✓ Force cleaned: feature/c".
Proof.
  destruct (C7_failure_prompt_and_forced_retry (Some Samples.dirty_cleanup) 1 0
              (Samples.info_of Samples.wt_c) Samples.exec0 eq_refl)
    as (_ & _ & _ & Hforce & _).
  destruct (Hforce eq_refl) as (Htrace & _ & Hok & _).
  split; [exact Htrace|]. apply Hok. reflexivity.
Defined.

(** ** The lemmas above on sample data *)

(** X1 on the colour table of the built-in CI hook. *)
Lemma resolve_color_regular_witness :
  Hooks.resolve_color
    [("pass", "green"); ("pass*", "green"); ("fail", "red"); ("req-fail", "red");
     ("pending", "yellow"); ("none", "dim")] "req-fail"
  = Spec.resolve_color_spec
      [("pass", "green"); ("pass*", "green"); ("fail", "red"); ("req-fail", "red");
       ("pending", "yellow"); ("none", "dim")] "req-fail".
Proof.
  apply (resolve_color_regular
           [("pass", "green"); ("pass*", "green"); ("fail", "red"); ("req-fail", "red");
            ("pending", "yellow"); ("none", "dim")] "req-fail").
  - repeat constructor.
  - reflexivity.
  - intros k v Hin. simpl in Hin.
    repeat (destruct Hin as [Heq|Hin]; [injection Heq as <- <-; split; reflexivity|]).
    contradiction.
Defined.

(** X2 on a command that exits with a failure. *)
Lemma run_hook_error_sentinel_witness :
  exists r,
    Hooks.run_hook Samples.flaky_env Samples.boom_hook Samples.wt_a 10000 = (1000, Ok r)
    /\ Hooks.hr_value r = "error".
Proof.
  apply (run_hook_error_sentinel Samples.flaky_env Samples.boom_hook Samples.wt_a 10000
           "boom" 1000 (Exception "Command returned non-zero exit status 1")).
  - reflexivity.
  - reflexivity.
  - intros msg. discriminate.
Defined.

(** X3 on a cursor below a three-row snapshot. *)
Lemma adjust_viewport_restores_witness :
  0 <= Tui.cursor (Tui.adjust_viewport_after_resize 5 Samples.state_off_window)
    < Tui.current_len (Tui.adjust_viewport_after_resize 5 Samples.state_off_window)
  /\ Tui.viewport_start (Tui.adjust_viewport_after_resize 5 Samples.state_off_window)
     <= Tui.cursor (Tui.adjust_viewport_after_resize 5 Samples.state_off_window)
     < Tui.viewport_start (Tui.adjust_viewport_after_resize 5 Samples.state_off_window) + 5.
Proof.
  apply (adjust_viewport_restores 5 Samples.state_off_window).
  - lia.
  - vm_compute. reflexivity.
  - vm_compute. discriminate.
Defined.

(** X4 on a selection made from the bottom up. *)
Lemma get_selected_rows_ascending_witness :
  exists ws,
    Tui.get_selected_worktrees Samples.state_two_selected = Ok ws
    /\ Forall2 (fun i w => Tui.worktrees Samples.state_two_selected !! Z.to_nat i = Some w)
         (Tui.sorted_set (Tui.selected Samples.state_two_selected)) ws
    /\ StronglySorted Z.lt (Tui.sorted_set (Tui.selected Samples.state_two_selected))
    /\ (forall i, i ∈ Tui.sorted_set (Tui.selected Samples.state_two_selected)
                  <-> i ∈ Tui.selected Samples.state_two_selected).
Proof.
  apply (get_selected_rows_ascending Samples.state_two_selected).
  - intros Hempty. assert (H0 : (0 : Z) ∈ (∅ : gset Z)).
    { rewrite <- Hempty. simpl. set_solver. }
    set_solver.
  - intros i Hi. simpl in Hi. simpl.
    assert (i = 2 \/ i = 0) as [-> | ->] by set_solver; lia.
Defined.

(** X5 on a ticket service that refuses the request. *)
Lemma load_data_ticket_fetch_error_witness :
  fst (Tui.load_data Samples.collab_tickets (Tui.initial_state Tui.TICKETS_REVIEW)) = None
  /\ Tui.tickets
       (snd (Tui.load_data Samples.collab_tickets (Tui.initial_state Tui.TICKETS_REVIEW)))
     = []
  /\ Tui.status_message
       (snd (Tui.load_data Samples.collab_tickets (Tui.initial_state Tui.TICKETS_REVIEW)))
     = Some ("Failed to load tickets: " ++ exn_str (Exception "HTTP 401"))
  /\ Tui.status_style
       (snd (Tui.load_data Samples.collab_tickets (Tui.initial_state Tui.TICKETS_REVIEW)))
     = "red"
  /\ Tui.loading
       (snd (Tui.load_data Samples.collab_tickets (Tui.initial_state Tui.TICKETS_REVIEW)))
     = false.
Proof.
  apply (load_data_ticket_fetch_error Samples.collab_tickets
           (Tui.initial_state Tui.TICKETS_REVIEW) [Samples.wt_a] (Exception "HTTP 401")).
  - right. left. reflexivity.
  - reflexivity.
  - reflexivity.
Defined.

(** ** More on hooks *)

Section HookValues.
Import Hooks.









(** X7: for keys and an output of ASCII text, the colour of the output
    is unset exactly when no key of the table, lower-cased, occurs in the
    lower-cased output. *)
Lemma resolve_color_unset_iff color_map output :
  Forall (fun kv => PyStr.is_ascii (fst kv) = true) color_map ->
  PyStr.is_ascii output = true ->
  resolve_color color_map output = None
  <-> (forall k v, In (k, v) color_map ->
                   PyStr.contains (PyStr.lower k) (PyStr.lower output) = false).
Proof.
  intros _ _. split; [|apply resolve_color_no_match].
  unfold resolve_color. intros Hnone k v Hin.
  destruct (color_truthy (dict_get (PyStr.lower output) color_map)) eqn:Ht.
  - rewrite Hnone in Ht. discriminate.
  - destruct (find (fun kv => PyStr.contains (PyStr.lower (fst kv)) (PyStr.lower output))
                color_map) as [kv|] eqn:Hpart; [discriminate|].
    apply (find_none _ _ Hpart (k, v) Hin).
Qed.

End HookValues.

(** ** Resolving the hook command *)

Section ResolveCommand.
Import Hooks.

Lemma no_space_app a b :
  PyStr.no_space a = true -> PyStr.no_space b = true -> PyStr.no_space (a ++ b) = true.
Proof.
  induction a as [|c a IH]; intros Ha Hb; [assumption|].
  rewrite append_cons. cbn [PyStr.no_space] in *.
  apply andb_prop in Ha as [-> Ha]. now rewrite IH.
Qed.

(** The tokens of [s.split()] are not empty and hold no white space. *)
Lemma split_ws_aux_tokens cur s :
  PyStr.no_space cur = true ->
  Forall (fun t => PyStr.no_space t = true /\ t <> EmptyString) (PyStr.split_ws_aux cur s).
Proof.
  revert cur. induction s as [|c s IH]; intros cur Hcur; cbn [PyStr.split_ws_aux].
  - destruct cur; [constructor|]. constructor; [|constructor]. split; [assumption|discriminate].
  - destruct (PyStr.is_space c) eqn:Hc.
    + destruct cur as [|d cur]; [now apply IH|].
      constructor; [split; [assumption|discriminate]|now apply IH].
    + apply IH. apply no_space_app; [assumption|]. cbn [PyStr.no_space]. now rewrite Hc.
Qed.

Lemma no_space_has_no_blank t : PyStr.no_space t = true -> PyStr.contains " " t = false.
Proof.
  induction t as [|c t IH]; intros Ht; [reflexivity|].
  cbn [PyStr.no_space] in Ht. apply andb_prop in Ht as [Hc Ht].
  rewrite contains_cons, (IH Ht), orb_false_r. cbn [String.prefix].
  destruct (ascii_dec " " c) as [<-|]; [discriminate Hc|reflexivity].
Qed.

Lemma append_assoc (a b c : string) : (a ++ b) ++ c = a ++ b ++ c.
Proof.
  induction a as [|x a IH]; [now rewrite !append_empty_l|].
  rewrite !append_cons. now rewrite IH.
Qed.

(** Joining a plain name to a directory appends it after a slash. *)
Lemma path_join_plain d name :
  plain_name name = true -> path_join d name = d ++ "/" ++ name.
Proof.
  unfold plain_name, path_join, PyStr.startswith. intros Hplain.
  apply andb_prop in Hplain as [Hplain _]. apply andb_prop in Hplain as [_ Hslash].
  apply negb_true_iff in Hslash. destruct name as [|c name]; [reflexivity|].
  cbn [String.prefix]. destruct (ascii_dec "/" c) as [<-|_]; [|reflexivity].
  cbn [PyStr.has_char] in Hslash. rewrite Ascii.eqb_refl in Hslash. discriminate.
Qed.

(** X8: for a hook text in ASCII whose first token is a plain name (not
    empty, no slash, not a lone dot), with the worktree path, the home
    directory and the directory variables of the environment in the normal
    form of [pathlib]: when that name is a script in the hook directory of
    the worktree, the command run is the path of that script, followed by the
    other tokens of the hook text, each after one blank; a script only in the
    global hook directory is taken next, in the same way; with neither, the
    hook text is run as it is. *)
Lemma resolve_command_script_tokens (env : Env) hook worktree script_name args :
  PyStr.is_ascii (ch_hook hook) = true ->
  PyStr.startswith "/" (ch_hook hook) = false ->
  PyStr.split_ws (ch_hook hook) = script_name :: args ->
  plain_name script_name = true ->
  normal_dir (wt_path worktree) = true ->
  normal_env env = true ->
  let local_script := wt_path worktree ++ "/.fwts/hooks/" ++ script_name in
  let global_script := get_config_dir env ++ "/hooks/" ++ script_name in
  let other_tokens :=
    match args with
    | [] => EmptyString
    | _ => " " ++ PyStr.join " " args
    end in
  (path_exists env local_script = true ->
   resolve_command env hook worktree = Ok (local_script ++ other_tokens))
  /\ (path_exists env local_script = false -> path_exists env global_script = true ->
      resolve_command env hook worktree = Ok (global_script ++ other_tokens))
  /\ (path_exists env local_script = false -> path_exists env global_script = false ->
      resolve_command env hook worktree = Ok (ch_hook hook)).
Proof.
  intros _ Habs Hsplit Hplain _ _ local_script global_script other_tokens.
  assert (Htoks : Forall (fun t => PyStr.no_space t = true /\ t <> EmptyString)
                    (script_name :: args))
    by (rewrite <- Hsplit; now apply split_ws_aux_tokens).
  apply Forall_cons in Htoks as [[Hns _] _].
  assert (Hlocal : path_join (path_join (path_join (wt_path worktree) ".fwts") "hooks")
                     script_name = local_script).
  { rewrite (path_join_plain _ script_name Hplain).
    rewrite (path_join_plain _ "hooks" eq_refl), (path_join_plain _ ".fwts" eq_refl).
    subst local_script. now rewrite !append_assoc. }
  assert (Hglobal : path_join (get_global_hooks_dir env) script_name = global_script).
  { unfold get_global_hooks_dir. rewrite (path_join_plain _ script_name Hplain).
    rewrite (path_join_plain _ "hooks" eq_refl).
    subst global_script. now rewrite !append_assoc. }
  assert (Hcmd : forall script_path,
             (if Z.ltb 1 (Z.of_nat (List.length (script_name :: args)))
              then script_path ++ " " ++ PyStr.join " " args
              else script_path)
             = script_path ++ other_tokens).
  { intros script_path. subst other_tokens. destruct args as [|a args'].
    - cbn [List.length]. change (Z.ltb 1 (Z.of_nat 1)) with false. cbv iota.
      now rewrite append_empty_r.
    - destruct (Z.ltb_spec 1 (Z.of_nat (List.length (script_name :: a :: args'))))
        as [_|Hle]; [reflexivity|cbn [List.length] in Hle; lia]. }
  unfold resolve_command. rewrite Habs, Hsplit, (no_space_has_no_blank _ Hns).
  cbn [find]. rewrite Hlocal, Hglobal.
  split; [|split].
  - intros ->. now rewrite Hcmd, Hlocal.
  - intros -> ->. now rewrite Hcmd, Hglobal.
  - intros -> ->. reflexivity.
Qed.

End ResolveCommand.

(** ** Hook selection and ticket preloading *)

Section HookSelection.
Import Hooks Tui.

(** X9: the hooks run for the worktree view are the custom columns and
    the built-in hooks that no custom column replaces, a custom column
    replacing the built-in hook whose name it bears, whatever the case of
    the letters. *)
Lemma resolve_hooks_override (c : Collab) (h : ColumnHook) :
  In h (resolve_hooks c)
  <-> In h (tui_columns (config c))
      \/ (In h (get_builtin_hooks (builtin_scripts c))
          /\ forall h', In h' (tui_columns (config c)) ->
                        PyStr.lower (ch_name h') <> PyStr.lower (ch_name h)).
Proof.
  unfold resolve_hooks. destruct (tui_columns (config c)) as [|col cols] eqn:Hcols.
  - split; [intros H; right; split; [assumption|intros h' []]|intros [[]|[H _]]; assumption].
  - rewrite in_app_iff, filter_In, negb_true_iff. split.
    + intros [[Hin Hnot]|Hin]; [right|now left]. split; [assumption|].
      intros h' Hh' Heq.
      assert (Hex : existsb (String.eqb (PyStr.lower (ch_name h)))
                      (map (fun h0 => PyStr.lower (ch_name h0)) (col :: cols)) = true).
      { apply existsb_exists. exists (PyStr.lower (ch_name h')). split.
        - apply in_map_iff. eauto.
        - apply String.eqb_eq. congruence. }
      congruence.
    + intros [Hin|[Hin Hnone]]; [now right|left]. split; [assumption|].
      destruct (existsb _ _) eqn:Hex; [|reflexivity].
      apply existsb_exists in Hex as (name & Hname & Heq).
      apply in_map_iff in Hname as (h' & <- & Hh'). apply String.eqb_eq in Heq.
      exfalso. apply (Hnone h' Hh'). congruence.
Qed.

(** X10: preloading tickets in the background never raises and gives
    back either the state it was given, unchanged in every field, or that
    state with only the ticket snapshot assigned.  It gives back the state
    unchanged when tickets are already loaded, when the enumeration of the
    worktrees raises and when the ticket fetch raises; when both return and
    no ticket is loaded, the snapshot assigned is sorted by the ticket sort
    key. *)
Lemma background_load_tickets_careful (c : Collab) (s : TUIState) :
  let s' := background_load_tickets c s in
  (tickets s <> [] -> s' = s)
  /\ (forall e, get_feature_worktrees c = Raise e -> s' = s)
  /\ (forall e, list_my_tickets c (linear_api_key (config c)) = Raise e -> s' = s)
  /\ (forall local_worktrees raw_tickets,
        get_feature_worktrees c = Ok local_worktrees ->
        list_my_tickets c (linear_api_key (config c)) = Ok raw_tickets ->
        tickets s = [] ->
        s' = set_tickets (tickets s') s
        /\ StronglySorted ticket_before (tickets s')
        /\ Permutation (tickets s')
             (map (make_ticket_info c
                     (map (fun wt => PyStr.lower (wt_branch wt)) local_worktrees))
                raw_tickets))
  /\ (s' = s \/ (tickets s = [] /\ s' = set_tickets (tickets s') s))
  /\ cursor s' = cursor s
  /\ selected s' = selected s
  /\ viewport_start s' = viewport_start s
  /\ mode s' = mode s
  /\ running s' = running s
  /\ status_message s' = status_message s
  /\ status_style s' = status_style s
  /\ needs_refresh s' = needs_refresh s
  /\ loading s' = loading s
  /\ last_refresh s' = last_refresh s
  /\ worktrees s' = worktrees s
  /\ prs s' = prs s
  /\ last_terminal_size s' = last_terminal_size s
  /\ resize_detected s' = resize_detected s.
Proof.
  cbv zeta. unfold background_load_tickets, preload_tickets.
  destruct (get_feature_worktrees c) as [wts|e0]; cbn [snd].
  2:{ repeat split; try reflexivity; try discriminate. now left. }
  destruct (list_my_tickets c (linear_api_key (config c))) as [raw|e1]; cbn [snd].
  2:{ repeat split; try reflexivity; try discriminate. now left. }
  destruct (tickets s) as [|t ts] eqn:Ht.
  - split; [intros H; now contradiction H|].
    split; [discriminate|]. split; [discriminate|]. split.
    { intros local_worktrees raw_tickets [= <-] [= <-] _. cbn [tickets set_tickets].
      split; [reflexivity|]. split; [apply sort_tickets_sorted|].
      unfold sort_tickets. apply sort_by_perm. }
    split; [right; split; reflexivity|]. repeat split.
  - split; [reflexivity|]. split; [discriminate|]. split; [discriminate|].
    split; [intros ? ? _ _ H; discriminate H|].
    split; [now left|]. repeat split.
Qed.

End HookSelection.

(** ** Selection keys and the mode cycle *)

Section SelectionKeys.
Import Hooks Tui.

Lemma set_selected_same s : set_selected (selected s) s = s.
Proof. now destruct s. Qed.

Lemma toggle_selected_twice s : toggle_selected (toggle_selected s) = s.
Proof.
  unfold toggle_selected at 2. destruct (decide (cursor s ∈ selected s)) as [Hin|Hout];
    unfold toggle_selected; cbn [cursor selected set_selected].
  - destruct (decide (cursor s ∈ selected s ∖ {[cursor s]})) as [Hin'|_].
    { apply elem_of_difference in Hin' as [_ Hn]. exfalso. apply Hn.
      now apply elem_of_singleton. }
    destruct s as [cur sel vs m r sm ss nr l lr w t p lts rd].
    unfold set_selected. cbn in *. f_equal.
    apply set_eq. intros i.
    rewrite elem_of_union, elem_of_difference, elem_of_singleton.
    destruct (decide (i = cur)) as [->|]; tauto.
  - destruct (decide (cursor s ∈ selected s ∪ {[cursor s]})) as [_|Hout'].
    2:{ exfalso. apply Hout', elem_of_union. right. now apply elem_of_singleton. }
    destruct s as [cur sel vs m r sm ss nr l lr w t p lts rd].
    unfold set_selected. cbn in *. f_equal.
    apply set_eq. intros i.
    rewrite elem_of_difference, elem_of_union, elem_of_singleton.
    destruct (decide (i = cur)) as [->|]; tauto.
Qed.

(** X11: in the worktree view the space key toggles the row under the
    cursor: pressing it twice gives the dashboard back as it was, whatever
    was selected. *)
Lemma space_key_twice (c : Collab) (t : FwtsTUI) :
  mode (state t) = WORKTREES ->
  snd (handle_key c " " (snd (handle_key c " " t))) = t.
Proof.
  intros Hm.
  assert (Hkey : forall t0, mode (state t0) = WORKTREES ->
                            snd (handle_key c " " t0) = with_state toggle_selected t0).
  { intros t0 H0. unfold handle_key. cbn. now rewrite H0. }
  rewrite (Hkey t Hm). rewrite Hkey.
  - destruct t as [st cs pc pd pu]. unfold with_state. cbn.
    now rewrite toggle_selected_twice.
  - cbn. destruct (toggle_selected_same_view (state t)) as (_ & _ & -> & _). assumption.
Qed.

Lemma mode_cycle_mode s :
  mode (cycle_mode s) = nth ((mode_index (mode s) + 1) mod 5) modes WORKTREES.
Proof.
  unfold cycle_mode, switch_mode. cbn [length modes].
  destruct (decide (nth ((mode_index (mode s) + 1) mod 5) modes WORKTREES <> mode s))
    as [_|Hsame]; [reflexivity|].
  exfalso. apply Hsame. destruct (mode s); discriminate.
Qed.

Lemma mode_iter_cycle k s :
  mode (Nat.iter k cycle_mode s)
  = Nat.iter k (fun m => nth ((mode_index m + 1) mod 5) modes WORKTREES) (mode s).
Proof.
  induction k as [|k IH]; [reflexivity|]. rewrite !Nat.iter_succ.
  now rewrite mode_cycle_mode, IH.
Qed.

(** X12: the tab key steps through the five modes in the fixed order
    worktrees, my tickets, review requests, all tickets, pull requests: five
    presses lead back to the mode one started in, and fewer than five lead to
    every other mode. *)
Lemma cycle_mode_is_a_cycle (s : TUIState) :
  mode (Nat.iter 5 cycle_mode s) = mode s
  /\ (forall k, (0 < k < 5)%nat -> mode (Nat.iter k cycle_mode s) <> mode s)
  /\ (forall m, exists k, (k < 5)%nat /\ mode (Nat.iter k cycle_mode s) = m)
  /\ (mode s = WORKTREES -> mode (cycle_mode s) = TICKETS_MINE)
  /\ (mode s = TICKETS_MINE -> mode (cycle_mode s) = TICKETS_REVIEW)
  /\ (mode s = TICKETS_REVIEW -> mode (cycle_mode s) = TICKETS_ALL)
  /\ (mode s = TICKETS_ALL -> mode (cycle_mode s) = PRS)
  /\ (mode s = PRS -> mode (cycle_mode s) = WORKTREES).
Proof.
  split; [|split; [|split]].
  - rewrite mode_iter_cycle. destruct (mode s); reflexivity.
  - intros k Hk. rewrite mode_iter_cycle.
    destruct k as [|[|[|[|[|k]]]]]; try lia; destruct (mode s); discriminate.
  - intros m.
    assert (Hall : forall k, mode (Nat.iter k cycle_mode s)
                             = Nat.iter k (fun m0 => nth ((mode_index m0 + 1) mod 5) modes
                                                        WORKTREES) (mode s))
      by (intros k; apply mode_iter_cycle).
    destruct (mode s) eqn:Hs, m;
      first [ exists 0%nat; split; [lia|]; rewrite Hall; reflexivity
            | exists 1%nat; split; [lia|]; rewrite Hall; reflexivity
            | exists 2%nat; split; [lia|]; rewrite Hall; reflexivity
            | exists 3%nat; split; [lia|]; rewrite Hall; reflexivity
            | exists 4%nat; split; [lia|]; rewrite Hall; reflexivity ].
  - repeat split; intros Hm; rewrite mode_cycle_mode, Hm; reflexivity.
Qed.

End SelectionKeys.

(** ** Selecting every row *)

(** Evaluates the comparisons [_handle_key] makes on a given key. *)
Ltac eval_key_tests :=
  repeat match goal with
         | |- context [Tui.key_in ?k ?l] =>
             let b := eval vm_compute in (Tui.key_in k l) in
             change (Tui.key_in k l) with b
         | |- context [String.eqb ?a ?b] =>
             let v := eval vm_compute in (String.eqb a b) in
             change (String.eqb a b) with v
         end;
  cbv iota.

Section SelectAll.
Import Hooks Tui.

Lemma seqZ_strictly_sorted m n : StronglySorted Z.lt (seqZ m n).
Proof.
  remember (Z.to_nat n) as k eqn:Hk. revert m n Hk.
  induction k as [|k IH]; intros m n Hk.
  - assert (Hlen : length (seqZ m n) = 0%nat) by (rewrite length_seqZ; lia).
    destruct (seqZ m n); [constructor|discriminate].
  - rewrite seqZ_cons by lia. constructor.
    + apply IH. lia.
    + apply Forall_forall. intros i Hi. apply elem_of_seqZ in Hi. lia.
Qed.

Lemma strictly_sorted_weak (l : list Z) : StronglySorted Z.lt l -> Sorted Z.le l.
Proof.
  intros H. apply StronglySorted_Sorted.
  induction H as [|x l Hs IH Hall]; constructor; [assumption|].
  eapply Forall_impl; [exact Hall|]. intros y Hy. simpl in Hy. lia.
Qed.

Lemma sorted_set_range n : sorted_set (list_to_set (seqZ 0 n)) = seqZ 0 n.
Proof.
  unfold sorted_set. apply (Sorted_unique Z.le).
  - apply Sorted_merge_sort. apply _.
  - apply strictly_sorted_weak, seqZ_strictly_sorted.
  - rewrite merge_sort_Permutation. apply elements_list_to_set, NoDup_seqZ.
Qed.

Lemma map_result_range {A} (pre l : list A) :
  map_result (py_index (pre ++ l)%list) (seqZ (Z.of_nat (length pre)) (Z.of_nat (length l)))
  = Ok l.
Proof.
  revert pre. induction l as [|x l IH]; intros pre; [reflexivity|].
  rewrite seqZ_cons by (cbn [length]; lia). cbn [map_result].
  destruct (py_index_in_range (pre ++ x :: l)%list (Z.of_nat (length pre))) as (y & -> & Hy).
  { rewrite length_app. cbn [length]. lia. }
  rewrite Nat2Z.id, lookup_app_r, Nat.sub_diag in Hy by lia. injection Hy as <-.
  specialize (IH (pre ++ [x])%list).
  rewrite <- app_assoc, length_app in IH. cbn [app length] in IH.
  replace (Z.succ (Z.of_nat (length pre))) with (Z.of_nat (length pre + 1)) by lia.
  replace (Z.pred (Z.of_nat (length (x :: l)))) with (Z.of_nat (length l))
    by (cbn [length]; lia).
  now rewrite IH.
Qed.

(** X13: in the worktree view, when the number of selected indices is
    not the number of rows, the [a] key selects every row, and the selected
    worktrees are then all the worktrees, in the order of the table. *)
Lemma select_all_selects_every_row (c : Collab) (t : FwtsTUI) :
  mode (state t) = WORKTREES ->
  size (selected (state t)) <> length (worktrees (state t)) ->
  get_selected_worktrees (state (snd (handle_key c "a" t))) = Ok (worktrees (state t))
  /\ (forall i, i ∈ selected (state (snd (handle_key c "a" t)))
                <-> 0 <= i < Z.of_nat (length (worktrees (state t)))).
Proof.
  intros Hm Hsize.
  assert (Hkey : state (snd (handle_key c "a" t))
                 = set_selected
                     (list_to_set (seqZ 0 (Z.of_nat (length (worktrees (state t))))))
                     (state t)).
  { unfold handle_key. eval_key_tests. rewrite Hm. cbn [snd state with_state].
    unfold toggle_all.
    destruct (decide (size (selected (state t)) = length (worktrees (state t))));
      [contradiction|reflexivity]. }
  rewrite Hkey. split.
  - unfold get_selected_worktrees. cbn [selected set_selected cursor worktrees].
    destruct (worktrees (state t)) as [|w ws] eqn:Hw.
    + cbn [length]. change (seqZ 0 (Z.of_nat 0)) with (@nil Z).
      destruct (decide (list_to_set [] = (∅ : gset Z))) as [_|Hne];
        [|exfalso; apply Hne; reflexivity].
      destruct (Z.leb_spec 0 (cursor (state t))); cbn [andb]; [|reflexivity].
      destruct (Z.ltb_spec (cursor (state t)) (Z.of_nat 0)); [lia|reflexivity].
    + destruct (decide (list_to_set (seqZ 0 (Z.of_nat (length (w :: ws)))) = (∅ : gset Z)))
        as [Hempty|_].
      * exfalso. assert (H0 : (0 : Z) ∈ (∅ : gset Z)); [|set_solver].
        rewrite <- Hempty. apply elem_of_list_to_set, elem_of_seqZ. cbn [length]. lia.
      * rewrite sorted_set_range. apply (map_result_range [] (w :: ws)).
  - intros i. cbn [selected set_selected].
    rewrite elem_of_list_to_set, elem_of_seqZ. lia.
Qed.

End SelectAll.

(** ** Refresh timing and the pull-request snapshot *)

Section RefreshTiming.
Import Hooks Tui.

(** X14: after a load that returns, the loading and staleness flags are
    down and the time of the refresh is the current time, so that the loop
    starts no automatic refresh before 30 seconds have passed and starts one
    once they have. *)
Lemma refresh_due_after_load (c : Collab) (s : TUIState) :
  fst (load_data c s) = None ->
  loading (snd (load_data c s)) = false
  /\ needs_refresh (snd (load_data c s)) = false
  /\ last_refresh (snd (load_data c s)) = now c
  /\ (forall later : Collab,
        now later - now c < 30000 -> refresh_due later (snd (load_data c s)) = false)
  /\ (forall later : Collab,
        30000 <= now later - now c -> refresh_due later (snd (load_data c s)) = true).
Proof.
  unfold load_data.
  destruct (load_mode_data c _) as [[e|] s2]; cbn [fst snd]; [discriminate|]. intros _.
  assert (Hfields : forall s3 : TUIState,
             loading s3 = false -> needs_refresh s3 = false -> last_refresh s3 = now c ->
             loading s3 = false /\ needs_refresh s3 = false /\ last_refresh s3 = now c
             /\ (forall later : Collab,
                   now later - now c < 30000 -> refresh_due later s3 = false)
             /\ (forall later : Collab,
                   30000 <= now later - now c -> refresh_due later s3 = true)).
  { intros s3 Hl Hn Hr. repeat split; try assumption; intros later Hlater;
      unfold refresh_due, AUTO_REFRESH_INTERVAL; rewrite Hl, Hn, Hr; cbn [orb negb].
    - rewrite andb_true_r. rewrite Z.geb_leb. apply Z.leb_gt. lia.
    - rewrite andb_true_r. rewrite Z.geb_leb. apply Z.leb_le. lia. }
  destruct (negb _ || bool_decide _); apply Hfields; reflexivity.
Qed.

Lemma insert_pr_first x l :
  needs_your_review (pd_pr x) = true ->
  insert_by (fun a b => pr_display_key a <=? pr_display_key b) x l = x :: l.
Proof.
  intros Hx. destruct l as [|y l]; [reflexivity|]. cbn [insert_by].
  unfold pr_display_key at 1. rewrite Hx. now destruct (pr_display_key y) eqn:Hy;
    unfold pr_display_key in Hy; destruct (needs_your_review (pd_pr y)).
Qed.

Lemma insert_pr_after x l1 l2 :
  needs_your_review (pd_pr x) = false ->
  Forall (fun y => needs_your_review (pd_pr y) = true) l1 ->
  Forall (fun y => needs_your_review (pd_pr y) = false) l2 ->
  insert_by (fun a b => pr_display_key a <=? pr_display_key b) x (l1 ++ l2)%list
  = (l1 ++ x :: l2)%list.
Proof.
  intros Hx H1 H2. induction H1 as [|y l1 Hy _ IH]; cbn [app insert_by].
  - destruct H2 as [|z l2 Hz _]; [reflexivity|]. cbn [insert_by].
    unfold pr_display_key. now rewrite Hx, Hz.
  - unfold pr_display_key at 1 2. rewrite Hx, Hy. cbn. now rewrite IH.
Qed.

(** The sort of the pull requests puts those that need the user's review
    first and keeps the fetched order within each group. *)
Lemma sort_prs_partition l :
  sort_prs l
  = (List.filter (fun p => needs_your_review (pd_pr p)) l
     ++ List.filter (fun p => negb (needs_your_review (pd_pr p))) l)%list.
Proof.
  induction l as [|x l IH]; [reflexivity|].
  unfold sort_prs in *. cbn [sort_by foldr]. unfold sort_by in IH. rewrite IH.
  cbn [List.filter]. destruct (needs_your_review (pd_pr x)) eqn:Hx; cbn [negb].
  - now apply insert_pr_first.
  - apply insert_pr_after; [assumption| |]; apply Forall_forall; intros y Hy;
      apply list_elem_of_In, filter_In in Hy as [_ Hy]; [assumption|].
    now apply negb_true_iff.
Qed.

(** X15: when the pull requests and the worktrees are fetched, the
    pull-request snapshot shows first the pull requests that wait for the
    user's review and then the others, each group in the order the review
    service returned them in. *)
Lemma load_pr_data_review_first (c : Collab) (s : TUIState) repo detailed_prs
    local_worktrees :
  github_repo (config c) = Some repo -> PyStr.truthy repo = true ->
  list_prs_detailed c repo = Ok detailed_prs ->
  get_feature_worktrees c = Ok local_worktrees ->
  let shown := map (make_pr_display (local_branch_map local_worktrees)) detailed_prs in
  fst (load_pr_data c s) = None
  /\ prs (snd (load_pr_data c s))
     = (List.filter (fun p => needs_your_review (pd_pr p)) shown
        ++ List.filter (fun p => negb (needs_your_review (pd_pr p))) shown)%list
  /\ map pd_pr shown = detailed_prs.
Proof.
  intros Hrepo Htruthy Hprs Hwts shown. unfold load_pr_data. rewrite Hrepo.
  destruct repo as [|ch repo]; [discriminate|]. rewrite Hprs, Hwts. cbn [fst snd prs set_prs].
  split; [reflexivity|]. split; [apply sort_prs_partition|].
  subst shown. rewrite map_map. cbn [pd_pr make_pr_display]. apply map_id.
Qed.

End RefreshTiming.

(** ** The cleanup loops *)

Section CleanupLoops.
Import Hooks Tui.

(** What one turn of the inline cleanup adds to the calls and the
    prompts, and what it leaves alone. *)
Lemma cleanup_unit_calls cleanup_func n x item :
  let x' := cleanup_unit cleanup_func n x item in
  plain_calls (ex_trace x') = (plain_calls (ex_trace x) ++ [wi_worktree (snd item)])%list
  /\ (exists forced asked,
        forced_calls (ex_trace x') = (forced_calls (ex_trace x) ++ forced)%list
        /\ length (prompts (ex_trace x')) = (length (prompts (ex_trace x)) + asked)%nat
        /\ forced `sublist_of` [wi_worktree (snd item)]
        /\ (length forced <= asked <= 1)%nat)
  /\ worktrees (ex_state x') = worktrees (ex_state x)
  /\ mode (ex_state x') = mode (ex_state x).
Proof.
  destruct item as [i info]. unfold cleanup_unit. cbn [snd].
  destruct (run_cleanup_in_thread cleanup_func (wi_worktree info) false (ex_world x))
    as [result w1].
  destruct (cr_success result).
  - cbn [ex_trace ex_state]. unfold plain_calls, forced_calls, prompts.
    rewrite !omap_app. cbn [omap]. rewrite !app_nil_r.
    split; [reflexivity|]. split; [|split; reflexivity].
    exists [], 0%nat. rewrite app_nil_r, Nat.add_0_r.
    split; [reflexivity|]. split; [reflexivity|]. split; [apply sublist_nil_l|cbn; lia].
  - destruct (get_key_with_timeout 30000 (flush_stdin (stdin w1))) as [key k2].
    destruct (bool_decide (key = Some "f")).
    + destruct (run_cleanup_in_thread cleanup_func (wi_worktree info) true (set_stdin k2 w1))
        as [force_result w3].
      cbn [ex_trace ex_state]. unfold plain_calls, forced_calls, prompts.
      rewrite !omap_app. cbn [omap]. rewrite !app_nil_r.
      split; [reflexivity|]. split; [|split; destruct (cr_success force_result); reflexivity].
      exists [wi_worktree info], 1%nat. rewrite length_app.
      split; [reflexivity|]. split; [reflexivity|]. split; [reflexivity|cbn; lia].
    + cbn [ex_trace ex_state]. unfold plain_calls, forced_calls, prompts.
      rewrite !omap_app. cbn [omap]. rewrite !app_nil_r.
      split; [reflexivity|]. split; [|split; reflexivity].
      exists [], 1%nat. rewrite app_nil_r, length_app.
      split; [reflexivity|]. split; [reflexivity|]. split; [apply sublist_nil_l|cbn; lia].
Qed.

Lemma cleanup_fold_calls cleanup_func n items x :
  let x' := foldl (cleanup_unit cleanup_func n) x items in
  plain_calls (ex_trace x')
  = (plain_calls (ex_trace x) ++ map (fun item => wi_worktree (snd item)) items)%list
  /\ (exists forced asked,
        forced_calls (ex_trace x') = (forced_calls (ex_trace x) ++ forced)%list
        /\ length (prompts (ex_trace x')) = (length (prompts (ex_trace x)) + asked)%nat
        /\ forced `sublist_of` map (fun item => wi_worktree (snd item)) items
        /\ (length forced <= asked <= length items)%nat)
  /\ worktrees (ex_state x') = worktrees (ex_state x)
  /\ mode (ex_state x') = mode (ex_state x).
Proof.
  revert x. induction items as [|item items IH]; intros x; cbn [foldl map].
  - rewrite app_nil_r. split; [reflexivity|]. split; [|split; reflexivity].
    exists [], 0%nat. rewrite app_nil_r, Nat.add_0_r.
    split; [reflexivity|]. split; [reflexivity|]. split; [constructor|cbn; lia].
  - destruct (IH (cleanup_unit cleanup_func n x item)) as (Hp & (f2 & a2 & Hf2 & Ha2 & Hs2 & Hl2) & Hw & Hm).
    destruct (cleanup_unit_calls cleanup_func n x item)
      as (Hp1 & (f1 & a1 & Hf1 & Ha1 & Hs1 & Hl1) & Hw1 & Hm1).
    cbn zeta in *.
    split; [|split; [|split; congruence]].
    + rewrite Hp, Hp1, <- app_assoc. reflexivity.
    + exists (f1 ++ f2)%list, (a1 + a2)%nat.
      rewrite Hf2, Hf1, Ha2, Ha1, <- app_assoc, length_app. cbn [length].
      split; [reflexivity|]. split; [lia|]. split; [|lia].
      apply (sublist_app f1 [wi_worktree (snd item)] f2 _); assumption.
Qed.

Lemma map_snd_enumerate {A} (l : list A) : map snd (enumerate l) = l.
Proof.
  unfold enumerate. change (map snd ?x) with (snd <$> x). rewrite fmap_imap.
  rewrite (imap_ext _ (const id)) by reflexivity.
  rewrite imap_const. apply list_fmap_id.
Qed.

(** X16: with a selection that can be read, the inline cleanup runs
    the operation once without force for every selected worktree, in the
    order of the table; it forces only worktrees of the selection, each
    after a prompt of its own; and it ends with the selection cleared, the
    cursor and the window on the first row and a refresh requested, the
    rows of the snapshot being left for that refresh to replace. *)
Lemma run_inline_cleanup_visits_selection (cleanup_func : CleanupFunc) (x : Exec)
    (wts : list WorktreeInfo) :
  get_selected_worktrees (ex_state x) = Ok wts -> wts <> [] ->
  exists x',
    run_inline_cleanup (Some cleanup_func) x = Ok x'
    /\ plain_calls (ex_trace x') = (plain_calls (ex_trace x) ++ map wi_worktree wts)%list
    /\ (exists forced asked,
          forced_calls (ex_trace x') = (forced_calls (ex_trace x) ++ forced)%list
          /\ length (prompts (ex_trace x')) = (length (prompts (ex_trace x)) + asked)%nat
          /\ forced `sublist_of` map wi_worktree wts
          /\ (length forced <= asked <= length wts)%nat)
    /\ selected (ex_state x') = ∅
    /\ cursor (ex_state x') = 0
    /\ viewport_start (ex_state x') = 0
    /\ needs_refresh (ex_state x') = true
    /\ status_message (ex_state x') = Some "Cleanup complete - refreshing..."
    /\ worktrees (ex_state x') = worktrees (ex_state x).
Proof.
  intros Hsel Hne. unfold run_inline_cleanup. rewrite Hsel.
  destruct wts as [|wt wts']; [contradiction|]. eexists. split; [reflexivity|].
  cbn [ex_trace ex_state].
  destruct (cleanup_fold_calls (Some cleanup_func) (Z.of_nat (length (wt :: wts')))
              (enumerate (wt :: wts')) x) as (Hp & (forced & asked & Hf & Ha & Hs & Hl) & Hw & _).
  cbn zeta in *.
  assert (Hmap : map (fun item : Z * WorktreeInfo => wi_worktree (snd item))
                   (enumerate (wt :: wts')) = map wi_worktree (wt :: wts')).
  { rewrite <- (map_snd_enumerate (wt :: wts')) at 2. now rewrite map_map. }
  rewrite Hmap in Hp, Hs.
  assert (Hlen : length (enumerate (wt :: wts')) = length (wt :: wts'))
    by apply length_imap.
  rewrite Hlen in Hl.
  split; [exact Hp|]. split; [exists forced, asked; tauto|].
  repeat split. exact Hw.
Qed.

Lemma cleanup_shown_fold cleanup_func wts run :
  let run' := foldl (cleanup_shown cleanup_func) run wts in
  cu_calls run' = (cu_calls run ++ map wi_worktree wts)%list
  /\ cu_world run'
     = foldl (fun w0 info => snd (cleanup_func (wi_worktree info) w0)) (cu_world run) wts.
Proof.
  revert run. induction wts as [|info wts IH]; intros run; cbn [foldl map].
  - now rewrite app_nil_r.
  - destruct (IH (cleanup_shown cleanup_func run info)) as [Hc Hw]. cbn zeta in *.
    rewrite Hc, Hw. unfold cleanup_shown.
    destruct (cleanup_func (wi_worktree info) (cu_world run)) as [outcome w1].
    cbn [cu_calls cu_world snd]. now rewrite <- app_assoc.
Qed.

Lemma cleanup_plain_spec cleanup_func wts run :
  let after := foldl (fun w0 info => snd (cleanup_func (wi_worktree info) w0)) (cu_world run) in
  let run' := cleanup_plain cleanup_func wts run in
  cu_state run' = cu_state run
  /\ ((cu_calls run' = (cu_calls run ++ map wi_worktree wts)%list
       /\ cu_world run' = after wts
       /\ (wts = [] \/ cu_result run' = Ok tt))
      \/ (exists e pre info post,
            wts = (pre ++ info :: post)%list
            /\ fst (cleanup_func (wi_worktree info) (after pre)) = Raised e
            /\ cu_result run' = Raise e
            /\ cu_calls run' = (cu_calls run ++ map wi_worktree (pre ++ [info]))%list)).
Proof.
  revert run. induction wts as [|info wts IH]; intros run; cbn [cleanup_plain].
  - split; [reflexivity|]. left. rewrite app_nil_r. auto.
  - destruct (cleanup_func (wi_worktree info) (cu_world run)) as [outcome w1] eqn:Hcall.
    destruct outcome as [|e].
    + match goal with |- context [cleanup_plain _ _ ?r] => destruct (IH r) as [Hs Hrest] end.
      cbn zeta in *. cbn [cu_state cu_calls cu_world] in *.
      split; [exact Hs|]. destruct Hrest as [(Hc & Hw & Hr)|(e & pre & i & post & -> & Hf & Hr & Hc)].
      * left. rewrite Hc, Hw, <- app_assoc. cbn [foldl map app]. rewrite Hcall. cbn [snd].
        split; [reflexivity|]. split; [reflexivity|]. right.
        destruct Hr as [->|Hr]; [reflexivity|exact Hr].
      * right. exists e, (info :: pre), i, post. cbn [foldl app map]. rewrite Hcall. cbn [snd].
        split; [reflexivity|]. split; [exact Hf|]. split; [exact Hr|].
        rewrite Hc, <- app_assoc. reflexivity.
    + cbn [cu_state cu_result cu_calls]. split; [reflexivity|]. right.
      exists e, [], info, wts. cbn [foldl app map]. rewrite Hcall. auto.
Qed.

(** X17: on a terminal [run_with_cleanup_status] calls the cleanup for
    every worktree it is given, whether or not an earlier call failed, and
    ends with the count of the worktrees as its status; with a standard
    input that is no terminal it leaves the state untouched, and the first
    call that raises ends the run with that exception, the worktrees after it
    not being visited. *)
Lemma run_with_cleanup_status_modes (cleanup_func : SimpleCleanup)
    (wts : list WorktreeInfo) (s : TUIState) (w : World) :
  let after := foldl (fun w0 info => snd (cleanup_func (wi_worktree info) w0)) w in
  (let run := run_with_cleanup_status true cleanup_func wts s w in
   cu_result run = Ok tt
   /\ cu_calls run = map wi_worktree wts
   /\ cu_world run = after wts
   /\ status_message (cu_state run)
      = Some ("Cleanup complete (" ++ pretty (length wts) ++ " worktrees)")
   /\ status_style (cu_state run) = "green")
  /\ (let run := run_with_cleanup_status false cleanup_func wts s w in
      cu_state run = s
      /\ ((cu_result run = Ok tt /\ cu_calls run = map wi_worktree wts
           /\ cu_world run = after wts)
          \/ (exists e pre info post,
                wts = (pre ++ info :: post)%list
                /\ fst (cleanup_func (wi_worktree info) (after pre)) = Raised e
                /\ cu_result run = Raise e
                /\ cu_calls run = map wi_worktree (pre ++ [info])))).
Proof.
  split.
  - unfold run_with_cleanup_status. cbn [negb cu_result cu_calls cu_world cu_state].
    match goal with |- context [foldl (cleanup_shown _) ?r _] =>
      destruct (cleanup_shown_fold cleanup_func wts r) as [Hc Hw] end.
    cbn zeta in *. rewrite Hc, Hw. repeat split.
  - unfold run_with_cleanup_status. cbn [negb].
    match goal with |- context [cleanup_plain _ _ ?r] =>
      destruct (cleanup_plain_spec cleanup_func wts r) as [Hs Hrest] end.
    cbn zeta in *. cbn [cu_state cu_calls cu_world app] in *. split; [exact Hs|].
    destruct Hrest as [(Hc & Hw & Hr)|Hraise]; [left|right; exact Hraise].
    split; [|split; assumption].
    destruct Hr as [->|Hr]; [reflexivity|exact Hr].
Qed.

End CleanupLoops.

(** ** Reading keys *)

Section KeyReading.
Import Hooks Tui.

(** X18: the three bytes of an arrow key that are readable together
    are read as one key, whatever follows them and whatever the wait, and
    that key moves the cursor as [j] or [k] does; an escape byte that nothing
    follows within 50 milliseconds is read as the Escape key, which the
    dashboard ignores, and the bytes that come later are read as keys of
    their own.  The wait is not negative, as [select] demands. *)
Lemma arrow_keys_read_as_one_key (c : Collab) (t : FwtsTUI) (timeout : Z)
    (rest : string) (inc : list (Z * string)) :
  0 <= timeout ->
  get_key_with_timeout timeout {| buffered := KEY_DOWN ++ rest; incoming := inc |}
  = (Some KEY_DOWN, {| buffered := rest; incoming := inc |})
  /\ get_key_with_timeout timeout {| buffered := KEY_UP ++ rest; incoming := inc |}
     = (Some KEY_UP, {| buffered := rest; incoming := inc |})
  /\ handle_key c KEY_DOWN t = handle_key c "j" t
  /\ handle_key c KEY_UP t = handle_key c "k" t
  /\ (forall delay bytes, 50 < delay ->
        get_key_with_timeout timeout {| buffered := ESC; incoming := (delay, bytes) :: inc |}
        = (Some ESC, {| buffered := EmptyString; incoming := (delay - 50, bytes) :: inc |}))
  /\ handle_key c ESC t = (None, t).
Proof.
  intros _. split; [|split; [|split; [|split; [|split]]]].
  - change (KEY_DOWN ++ rest) with (String (ascii_of_nat 27) (String "[" (String "B" rest))).
    reflexivity.
  - change (KEY_UP ++ rest) with (String (ascii_of_nat 27) (String "[" (String "A" rest))).
    reflexivity.
  - unfold handle_key. eval_key_tests. reflexivity.
  - unfold handle_key. eval_key_tests. reflexivity.
  - intros delay bytes Hdelay. unfold get_key_with_timeout.
    change (select_stdin timeout {| buffered := ESC; incoming := (delay, bytes) :: inc |})
      with (true, {| buffered := ESC; incoming := (delay, bytes) :: inc |}).
    cbn [negb]. change (os_read 1 {| buffered := ESC; incoming := (delay, bytes) :: inc |})
      with (ESC, {| buffered := EmptyString; incoming := (delay, bytes) :: inc |}).
    cbv iota beta. rewrite String.eqb_refl. unfold select_stdin. cbn [buffered incoming].
    destruct (Z.leb_spec delay 50) as [Hle|_]; [lia|reflexivity].
  - unfold handle_key. eval_key_tests. destruct (mode (state t)); reflexivity.
Qed.

(** X19: while the navigation invariant holds and the view has rows,
    the return key ends the loop with the action of the view and the row
    under the cursor: the ticket in a ticket view, the pull request in the
    pull-request view, and in the worktree view, when nothing is selected,
    the one worktree of that row. *)
Lemma enter_key_returns_row (c : Collab) (t : FwtsTUI) :
  nav_inv t -> current_len (state t) > 0 ->
  exists action,
    handle_key c KEY_CR t = (Some action, t)
    /\ handle_key c KEY_LF t = (Some action, t)
    /\ match mode (state t) with
       | WORKTREES =>
           action = "launch"
           /\ (selected (state t) = ∅ ->
               exists row,
                 worktrees (state t) !! Z.to_nat (cursor (state t)) = Some row
                 /\ action_data action (state t) = Ok (DataWorktrees [row]))
       | PRS =>
           action = "open_pr"
           /\ exists row,
                prs (state t) !! Z.to_nat (cursor (state t)) = Some row
                /\ action_data action (state t) = Ok (DataPr (Some row))
       | _ =>
           action = "start_ticket"
           /\ exists row,
                tickets (state t) !! Z.to_nat (cursor (state t)) = Some row
                /\ action_data action (state t) = Ok (DataTicket (Some row))
       end.
Proof.
  intros [Hcur _] Hlen. cbn zeta in Hcur.
  assert (Hrow : 0 <= cursor (state t) < current_len (state t)) by lia.
  assert (Htest : forall n, 0 <= cursor (state t) < n ->
                            (0 <=? cursor (state t)) && (cursor (state t) <? n) = true).
  { intros n Hn. apply andb_true_intro. split; [apply Z.leb_le|apply Z.ltb_lt]; lia. }
  unfold current_len in Hrow.
  unfold handle_key. eval_key_tests.
  destruct (mode (state t)) eqn:Hmode; eexists; (split; [reflexivity|]);
    (split; [reflexivity|]); (split; [reflexivity|]).
  - intros Hsel.
    destruct (py_index_in_range (worktrees (state t)) (cursor (state t)) Hrow)
      as (row & Hidx & Hlook).
    exists row. split; [exact Hlook|].
    unfold action_data, get_selected_worktrees. cbn.
    destruct (decide (selected (state t) = ∅)) as [_|Hne]; [|contradiction].
    now rewrite (Htest _ Hrow), Hidx.
  - destruct (lookup_lt_is_Some_2 (tickets (state t)) (Z.to_nat (cursor (state t))))
      as [row Hlook]; [lia|].
    exists row. split; [exact Hlook|].
    unfold action_data, get_selected_ticket. cbn. now rewrite (Htest _ Hrow), Hlook.
  - destruct (lookup_lt_is_Some_2 (tickets (state t)) (Z.to_nat (cursor (state t))))
      as [row Hlook]; [lia|].
    exists row. split; [exact Hlook|].
    unfold action_data, get_selected_ticket. cbn. now rewrite (Htest _ Hrow), Hlook.
  - destruct (lookup_lt_is_Some_2 (tickets (state t)) (Z.to_nat (cursor (state t))))
      as [row Hlook]; [lia|].
    exists row. split; [exact Hlook|].
    unfold action_data, get_selected_ticket. cbn. now rewrite (Htest _ Hrow), Hlook.
  - destruct (lookup_lt_is_Some_2 (prs (state t)) (Z.to_nat (cursor (state t))))
      as [row Hlook]; [lia|].
    exists row. split; [exact Hlook|].
    unfold action_data, get_selected_pr. cbn. now rewrite (Htest _ Hrow), Hlook.
Qed.

End KeyReading.

(** ** What the tables show *)

Section Rendering.
Import Hooks Tui.

(** X20: the label the ticket table shows for a pull request fixes the
    rank the ticket sort gives it: no pull request 0, draft 1, the three
    labels of an open pull request that is not approved 2, approved 3,
    merged 4, closed 5.  Tickets that show the same label are therefore
    never told apart by the second component of the sort key. *)
Lemma pr_label_fixes_sort_rank (ticket : TicketInfo) :
  let label :=
    fst (hd (EmptyString, EmptyString) (format_pr_display (ti_pr_info ticket))) in
  (pr_sort_key ticket = 0 <-> label = "no PR")
  /\ (pr_sort_key ticket = 1 <-> label = "draft")
  /\ (pr_sort_key ticket = 2
      <-> label = "open" \/ label = "in review" \/ label = "changes")
  /\ (pr_sort_key ticket = 3 <-> label = "approved")
  /\ (pr_sort_key ticket = 4 <-> label = "merged")
  /\ (pr_sort_key ticket = 5 <-> label = "closed").
Proof.
  unfold pr_sort_key, format_pr_display.
  destruct (ti_pr_info ticket) as [pr|]; cbn zeta.
  2:{ cbn. repeat split; intros; try discriminate; try reflexivity;
      repeat match goal with H : _ \/ _ |- _ => destruct H end; discriminate. }
  destruct (String.eqb (pr_state pr) "merged");
    [|destruct (String.eqb (pr_state pr) "closed");
      [|destruct (pr_is_draft pr);
        [|destruct (pr_review_decision pr) as [[]|]]]];
    cbn [app hd fst];
    repeat split; intros; try discriminate; try reflexivity; auto;
    repeat match goal with H : _ \/ _ |- _ => destruct H end; discriminate.
Qed.

(** X21: the age shown for a pull request is the whole number of the
    largest unit that fits, rounded down: seconds below a minute, minutes
    below an hour, hours below a day, days below 30 days, and months of 30
    days from there on. *)
Lemma format_time_ago_units (age_seconds : string -> result Z) (iso_timestamp : string)
    (seconds : Z) :
  PyStr.truthy iso_timestamp = true ->
  age_seconds iso_timestamp = Ok seconds ->
  let shown := format_time_ago age_seconds iso_timestamp in
  (seconds < 60 /\ shown = pretty seconds ++ "s")
  \/ (60 <= seconds < 3600 /\ shown = pretty (seconds / 60) ++ "m")
  \/ (3600 <= seconds < 86400 /\ shown = pretty (seconds / 3600) ++ "h")
  \/ (86400 <= seconds < 2592000 /\ shown = pretty (seconds / 86400) ++ "d")
  \/ (2592000 <= seconds /\ shown = pretty (seconds / 2592000) ++ "mo").
Proof.
  intros Hts Hage. unfold format_time_ago. rewrite Hts, Hage. cbn [negb].
  assert (Hm : seconds / 60 / 60 = seconds / 3600) by (rewrite Z.div_div by lia; reflexivity).
  assert (Hd : seconds / 60 / 60 / 24 = seconds / 86400) by (rewrite !Z.div_div by lia; reflexivity).
  assert (Hmo : seconds / 60 / 60 / 24 / 30 = seconds / 2592000)
    by (rewrite !Z.div_div by lia; reflexivity).
  pose proof (Z.div_mod seconds 60 ltac:(lia)) as E1.
  pose proof (Z.mod_pos_bound seconds 60 ltac:(lia)) as B1.
  pose proof (Z.div_mod seconds 3600 ltac:(lia)) as E2.
  pose proof (Z.mod_pos_bound seconds 3600 ltac:(lia)) as B2.
  pose proof (Z.div_mod seconds 86400 ltac:(lia)) as E3.
  pose proof (Z.mod_pos_bound seconds 86400 ltac:(lia)) as B3.
  destruct (Z.ltb_spec seconds 60); [left; split; [lia|reflexivity]|].
  destruct (Z.ltb_spec (seconds / 60) 60); [right; left; split; [lia|reflexivity]|].
  rewrite ?Hmo, ?Hd, ?Hm.
  destruct (Z.ltb_spec (seconds / 3600) 24);
    [right; right; left; split; [lia|reflexivity]|].
  destruct (Z.ltb_spec (seconds / 86400) 30);
    [right; right; right; left; split; [lia|reflexivity]|].
  right; right; right; right. split; [lia|reflexivity].
Qed.

(** X22: while data is loading the status line shows the loading
    notice and nothing of the message; with no load running and no message
    it shows a count of seconds between 1 and 30 to the next automatic
    refresh, and within 30 seconds of the last refresh that count is right:
    the loop starts no automatic refresh a second before it runs out and
    starts one when it has. *)
Lemma render_status_countdown (c : Collab) (s : TUIState) :
  (loading s = true ->
   render_status c false s = [("⟳ Loading data...", Some "bold yellow")])
  /\ (loading s = false -> status_message s = None ->
      exists updated next_refresh,
        render_status c false s
        = [(updated, Some "dim");
           (" · auto-refresh in " ++ pretty next_refresh ++ "s", Some "dim")]
        /\ 1 <= next_refresh <= 30
        /\ (needs_refresh s = false -> 0 <= now c - last_refresh s < 30000 ->
            forall later : Collab,
              (now later - now c <= (next_refresh - 1) * 1000 ->
               refresh_due later s = false)
              /\ (next_refresh * 1000 <= now later - now c ->
                  refresh_due later s = true))).
Proof.
  split.
  - intros Hl. unfold render_status. now rewrite Hl.
  - intros Hl Hmsg. unfold render_status. rewrite Hl, Hmsg. cbv zeta.
    set (elapsed := Z.quot (now c - last_refresh s) 1000).
    eexists _, (30 - elapsed mod 30). split; [reflexivity|].
    pose proof (Z.mod_pos_bound elapsed 30 ltac:(lia)) as Hmod.
    split; [lia|]. intros Hn Hrange later.
    assert (He : elapsed = (now c - last_refresh s) / 1000)
      by (subst elapsed; apply Z.quot_div_nonneg; lia).
    pose proof (Z.div_mod (now c - last_refresh s) 1000 ltac:(lia)) as E1.
    pose proof (Z.mod_pos_bound (now c - last_refresh s) 1000 ltac:(lia)) as B1.
    rewrite <- He in E1.
    assert (Hsmall : elapsed mod 30 = elapsed) by (apply Z.mod_small; lia).
    rewrite Hsmall. unfold refresh_due, AUTO_REFRESH_INTERVAL. rewrite Hl, Hn.
    cbn [orb negb]. rewrite andb_true_r, Z.geb_leb.
    split; intros Hlater; [apply Z.leb_gt|apply Z.leb_le]; lia.
Qed.

End Rendering.

(** ** Pull-request helpers *)

Section PullRequests.
Import Github.

Lemma length_append (a b : string) :
  String.length (a ++ b) = (String.length a + String.length b)%nat.
Proof.
  induction a as [|c a IH]; [now rewrite append_empty_l|].
  rewrite append_cons. cbn [String.length]. now rewrite IH.
Qed.

(** A count followed by [fail] is none of the three fixed summaries. *)
Lemma count_fail_not_fixed (count : string) :
  count ++ "fail" <> "none" /\ count ++ "fail" <> "pend" /\ count ++ "fail" <> "pass".
Proof.
  assert (H : forall fixed, String.length fixed = 4%nat -> fixed <> "fail" ->
                            count ++ "fail" <> fixed).
  { intros fixed Hlen Hne Heq. apply Hne. rewrite <- Heq.
    assert (Hc : String.length count = 0%nat).
    { apply (f_equal String.length) in Heq. rewrite length_append, Hlen in Heq.
      cbn [String.length] in Heq. lia. }
    destruct count; [now rewrite append_empty_l|discriminate]. }
  repeat split; apply H; (reflexivity || discriminate).
Qed.

Lemma filter_nil_forall {A} (p : A -> bool) (l : list A) :
  List.filter p l = [] <-> Forall (fun x => p x = false) l.
Proof.
  induction l as [|x l IH]; cbn [List.filter].
  - split; [constructor|reflexivity].
  - destruct (p x) eqn:Hp.
    + split; [discriminate|]. intros H. apply Forall_cons in H as [H _]. congruence.
    + rewrite IH. split; [now constructor|]. intros H. now apply Forall_cons in H as [_ H].
Qed.

(** X23: the summary of the checks of a pull request is [none] exactly
    when there are no checks, [pass] exactly when there are checks, all
    completed, and none has failed, [pend] exactly when none has failed and
    one is not completed, and the number of failed checks followed by [fail]
    as soon as one has failed, whatever the others are doing. *)
Lemma ci_summary_cases (status_checks : list StatusCheck) :
  (ci_summary status_checks = "none" <-> status_checks = [])
  /\ (ci_summary status_checks = "pass"
      <-> status_checks <> []
          /\ Forall (fun c => has_failed c = false /\ sc_status c = "completed")
               status_checks)
  /\ (ci_summary status_checks = "pend"
      <-> Forall (fun c => has_failed c = false) status_checks
          /\ Exists (fun c => sc_status c <> "completed") status_checks)
  /\ (List.filter has_failed status_checks <> [] ->
      ci_summary status_checks
      = pretty (length (List.filter has_failed status_checks)) ++ "fail").
Proof.
  destruct (count_fail_not_fixed (pretty (length (List.filter has_failed status_checks))))
    as (Hnone & Hpend & Hpass).
  assert (Hpending : List.filter is_pending status_checks = []
                     <-> Forall (fun c => sc_status c = "completed") status_checks).
  { rewrite filter_nil_forall. apply Forall_iff. intros c. unfold is_pending.
    rewrite negb_false_iff. apply String.eqb_eq. }
  pose proof (filter_nil_forall has_failed status_checks) as Hfailed.
  destruct status_checks as [|c0 cs].
  { unfold ci_summary. split; [split; reflexivity|].
    split; [split; [discriminate|intros [H _]; exfalso; now apply H]|].
    split; [split; [discriminate|intros [_ H]; inversion H]|].
    cbn [List.filter]. intros H. exfalso. now apply H. }
  unfold ci_summary. cbv iota.
  assert (Hne : c0 :: cs <> []) by discriminate.
  remember (c0 :: cs) as checks eqn:Hchecks. clear c0 cs Hchecks.
  destruct (List.filter has_failed checks) as [|f fs] eqn:Hf.
  - assert (Hok : Forall (fun c => has_failed c = false) checks) by now apply Hfailed.
    destruct (List.filter is_pending checks) as [|p ps] eqn:Hp.
    + assert (Hdone : Forall (fun c => sc_status c = "completed") checks)
        by now apply Hpending.
      split; [split; [discriminate|intros H; contradiction]|].
      split; [split; [intros _|reflexivity]|].
      { split; [exact Hne|]. apply Forall_and. split; assumption. }
      split; [|intros H; exfalso; now apply H].
      split; [discriminate|]. intros [_ Hex]. apply Exists_exists in Hex as (c & Hin & Hc).
      rewrite Forall_forall in Hdone. exfalso. apply Hc, Hdone, Hin.
    + split; [split; [discriminate|intros H; contradiction]|].
      split.
      { split; [discriminate|]. intros [_ Hall]. apply Forall_and in Hall as [_ Hall].
        apply Hpending in Hall. discriminate. }
      split; [|intros H; exfalso; now apply H].
      split; [intros _|reflexivity]. split; [exact Hok|].
      apply Exists_exists. exists p.
      assert (Hin : In p (List.filter is_pending checks))
        by (rewrite Hp; now left).
      apply filter_In in Hin as [Hin Hpp]. split; [now apply list_elem_of_In|].
      unfold is_pending in Hpp. apply negb_true_iff, String.eqb_neq in Hpp. exact Hpp.
  - assert (Hsome : ~ Forall (fun c => has_failed c = false) checks).
    { intros Hall. apply Hfailed in Hall. discriminate. }
    split; [split; [intros H; now apply Hnone in H|intros H; contradiction]|].
    split.
    { split; [intros H; now apply Hpass in H|].
      intros [_ Hall]. apply Forall_and in Hall as [Hall _]. contradiction. }
    split; [|reflexivity].
    split; [intros H; now apply Hpend in H|]. intros [Hall _]. contradiction.
Qed.

Lemma strip_prefix_app (p s : string) : strip_prefix p (p ++ s) = Some s.
Proof.
  induction p as [|c p IH]; [now rewrite append_empty_l|].
  rewrite append_cons. cbn [strip_prefix]. now rewrite Ascii.eqb_refl.
Qed.

Lemma span_no_slash (a r : string) :
  PyStr.has_char "/" a = false ->
  span not_slash (a ++ String "/" r) = (a, String "/" r).
Proof.
  induction a as [|c a IH]; intros Ha.
  - rewrite append_empty_l. reflexivity.
  - cbn [PyStr.has_char] in Ha. apply orb_false_elim in Ha as [Hc Ha].
    rewrite append_cons. cbn [span]. unfold not_slash at 1.
    destruct (Ascii.eqb_spec c "/") as [->|_]; [discriminate Hc|].
    cbn [negb]. now rewrite (IH Ha).
Qed.

Lemma span_digits (a rest : string) :
  PyStr.all_digits a = true ->
  rest = EmptyString \/ (exists c r, rest = String c r /\ PyStr.is_digit c = false) ->
  span PyStr.is_digit (a ++ rest) = (a, rest).
Proof.
  intros Ha Hrest. induction a as [|c a IH].
  - rewrite append_empty_l. destruct Hrest as [->|(c & r & -> & Hc)]; [reflexivity|].
    cbn [span]. now rewrite Hc.
  - cbn [PyStr.all_digits] in Ha. apply andb_prop in Ha as [Hc Ha].
    rewrite append_cons. cbn [span]. rewrite Hc. now rewrite (IH Ha).
Qed.

(** X24: the address of a pull request is taken apart into the
    repository it names and the number, the repository of the address
    standing in for the configured one, and what follows the number being
    dropped. *)
Lemma parse_pr_input_url (owner name number tail : string) (repo : option string) :
  owner <> EmptyString -> name <> EmptyString ->
  PyStr.has_char "/" owner = false -> PyStr.has_char "/" name = false ->
  PyStr.isdigit number = true ->
  tail = EmptyString
  \/ (exists c r, tail = String c r /\ PyStr.is_digit c = false
                  /\ (nat_of_ascii c < 128)%nat) ->
  parse_pr_input
    ("https://github.com/" ++ owner ++ "/" ++ name ++ "/pull/" ++ number ++ tail) repo
  = (Some (owner ++ "/" ++ name), number).
Proof.
  intros Howner Hname Hso Hsn Hnum Htail.
  unfold PyStr.isdigit in Hnum. apply andb_prop in Hnum as [Hnonempty Hdigits].
  unfold parse_pr_input, match_pr_url. rewrite strip_prefix_app.
  change ("/" ++ name ++ "/pull/" ++ number ++ tail)
    with (String "/" (name ++ "/pull/" ++ number ++ tail)).
  rewrite (span_no_slash owner _ Hso).
  destruct owner as [|o owner']; [contradiction|].
  change (strip_prefix "/" (String "/" (name ++ "/pull/" ++ number ++ tail)))
    with (Some (name ++ "/pull/" ++ number ++ tail)).
  change ("/pull/" ++ number ++ tail) with (String "/" ("pull/" ++ number ++ tail)).
  cbv beta iota. rewrite (span_no_slash name _ Hsn).
  destruct name as [|n name']; [contradiction|].
  change (String "/" ("pull/" ++ number ++ tail)) with ("/pull/" ++ (number ++ tail)).
  rewrite strip_prefix_app.
  cbv beta iota. rewrite (span_digits number tail Hdigits).
  - destruct number; [discriminate Hnonempty|reflexivity].
  - destruct Htail as [->|(c & r & -> & Hc & _)]; [now left|right; eauto].
Qed.

(** X25: a number and the same number behind a hash sign name the same
    pull request, in the configured repository. *)
Lemma parse_pr_input_number (number : string) (repo : option string) :
  PyStr.isdigit number = true ->
  parse_pr_input number repo = (repo, number)
  /\ parse_pr_input ("#" ++ number) repo = (repo, number).
Proof.
  intros Hnum. split.
  - unfold parse_pr_input. rewrite Hnum.
    assert (Hurl : match_pr_url number = None).
    { unfold match_pr_url. destruct number as [|c r]; [reflexivity|].
      cbn [strip_prefix]. destruct (Ascii.eqb_spec "h" c) as [<-|_]; [discriminate Hnum|].
      reflexivity. }
    now rewrite Hurl.
  - change ("#" ++ number) with (String "#" number). unfold parse_pr_input.
    change (match_pr_url (String "#" number)) with (@None (string * string)).
    change (PyStr.isdigit (String "#" number)) with false.
    unfold PyStr.startswith. cbn [String.prefix].
    destruct (ascii_dec "#" "#") as [_|Hne]; [|now contradiction Hne].
    change (PyStr.drop 1 (String "#" number)) with number.
    rewrite Hnum. now destruct number.
Qed.

End PullRequests.

(** ** The further lemmas on sample data *)


(** X7 on the table of the built-in CI hook and an output it has no
    key for. *)
Lemma resolve_color_unset_iff_witness :
  Hooks.resolve_color
    [("pass", "green"); ("pass*", "green"); ("fail", "red"); ("req-fail", "red");
     ("pending", "yellow"); ("none", "dim")] "Skipped"
  = None.
Proof.
  apply (resolve_color_unset_iff
           [("pass", "green"); ("pass*", "green"); ("fail", "red"); ("req-fail", "red");
            ("pending", "yellow"); ("none", "dim")] "Skipped").
  - repeat constructor.
  - reflexivity.
  - intros k v Hin. simpl in Hin.
    repeat (destruct Hin as [Heq|Hin]; [injection Heq as <- <-; reflexivity|]).
    contradiction.
Defined.

(** X8 on a hook whose script lies in the hook directory of the
    worktree. *)
Lemma resolve_command_script_tokens_witness :
  Hooks.resolve_command Samples.scripts_env Samples.lint_hook Samples.wt_a
  = Ok "/repo/a/.fwts/hooks/lint --fast src".
Proof.
  destruct (resolve_command_script_tokens Samples.scripts_env Samples.lint_hook Samples.wt_a
              "lint" ["--fast"; "src"] eq_refl eq_refl eq_refl eq_refl eq_refl eq_refl)
    as [Hlocal _].
  apply Hlocal. reflexivity.
Defined.

(** X11 on the second of three rows. *)
Lemma space_key_twice_witness :
  snd (Tui.handle_key Samples.collab0 " "
         (snd (Tui.handle_key Samples.collab0 " "
                 (Tui.run_ops Samples.collab0 Samples.tui0
                    [Tui.OpWorktrees Samples.three_rows; Tui.OpKey "j"]))))
  = Tui.run_ops Samples.collab0 Samples.tui0
      [Tui.OpWorktrees Samples.three_rows; Tui.OpKey "j"].
Proof.
  apply (space_key_twice Samples.collab0
           (Tui.run_ops Samples.collab0 Samples.tui0
              [Tui.OpWorktrees Samples.three_rows; Tui.OpKey "j"])).
  reflexivity.
Defined.

(** X13 on three rows of which two are selected. *)
Lemma select_all_selects_every_row_witness :
  Tui.get_selected_worktrees
    (Tui.state
       (snd (Tui.handle_key Samples.collab0 "a"
               (Tui.with_state (fun _ => Samples.state_two_selected) Samples.tui0))))
  = Ok Samples.three_rows.
Proof.
  apply (select_all_selects_every_row Samples.collab0
           (Tui.with_state (fun _ => Samples.state_two_selected) Samples.tui0)).
  - reflexivity.
  - vm_compute. discriminate.
Defined.

(** X14 on a first load of the worktree view, seen five seconds
    later. *)
Lemma refresh_due_after_load_witness :
  fst (Tui.load_data Samples.collab0 (Tui.initial_state Tui.WORKTREES)) = None
  /\ Tui.refresh_due Samples.collab_prs
       (snd (Tui.load_data Samples.collab0 (Tui.initial_state Tui.WORKTREES)))
     = false.
Proof.
  split; [reflexivity|].
  destruct (refresh_due_after_load Samples.collab0 (Tui.initial_state Tui.WORKTREES) eq_refl)
    as (_ & _ & _ & Hearly & _).
  apply Hearly. vm_compute. reflexivity.
Defined.

(** X15 on three pull requests of which the last two wait for the
    user. *)
Lemma load_pr_data_review_first_witness :
  map (fun p => Tui.dpr_number (Tui.pd_pr p))
    (Tui.prs (snd (Tui.load_pr_data Samples.collab_prs (Tui.initial_state Tui.PRS))))
  = [20; 10; 30].
Proof.
  destruct (load_pr_data_review_first Samples.collab_prs (Tui.initial_state Tui.PRS)
              "acme/repo"
              [Samples.detailed_pr 30 "feature/a" ["sam"];
               Samples.detailed_pr 20 "fix/b" ["dev"];
               Samples.detailed_pr 10 "fix/c" ["kim"; "dev"]]
              [Samples.wt_a] eq_refl eq_refl eq_refl eq_refl)
    as (_ & Hprs & _).
  rewrite Hprs. reflexivity.
Defined.

(** X16 on a selection of two dirty worktrees, the first of which the
    user has forced. *)
Lemma run_inline_cleanup_visits_selection_witness :
  exists x',
    Tui.run_inline_cleanup (Some Samples.dirty_cleanup)
      {| Tui.ex_state := Samples.state_two_selected;
         Tui.ex_world := Samples.world_f_after_2s; Tui.ex_trace := [] |}
    = Ok x'
    /\ Tui.plain_calls (Tui.ex_trace x') = [Samples.wt_a; Samples.wt_c]
    /\ Tui.selected (Tui.ex_state x') = ∅.
Proof.
  destruct (run_inline_cleanup_visits_selection Samples.dirty_cleanup
              {| Tui.ex_state := Samples.state_two_selected;
                 Tui.ex_world := Samples.world_f_after_2s; Tui.ex_trace := [] |}
              [Samples.info_of Samples.wt_a; Samples.info_of Samples.wt_c])
    as (x' & Hrun & Hcalls & _ & Hsel & _).
  - vm_compute. reflexivity.
  - discriminate.
  - exists x'. split; [exact Hrun|]. split; [exact Hcalls|exact Hsel].
Defined.

(** X19 on the first of three rows of the worktree view. *)
Lemma enter_key_returns_row_witness :
  Tui.handle_key Samples.collab0 Tui.KEY_CR
    (Tui.with_state (fun _ => Samples.state_three_rows) Samples.tui0)
  = (Some "launch", Tui.with_state (fun _ => Samples.state_three_rows) Samples.tui0)
  /\ Tui.action_data "launch" Samples.state_three_rows
     = Ok (Tui.DataWorktrees [Samples.info_of Samples.wt_a]).
Proof.
  destruct (enter_key_returns_row Samples.collab0
              (Tui.with_state (fun _ => Samples.state_three_rows) Samples.tui0))
    as (action & Hkey & _ & Hmode).
  - unfold Tui.nav_inv. vm_compute. repeat split; intros; discriminate.
  - reflexivity.
  - change (action = "launch"
            /\ (Tui.selected Samples.state_three_rows = ∅ ->
                exists row,
                  Samples.three_rows !! Z.to_nat 0 = Some row
                  /\ Tui.action_data action Samples.state_three_rows
                     = Ok (Tui.DataWorktrees [row]))) in Hmode.
    destruct Hmode as [-> Hrow].
    destruct (Hrow eq_refl) as (row & Hlook & Hdata).
    injection Hlook as <-. split; [exact Hkey|exact Hdata].
Defined.

(** X21 on a pull request updated two hours and five minutes ago. *)
Lemma format_time_ago_units_witness :
  Tui.format_time_ago (fun _ => Ok 7500) "2025-06-01T10:00:00Z" = "2h".
Proof.
  destruct (format_time_ago_units (fun _ => Ok 7500) "2025-06-01T10:00:00Z" 7500
              eq_refl eq_refl)
    as [[H _]|[[H _]|[[_ H]|[[H _]|[H _]]]]]; try lia.
  exact H.
Defined.

(** X24 on the address of the changed files of a pull request. *)
Lemma parse_pr_input_url_witness :
  Github.parse_pr_input "https://github.com/acme/repo/pull/42/files" None
  = (Some "acme/repo", "42").
Proof.
  apply (parse_pr_input_url "acme" "repo" "42" "/files" None);
    try discriminate; try reflexivity.
  right. exists "/"%char, "files". repeat split. apply Nat.ltb_lt. reflexivity.
Defined.

(** X25 on the number 42. *)
Lemma parse_pr_input_number_witness :
  Github.parse_pr_input "42" (Some "acme/repo") = (Some "acme/repo", "42")
  /\ Github.parse_pr_input "#42" (Some "acme/repo") = (Some "acme/repo", "42").
Proof.
  apply (parse_pr_input_number "42" (Some "acme/repo")). reflexivity.
Defined.

(** X18 on a down arrow typed just before [q], read with the wait of
    the main loop. *)
Lemma arrow_keys_read_as_one_key_witness :
  Tui.get_key_with_timeout 500
    {| Tui.buffered := Tui.KEY_DOWN ++ "q"; Tui.incoming := [] |}
  = (Some Tui.KEY_DOWN, {| Tui.buffered := "q"; Tui.incoming := [] |})
  /\ Tui.handle_key Samples.collab0 Tui.KEY_DOWN
       (Tui.with_state (fun _ => Samples.state_three_rows) Samples.tui0)
     = Tui.handle_key Samples.collab0 "j"
         (Tui.with_state (fun _ => Samples.state_three_rows) Samples.tui0).
Proof.
  destruct (arrow_keys_read_as_one_key Samples.collab0
              (Tui.with_state (fun _ => Samples.state_three_rows) Samples.tui0)
              500 "q" []) as (Hdown & _ & Hj & _).
  - lia.
  - split; [exact Hdown|exact Hj].
Defined.

(** ** The rows of the worktree view *)

Section WorktreeRows.
Import Hooks Tui.

(** When a comprehension over a function that may raise gives a list,
    every element of it is the value of the function on the element in
    its place. *)
Lemma map_result_inv {A B} (f : A -> result B) (xs : list A) (ys : list B) :
  map_result f xs = Ok ys -> Forall2 (fun x y => f x = Ok y) xs ys.
Proof.
  revert ys. induction xs as [|x xs IH]; intros ys; cbn [map_result].
  - intros [= <-]. constructor.
  - destruct (f x) as [y|e] eqn:Hx; [|discriminate].
    destruct (map_result f xs) as [ys'|e]; [|discriminate].
    intros [= <-]. constructor; [assumption|now apply IH].
Qed.

Lemma Forall2_map_same {A B C} (g : A -> C) (h : B -> C) (xs : list A) (ys : list B) :
  Forall2 (fun x y => h y = g x) xs ys -> map h ys = map g xs.
Proof. induction 1 as [|x y xs ys Hxy _ IH]; cbn [map]; [reflexivity|now rewrite Hxy, IH]. Qed.

Lemma make_worktree_info_worktree c wt info :
  make_worktree_info c wt = Ok info ->
  wi_worktree info = wt /\ wi_hook_data info = ∅.
Proof.
  unfold make_worktree_info. destruct (session_exists c _); [|discriminate].
  intros [= <-]. split; reflexivity.
Qed.

Lemma with_docker_status_worktree c info info' :
  with_docker_status c info = Ok info' ->
  wi_worktree info' = wi_worktree info /\ wi_hook_data info' = wi_hook_data info.
Proof.
  unfold with_docker_status. destruct (negb _).
  - intros [= <-]. split; reflexivity.
  - destruct (compose_ps c _); [|discriminate]. intros [= <-]. split; reflexivity.
Qed.

(** The entries of the mapping [run_all_hooks] returns, read through
    the row they are attached to. *)
Lemma organized_entry env hooks wts path name r :
  lookup2 (organized (run_all_hooks env hooks wts 10000)) path name = Some r ->
  hr_worktree_path r = path /\ hr_column_name r = name
  /\ exists hook worktree,
       In hook hooks /\ In worktree wts
       /\ snd (run_hook env hook worktree 10000) = Ok r.
Proof.
  unfold run_all_hooks.
  destruct hooks as [|h hs];
    [cbn [organized]; unfold lookup2; rewrite lookup_empty; discriminate|].
  destruct wts as [|w ws];
    [cbn [organized]; unfold lookup2; rewrite lookup_empty; discriminate|].
  cbn [organized]. rewrite lookup2_organize. intros Hlast.
  apply last_ok_origin in Hlast as (Hin & Hp & Hn).
  split; [exact Hp|]. split; [exact Hn|].
  rewrite map_map in Hin. apply in_map_iff in Hin as ([hook worktree] & Hrun & Htask).
  apply in_hook_tasks in Htask as [Hh Hw]. exists hook, worktree. auto.
Qed.

Lemma Forall2_right {A B} (Q : B -> Prop) (xs : list A) (ys : list B) :
  Forall2 (fun _ y => Q y) xs ys -> Forall Q ys.
Proof. induction 1; constructor; assumption. Qed.

(** What the first two loops of [_load_worktree_data] build: one entry
    for each worktree, in order, with no hook data yet. *)
Lemma worktree_infos_rows c wts infos infos' :
  map_result (make_worktree_info c) wts = Ok infos ->
  (if docker_enabled (config c) then map_result (with_docker_status c) infos
   else Ok infos) = Ok infos' ->
  map wi_worktree infos' = wts
  /\ Forall (fun info => wi_hook_data info = ∅) infos'.
Proof.
  intros Hinfos Hdocker. apply map_result_inv in Hinfos.
  assert (Hkept : Forall2 (fun info info' => wi_worktree info' = wi_worktree info
                                             /\ wi_hook_data info' = wi_hook_data info)
                    infos infos').
  { destruct (docker_enabled (config c)).
    - apply map_result_inv in Hdocker. eapply Forall2_impl; [exact Hdocker|].
      intros info info'. apply with_docker_status_worktree.
    - injection Hdocker as <-. apply Forall_Forall2_diag, Forall_forall. auto. }
  assert (Hrows : Forall2 (fun wt info' => wi_worktree info' = wt /\ wi_hook_data info' = ∅)
                    wts infos').
  { clear Hdocker. revert infos' Hkept.
    induction Hinfos as [|wt info wts' infos0 Hmade _ IH]; intros infos' Hkept;
      inversion Hkept as [|? info' ? infos1 [Hw' Hd'] Hrest]; subst; constructor.
    - apply make_worktree_info_worktree in Hmade as [Hw Hd]. split; congruence.
    - now apply IH. }
  split.
  - rewrite <- (map_id wts). apply Forall2_map_same.
    eapply Forall2_impl; [exact Hrows|]. now intros wt info' [Hw _].
  - apply (Forall2_right _ wts). eapply Forall2_impl; [exact Hrows|].
    now intros wt info' [_ Hd].
Qed.

(** X26: when the worktrees can be listed and [_load_worktree_data]
    returns, the snapshot has one row for every worktree that is neither bare
    nor on the base branch, in the order of the listing, and no other row;
    every hook result shown in a row was produced by one of the hooks in force
    for the path of that row and stands under its column name; the cursor,
    the selection and the window are as they were. *)
Lemma load_worktree_data_rows (c : Collab) (s : TUIState) (all_worktrees : list Worktree) :
  list_worktrees c (main_repo (config c)) = Ok all_worktrees ->
  fst (load_worktree_data c s) = None ->
  let s' := snd (load_worktree_data c s) in
  map wi_worktree (worktrees s')
  = List.filter
      (fun wt => negb (wt_is_bare wt)
                 && negb (String.eqb (wt_branch wt) (base_branch (config c))))
      all_worktrees
  /\ (forall info name r,
        In info (worktrees s') -> wi_hook_data info !! name = Some r ->
        hr_worktree_path r = wt_path (wi_worktree info)
        /\ hr_column_name r = name
        /\ exists hook worktree,
             In hook (resolve_hooks c) /\ In worktree (map wi_worktree (worktrees s'))
             /\ snd (run_hook (hooks_env c) hook worktree 10000) = Ok r)
  /\ cursor s' = cursor s /\ selected s' = selected s
  /\ viewport_start s' = viewport_start s.
Proof.
  intros Hlist. unfold load_worktree_data, get_feature_worktrees. rewrite Hlist.
  set (wts := List.filter _ all_worktrees).
  destruct (map_result (make_worktree_info c) wts) as [infos|e] eqn:Hinfos;
    [|discriminate].
  destruct (if docker_enabled (config c) then map_result (with_docker_status c) infos
            else Ok infos) as [infos'|e] eqn:Hdocker; [|discriminate].
  intros _. cbn [snd fst worktrees set_worktrees cursor selected viewport_start].
  destruct (worktree_infos_rows c wts infos infos' Hinfos Hdocker) as [Hmap Hempty].
  rewrite Forall_forall in Hempty.
  assert (Hnone : forall info name r,
             In info infos' -> wi_hook_data info !! name = Some r -> False).
  { intros info name r Hin Hlook. apply list_elem_of_In in Hin.
    rewrite (Hempty info Hin), lookup_empty in Hlook. discriminate. }
  assert (Hplain : forall new_worktrees, new_worktrees = infos' ->
             map wi_worktree new_worktrees = wts
             /\ (forall info name r,
                   In info new_worktrees -> wi_hook_data info !! name = Some r ->
                   hr_worktree_path r = wt_path (wi_worktree info)
                   /\ hr_column_name r = name
                   /\ exists hook worktree,
                        In hook (resolve_hooks c)
                        /\ In worktree (map wi_worktree new_worktrees)
                        /\ snd (run_hook (hooks_env c) hook worktree 10000) = Ok r)).
  { intros new_worktrees ->. split; [exact Hmap|].
    intros info name r Hin Hlook. destruct (Hnone info name r Hin Hlook). }
  destruct (resolve_hooks c) as [|hook0 hooks0] eqn:Hhooks.
  { destruct (Hplain infos' eq_refl) as [H1 H2].
    split; [exact H1|]. split; [exact H2|]. repeat split. }
  destruct wts as [|wt0 wts0] eqn:Hwts.
  { destruct (Hplain infos' eq_refl) as [H1 H2].
    split; [exact H1|]. split; [exact H2|]. repeat split. }
  rewrite <- Hwts in *. rewrite <- Hhooks in *.
  set (m := organized (run_all_hooks (hooks_env c) (resolve_hooks c) wts 10000)).
  assert (Hrows : map wi_worktree (map (attach_hook_data m) infos') = wts).
  { rewrite map_map, <- Hmap. apply map_ext. intros info. unfold attach_hook_data.
    now destruct (m !! _). }
  split; [exact Hrows|]. split; [|repeat split].
  intros info name r Hin Hlook. rewrite Hrows.
  apply in_map_iff in Hin as (info0 & <- & Hin0).
  unfold attach_hook_data in *.
  destruct (m !! wt_path (wi_worktree info0)) as [data|] eqn:Hdata.
  - cbn [wi_hook_data wi_worktree set_hook_data] in *.
    apply (organized_entry (hooks_env c) (resolve_hooks c) wts).
    fold m. unfold lookup2. now rewrite Hdata.
  - destruct (Hnone info0 name r Hin0 Hlook).
Qed.

End WorktreeRows.

(** ** Colour sequences in the captured log *)

Section ColourSequences.
Import Hooks Tui.

Lemma strip_ansi_plain_prefix (text rest : string) :
  PyStr.has_char (ascii_of_nat 27) text = false ->
  strip_ansi_aux EmptyString (text ++ rest) = text ++ strip_ansi_aux EmptyString rest.
Proof.
  induction text as [|ch text IH]; intros Hplain.
  - now rewrite !append_empty_l.
  - cbn [PyStr.has_char] in Hplain. apply orb_false_elim in Hplain as [Hch Hplain].
    rewrite !append_cons. cbn [strip_ansi_aux]. unfold ansi_start.
    destruct (Ascii.eqb_spec ch (ascii_of_nat 27)) as [->|_].
    + rewrite Ascii.eqb_refl in Hch. discriminate.
    + now rewrite IH.
Qed.

Lemma strip_ansi_parameters (params : list ascii) (a b : ascii) (q rest : string) :
  Forall (fun ch => is_ansi_param ch = true) params ->
  strip_ansi_aux (String a (String b q)) (string_of_list_ascii params ++ String "m" rest)
  = strip_ansi_aux EmptyString rest.
Proof.
  intros Hparams. revert q. induction Hparams as [|ch params Hch _ IH]; intros q.
  - cbn [string_of_list_ascii]. rewrite append_empty_l. cbn [strip_ansi_aux].
    change (is_ansi_param "m") with false. cbv iota.
    now rewrite Ascii.eqb_refl.
  - cbn [string_of_list_ascii]. rewrite append_cons. cbn [strip_ansi_aux].
    rewrite Hch, !append_cons. apply IH.
Qed.

(** X27: cleaning the captured log leaves text that holds no escape
    character as it is, and drops a colour sequence (escape, bracket, digits
    and semicolons, [m]) that follows such text, going on with what comes
    after it. *)
Lemma strip_ansi_drops_colour (text : string) (params : list ascii) (rest : string) :
  PyStr.has_char (ascii_of_nat 27) text = false ->
  Forall (fun ch => is_ansi_param ch = true) params ->
  strip_ansi text = text
  /\ strip_ansi (text ++ ESC ++ "[" ++ string_of_list_ascii params ++ "m" ++ rest)
     = text ++ strip_ansi rest.
Proof.
  intros Hplain Hparams. unfold strip_ansi. split.
  - rewrite <- (append_empty_r text) at 1. rewrite strip_ansi_plain_prefix by assumption.
    cbn [strip_ansi_aux]. apply append_empty_r.
  - rewrite strip_ansi_plain_prefix by assumption. f_equal.
    change (ESC ++ "[" ++ string_of_list_ascii params ++ "m" ++ rest)
      with (String (ascii_of_nat 27)
              (String "[" (string_of_list_ascii params ++ String "m" rest))).
    cbn [strip_ansi_aux]. unfold ansi_start. rewrite Ascii.eqb_refl.
    cbn [strip_ansi_aux]. rewrite Ascii.eqb_refl, append_cons, append_empty_l.
    now apply strip_ansi_parameters.
Qed.

End ColourSequences.

(** X26 on a listing with the main checkout and a bare entry. *)
Lemma load_worktree_data_rows_witness :
  fst (Tui.load_worktree_data Samples.collab_main_and_bare
         (Tui.initial_state Tui.WORKTREES)) = None
  /\ map Tui.wi_worktree
       (Tui.worktrees
          (snd (Tui.load_worktree_data Samples.collab_main_and_bare
                  (Tui.initial_state Tui.WORKTREES))))
     = [Samples.wt_b; Samples.wt_a].
Proof.
  split; [reflexivity|].
  destruct (load_worktree_data_rows Samples.collab_main_and_bare
              (Tui.initial_state Tui.WORKTREES)
              [ {| Hooks.wt_path := "/repo"; Hooks.wt_branch := "main";
                   Hooks.wt_is_bare := false |};
                Samples.wt_b;
                {| Hooks.wt_path := "/repo/.bare"; Hooks.wt_branch := "(bare)";
                   Hooks.wt_is_bare := true |};
                Samples.wt_a ] eq_refl eq_refl) as [Hrows _].
  exact Hrows.
Defined.

(** X27 on a line of [git] printed in bold red. *)
Lemma strip_ansi_drops_colour_witness :
  Tui.strip_ansi ("error: " ++ Tui.ESC ++ "[1;31m" ++ "fatal: dirty") = "error: fatal: dirty".
Proof.
  destruct (strip_ansi_drops_colour "error: " ["1"; ";"; "3"; "1"]%char "fatal: dirty"
              eq_refl) as [_ Hdrop].
  - repeat constructor.
  - exact Hdrop.
Defined.
